(** * tg_labs: the company bot's store, scheduler and notifier

    A shallow embedding of [Lab2/bot.py] and [Lab3/bot.py].  The two files
    share their store, their [/start] handler and their notifier, word
    for word but for the wording of one warning (see [log_entry]); they
    differ in [schedule_jobs], in [/events] and in how they start, which
    are embedded once per file (modules [Lab2] and [Lab3]).

    Python values read from [data.json] are modelled by [json]; Python
    exceptions by the error half of [result]; everything that changes (the
    two files on disk, the job queue, the messages sent, the log) lives in
    [world], threaded by the monad [M]. *)

From Stdlib Require Import String Ascii ZArith NArith List Bool Lia.
Import ListNotations.

Local Open Scope string_scope.
Local Open Scope Z_scope.
Local Set Warnings "-register-all".

(** ** Python values *)

(** What [json.load] can return.  Numbers are the integers (chat
    identifiers are integers); fractional numbers are outside the model.
    A [dict] keeps its keys in insertion order, as Python's does. *)
Inductive json : Type :=
| JNull : json
| JBool : bool -> json
| JNum : Z -> json
| JStr : string -> json
| JArr : list json -> json
| JObj : list (string * json) -> json.

(** An f-string, kept as its literal parts and the values interpolated
    into it ([Fmt v] stands for [str(v)]); a message text is either such a
    string or a value taken from the store as it is. *)
Inductive piece : Type :=
| Lit : string -> piece
| Fmt : json -> piece.

Inductive pytext : Type :=
| FString : list piece -> pytext
| Value : json -> pytext.

Inductive exn : Type :=
| AttributeError
| KeyError
| TypeError
| ValueError
| FileNotFoundError
| JSONDecodeError
| UnicodeDecodeError
| UnknownTimeZoneError
| TransportError.

Inductive result (A : Type) : Type :=
| Ok : A -> result A
| Raise : exn -> result A.
Arguments Ok {A} _.
Arguments Raise {A} _.

Definition rbind {A B : Type} (r : result A) (f : A -> result B) : result B :=
  match r with
  | Ok a => f a
  | Raise e => Raise e
  end.

Fixpoint assoc (k : string) (kvs : list (string * json)) : option json :=
  match kvs with
  | [] => None
  | (k', v) :: rest => if String.eqb k k' then Some v else assoc k rest
  end.

(** [d[k] = v]: an existing key keeps its place, a new one goes last. *)
Fixpoint assoc_set (k : string) (v : json) (kvs : list (string * json))
  : list (string * json) :=
  match kvs with
  | [] => [(k, v)]
  | (k', v') :: rest =>
      if String.eqb k k' then (k', v) :: rest
      else (k', v') :: assoc_set k v rest
  end.

(** [d.get(k, default)]; only a dict has [get]. *)
Definition dict_get (d : json) (k : string) (default : json) : result json :=
  match d with
  | JObj kvs => Ok (match assoc k kvs with Some v => v | None => default end)
  | _ => Raise AttributeError
  end.

(** [d[k] = v] on a value loaded from the store. *)
Definition dict_set (d : json) (k : string) (v : json) : result json :=
  match d with
  | JObj kvs => Ok (JObj (assoc_set k v kvs))
  | _ => Raise TypeError
  end.

(** Python truth value: [not v] is [negb (truthy v)]. *)
Definition truthy (v : json) : bool :=
  match v with
  | JNull => false
  | JBool b => b
  | JNum n => negb (n =? 0)
  | JStr s => negb (String.eqb s "")
  | JArr l => match l with [] => false | _ => true end
  | JObj kvs => match kvs with [] => false | _ => true end
  end.

Definition is_continuation (c : ascii) : bool :=
  let n := N_of_ascii c in ((128 <=? n) && (n <? 192))%N.

(** The characters of a UTF-8 string: every continuation byte stays with
    the byte before it. *)
Fixpoint py_chars (s : string) : list string :=
  match s with
  | EmptyString => []
  | String c r =>
      match r with
      | String c' _ =>
          if is_continuation c' then
            match py_chars r with
            | ch :: tl => String c ch :: tl
            | [] => [String c EmptyString]
            end
          else String c EmptyString :: py_chars r
      | EmptyString => [String c EmptyString]
      end
  end.

(** [for x in v]: the items of a list, the keys of a dict, the characters
    of a string; anything else is not iterable. *)
Definition py_iter (v : json) : result (list json) :=
  match v with
  | JArr l => Ok l
  | JObj kvs => Ok (map (fun kv => JStr (fst kv)) kvs)
  | JStr s => Ok (map JStr (py_chars s))
  | _ => Raise TypeError
  end.

(** [chat_id == v] for an integer [chat_id]: [True] and [False] compare as
    [1] and [0]. *)
Definition int_eq (n : Z) (v : json) : bool :=
  match v with
  | JNum m => n =? m
  | JBool b => n =? (if b then 1 else 0)
  | _ => false
  end.

(** [chat_id in v] for an integer [chat_id]. *)
Definition int_in (n : Z) (v : json) : result bool :=
  match v with
  | JArr l => Ok (existsb (int_eq n) l)
  | JObj _ => Ok false
  | _ => Raise TypeError
  end.

(** [v.append(x)]; only a list has [append]. *)
Definition list_append (v x : json) : result json :=
  match v with
  | JArr l => Ok (JArr (l ++ [x]))
  | _ => Raise AttributeError
  end.

(** [table[key]] for a dict literal with string keys: a list or a dict is
    not hashable, any other missing key is a [KeyError]. *)
Definition subscript (table : list (string * Z)) (key : json) : result Z :=
  match key with
  | JStr s =>
      match find (fun kv => String.eqb s (fst kv)) table with
      | Some kv => Ok (snd kv)
      | None => Raise KeyError
      end
  | JArr _ | JObj _ => Raise TypeError
  | _ => Raise KeyError
  end.

(** ** Clock values *)

(** A [datetime] by its local fields; [ordinal] is the proleptic day
    number ([date.toordinal()], day 1 is a Monday). *)
Record datetime : Type := mkDatetime {
  ordinal : Z;
  hour : Z;
  minute : Z;
  second : Z;
  microsecond : Z
}.

(** [dt.weekday()], Monday is 0. *)
Definition weekday (dt : datetime) : Z := (ordinal dt + 6) mod 7.

(** [dt.replace(hour=h, minute=m, second=0, microsecond=0)]. *)
Definition replace_hm (dt : datetime) (h m : Z) : datetime :=
  mkDatetime (ordinal dt) h m 0 0.

(** [dt - timedelta(minutes=k)]: arithmetic on the local fields, the day
    number follows the carry. *)
Definition sub_minutes (dt : datetime) (k : Z) : datetime :=
  let total := hour dt * 60 + minute dt - k in
  mkDatetime (ordinal dt + total / 1440)
             ((total mod 1440) / 60)
             ((total mod 1440) mod 60)
             (second dt) (microsecond dt).

Definition is_digit (c : ascii) : bool :=
  let n := N_of_ascii c in ((48 <=? n) && (n <=? 57))%N.

Definition digit (c : ascii) : Z := Z.of_N (N_of_ascii c) - 48.

Definition colon : ascii := ":"%char.

Definition byte (c : ascii) : Z := Z.of_N (N_of_ascii c).

(** The six payload bits of a continuation byte of UTF-8. *)
Definition trail (s : string) : option (Z * string) :=
  match s with
  | String c r => if is_continuation c then Some (byte c - 128, r) else None
  | EmptyString => None
  end.

(** The character at the head of a string, as its code point, and what
    follows it: strings are held in UTF-8, one to four bytes a
    character. *)
Definition code_point (s : string) : option (Z * string) :=
  match s with
  | String c r =>
      let b := byte c in
      if b <? 128 then Some (b, r)
      else if (194 <=? b) && (b <? 224) then
        match trail r with
        | Some (t1, r1) => Some ((b - 192) * 64 + t1, r1)
        | None => None
        end
      else if (224 <=? b) && (b <? 240) then
        match trail r with
        | Some (t1, r1) =>
            match trail r1 with
            | Some (t2, r2) =>
                let cp := ((b - 224) * 64 + t1) * 64 + t2 in
                if 2048 <=? cp then Some (cp, r2) else None
            | None => None
            end
        | None => None
        end
      else if (240 <=? b) && (b <? 245) then
        match trail r with
        | Some (t1, r1) =>
            match trail r1 with
            | Some (t2, r2) =>
                match trail r2 with
                | Some (t3, r3) =>
                    let cp := (((b - 240) * 64 + t1) * 64 + t2) * 64 + t3 in
                    if (65536 <=? cp) && (cp <? 1114112) then Some (cp, r3)
                    else None
                | None => None
                end
            | None => None
            end
        | None => None
        end
      else None
  | EmptyString => None
  end.

(** The code points of the digit zero of every decimal system of
    Unicode 14 (general category [Nd]); the ten digits of a system are
    consecutive. *)
Definition decimal_zeros : list Z :=
  [48; 1632; 1776; 1984; 2406; 2534; 2662; 2790; 2918; 3046; 3174; 3302;
   3430; 3558; 3664; 3792; 3872; 4160; 4240; 6112; 6160; 6470; 6608; 6784;
   6800; 6992; 7088; 7232; 7248; 42528; 43216; 43264; 43472; 43504; 43600;
   44016; 65296; 66720; 68912; 69734; 69872; 69942; 70096; 70384; 70736;
   70864; 71248; 71360; 71472; 71904; 72016; 72784; 73040; 73120; 92768;
   92864; 93008; 120782; 120792; 120802; 120812; 120822; 123200; 123632;
   125264; 130032].

(** [int(ch)] for a character that [\d] matches. *)
Definition decimal_value (cp : Z) : option Z :=
  match find (fun zero => (zero <=? cp) && (cp <=? zero + 9)) decimal_zeros with
  | Some zero => Some (cp - zero)
  | None => None
  end.

(** [\d] at the head of a string: the value of the digit and the rest. *)
Definition read_digit (s : string) : option (Z * string) :=
  match code_point s with
  | Some (cp, rest) =>
      match decimal_value cp with
      | Some d => Some (d, rest)
      | None => None
      end
  | None => None
  end.

(** The head of a string is one of the characters [lo] to [hi]. *)
Definition head_in (lo hi : ascii) (s : string) : bool :=
  match s with
  | String c _ => (byte lo <=? byte c) && (byte c <=? byte hi)
  | EmptyString => false
  end.

(** The [":"] of the format, and what follows it. *)
Definition after_colon (s : string) : option string :=
  match s with
  | String c rest => if Ascii.eqb c colon then Some rest else None
  | EmptyString => None
  end.

(** The hour of ["%H"], pattern [2[0-3]|[0-1]\d|\d], followed by the
    [":"] of the format; returns the hour and what follows the colon.
    With two digits ahead only the first two alternatives can be
    followed by the colon. *)
Definition parse_H (s : string) : option (Z * string) :=
  match read_digit s with
  | Some (d1, r1) =>
      match read_digit r1 with
      | Some (d2, r2) =>
          if (head_in "2" "2" s && head_in "0" "3" r1) || head_in "0" "1" s
          then match after_colon r2 with
               | Some rest => Some (10 * d1 + d2, rest)
               | None => None
               end
          else None
      | None =>
          match after_colon r1 with
          | Some rest => Some (d1, rest)
          | None => None
          end
      end
  | None => None
  end.

(** The minute of ["%M"], pattern [[0-5]\d|\d]; returns the minute and the
    unconverted rest. *)
Definition parse_M (s : string) : option (Z * string) :=
  match read_digit s with
  | Some (d1, r1) =>
      match read_digit r1 with
      | Some (d2, r2) =>
          if head_in "0" "5" s then Some (10 * d1 + d2, r2) else Some (d1, r1)
      | None => Some (d1, r1)
      end
  | None => None
  end.

(** [datetime.strptime(v, "%H:%M").time()] as (hour, minute): the format
    is matched as the regular expression
    [(2[0-3]|[0-1]\d|\d):([0-5]\d|\d)], in which [\d] is any decimal
    digit of Unicode, and the whole string has to be used up. *)
Definition strptime_HM (v : json) : result (Z * Z) :=
  match v with
  | JStr s =>
      match parse_H s with
      | Some (h, rest) =>
          match parse_M rest with
          | Some (m, EmptyString) => Ok (h, m)
          | _ => Raise ValueError
          end
      | None => Raise ValueError
      end
  | _ => Raise TypeError
  end.

(** ** Computations

    A computation may change the state [W] and then returns or raises;
    what it changed before raising stays changed. *)

Definition M (W A : Type) : Type := W -> W * result A.

Definition ret {W A : Type} (a : A) : M W A := fun w => (w, Ok a).

Definition bind {W A B : Type} (m : M W A) (f : A -> M W B) : M W B :=
  fun w =>
    match m w with
    | (w', Ok a) => f a w'
    | (w', Raise e) => (w', Raise e)
    end.

Definition lift {W A : Type} (r : result A) : M W A := fun w => (w, r).

(** [try: m except Exception as exc: handler(exc)]. *)
Definition try_except {W A : Type} (m : M W A) (handler : exn -> M W A)
  : M W A :=
  fun w =>
    match m w with
    | (w', Ok a) => (w', Ok a)
    | (w', Raise e) => handler e w'
    end.

Fixpoint for_each {W A : Type} (l : list A) (body : A -> M W unit)
  : M W unit :=
  match l with
  | [] => ret tt
  | x :: rest => bind (body x) (fun _ => for_each rest body)
  end.

Declare Scope py_scope.
Delimit Scope py_scope with py.
Notation "x <- m ;; k" := (bind m (fun x => k))
  (at level 61, m at next level, right associativity) : py_scope.
Notation "m ;; k" := (bind m (fun _ => k))
  (at level 61, right associativity) : py_scope.
Notation "x <-? r ;; k" := (rbind r (fun x => k))
  (at level 61, r at next level, right associativity) : py_scope.
Local Open Scope py_scope.

(** ** The host: libraries and surroundings the bot runs on *)

(** What [json.dump] leaves in the file it writes to: the whole text, or
    the part written before it raised. *)
Inductive dump_outcome : Type :=
| Dumped : string -> dump_outcome
| DumpRaised : string -> exn -> dump_outcome.

(** A [pytz] time zone, known by the name of its zone. *)
Inductive tzinfo : Type :=
| Zone : string -> tzinfo.

Class Host : Type := {
  (** [pytz.timezone(name)] *)
  pytz_timezone : string -> result tzinfo;
  (** [os.getenv("TIMEZONE")], when set *)
  TIMEZONE : option string;
  (** [datetime.now(tz)] at the n-th reading of the clock *)
  now : nat -> tzinfo -> datetime;
  (** [json.dump(data, f, ensure_ascii=False, indent=2)] to a UTF-8 file *)
  json_dump : json -> dump_outcome;
  (** [json.load(f)] of a UTF-8 file *)
  json_load : string -> result json;
  (** does [bot.send_message(chat_id=c, text=t)] return normally *)
  delivers : json -> pytext -> bool
}.

Inductive callback : Type :=
| SendDailyDigest
| SendEventReminder.

Inductive parse_mode : Type :=
| HTML.

(** What the code hands to [logger]: which message and its arguments, not
    the wording of the message.  The wording is the same in both files
    for every message but the warning of [get_timezone], which reads
    ["falling back to"] in [Lab2/bot.py] and ["fallback to"] in
    [Lab3/bot.py]; an [InvalidTimezone] entry stands for either, and no
    property below compares the logs of the two files on it. *)
Inductive log_entry : Type :=
| DataNotFound
| DataNotParsed (exc : exn)
| SaveFailed (exc : exn)
| InvalidTimezone (name : string)
| DigestNotSent (chat_id : json) (exc : exn)
| ReminderNotSent (chat_id : json) (exc : exn)
| ReminderNotScheduled (ev : json) (exc : exn).

(** [update.effective_user.first_name] and [update.effective_chat.id],
    each when the update has one. *)
Record Update : Type := mkUpdate {
  effective_user : option string;
  effective_chat : option Z
}.

Section Bot.

Context {host : Host}.

(** [datetime.time(hour, minute, tzinfo=tz)]. *)
Record pytime : Type := mkTime {
  t_hour : Z;
  t_minute : Z;
  t_tzinfo : tzinfo
}.

(** One [JobQueue.run_daily] registration: the callback and the
    arguments [time], [days], [data] and [name] as the code hands them
    over.  What day a number of [days] stands for is the job runner's
    business (see [run_daily_weekday]). *)
Record job : Type := mkJob {
  job_callback : callback;
  job_time : pytime;
  job_days : list Z;
  job_data : option json;
  job_name : pytext
}.

Record world : Type := mkWorld {
  data_file : option string;
  tmp_file : option string;
  job_queue : list job;
  outbox : list (json * pytext);
  replies : list (pytext * option parse_mode);
  log : list log_entry;
  clock_reads : nat
}.

Definition logger (entry : log_entry) : M world unit :=
  fun w =>
    (mkWorld (data_file w) (tmp_file w) (job_queue w) (outbox w) (replies w)
             (log w ++ [entry]) (clock_reads w), Ok tt).

Definition datetime_now (tz : tzinfo) : M world datetime :=
  fun w =>
    (mkWorld (data_file w) (tmp_file w) (job_queue w) (outbox w) (replies w)
             (log w) (S (clock_reads w)), Ok (now (clock_reads w) tz)).

(** [jq.run_daily(callback, time=t, days=days, data=data, name=name)]. *)
Definition run_daily (j : job) : M world unit :=
  fun w =>
    (mkWorld (data_file w) (tmp_file w) (job_queue w ++ [j]) (outbox w)
             (replies w) (log w) (clock_reads w), Ok tt).

(** [await context.bot.send_message(chat_id=chat_id, text=text)]. *)
Definition bot_send_message (chat_id : json) (text : pytext) : M world unit :=
  fun w =>
    if delivers chat_id text
    then (mkWorld (data_file w) (tmp_file w) (job_queue w)
                  (outbox w ++ [(chat_id, text)]) (replies w) (log w)
                  (clock_reads w), Ok tt)
    else (w, Raise TransportError).

(** [await update.effective_message.reply_text(text, parse_mode=mode)]. *)
Definition reply_text (text : pytext) (mode : option parse_mode)
  : M world unit :=
  fun w =>
    (mkWorld (data_file w) (tmp_file w) (job_queue w) (outbox w)
             (replies w ++ [(text, mode)]) (log w) (clock_reads w), Ok tt).

(** [with open(DATA_FILE, "r") as f: return json.load(f)]. *)
Definition read_data_file : M world json :=
  fun w =>
    match data_file w with
    | Some text => (w, json_load text)
    | None => (w, Raise FileNotFoundError)
    end.

(** [with open(tmp, "w") as f: json.dump(data, f, ...)]: the file is
    created or emptied, then holds what [json.dump] wrote. *)
Definition write_tmp (data : json) : M world unit :=
  fun w =>
    match json_dump data with
    | Dumped text =>
        (mkWorld (data_file w) (Some text) (job_queue w) (outbox w)
                 (replies w) (log w) (clock_reads w), Ok tt)
    | DumpRaised part exc =>
        (mkWorld (data_file w) (Some part) (job_queue w) (outbox w)
                 (replies w) (log w) (clock_reads w), Raise exc)
    end.

(** [os.replace(tmp, DATA_FILE)]. *)
Definition os_replace : M world unit :=
  fun w =>
    match tmp_file w with
    | Some text =>
        (mkWorld (Some text) None (job_queue w) (outbox w) (replies w)
                 (log w) (clock_reads w), Ok tt)
    | None => (w, Raise FileNotFoundError)
    end.

(** ** The store *)

Definition load_data : M world json :=
  try_except read_data_file
    (fun exc =>
       match exc with
       | FileNotFoundError => logger DataNotFound ;; ret (JObj [])
       | JSONDecodeError => logger (DataNotParsed exc) ;; ret (JObj [])
       | _ => lift (Raise exc)
       end).

Definition save_data (data : json) : M world unit :=
  try_except (write_tmp data ;; os_replace)
    (fun exc => logger (SaveFailed exc)).

Definition get_timezone : M world tzinfo :=
  let tz_name := match TIMEZONE with
                 | Some name => name
                 | None => "Europe/Moscow"
                 end in
  try_except (lift (pytz_timezone tz_name))
    (fun _ =>
       logger (InvalidTimezone tz_name) ;;
       lift (pytz_timezone "Europe/Moscow")).

Definition bold (text : string) : string := "<b>" ++ text ++ "</b>".

Definition code (text : string) : string := "<code>" ++ text ++ "</code>".

Definition newline : string := String (ascii_of_nat 10) EmptyString.

(** ** The [/start] handler *)

(** The text of the reply, an f-string over [user_first]. *)
Definition greeting (user_first : string) : pytext :=
  FString
    [Lit "Привет, "; Fmt (JStr user_first); Lit "! Я бот компании ";
     Lit (bold "ТралалелоТралала"); Lit newline;
     Lit "Помогу с информацией о компании, контактах, событиях и пришлю дайджест.";
     Lit newline;
     Lit "Посмотри "; Lit (code "/help"); Lit " для списка команд."].

Definition start (update : Update) : M world unit :=
  let user_first := match effective_user update with
                    | Some first_name => first_name
                    | None => ""
                    end in
  data <- load_data ;;
  subscribers <- lift (dict_get data "subscribers" (JArr [])) ;;
  let chat_id := effective_chat update in
  match chat_id with
  | Some id =>
      present <- lift (int_in id subscribers) ;;
      if negb present then
        subscribers' <- lift (list_append subscribers (JNum id)) ;;
        data' <- lift (dict_set data "subscribers" subscribers') ;;
        save_data data'
      else ret tt
  | None => ret tt
  end ;;
  reply_text (greeting user_first) (Some HTML).

(** ** The notifier *)

Definition weekday_names : list (Z * string) :=
  [(0, "Понедельник"); (1, "Вторник"); (2, "Среда"); (3, "Четверг");
   (4, "Пятница"); (5, "Суббота"); (6, "Воскресенье")].

(** [mapping[dt.weekday()]]. *)
Definition weekday_ru (dt : datetime) : result string :=
  match find (fun kv => weekday dt =? fst kv) weekday_names with
  | Some kv => Ok (snd kv)
  | None => Raise KeyError
  end.

Definition send_daily_digest : M world unit :=
  tz <- get_timezone ;;
  dt <- datetime_now tz ;;
  today_ru <- lift (weekday_ru dt) ;;
  data <- load_data ;;
  digests <- lift (dict_get data "digests" (JObj [])) ;;
  msg <- lift (dict_get digests today_ru JNull) ;;
  if negb (truthy msg) then ret tt
  else
    subscribers <- lift (r <-? dict_get data "subscribers" (JArr []) ;; py_iter r) ;;
    for_each subscribers
      (fun chat_id =>
         try_except (bot_send_message chat_id (Value msg))
           (fun exc => logger (DigestNotSent chat_id exc))).

(** [context.job.data or {}] followed by the three [get]s and the
    f-string of the reminder. *)
Definition reminder_text (data : option json) : result pytext :=
  let job_data := match data with
                  | Some d => if truthy d then d else JObj []
                  | None => JObj []
                  end in
  title <-? dict_get job_data "title" JNull ;;
  time_str <-? dict_get job_data "time" JNull ;;
  description <-? dict_get job_data "description" JNull ;;
  Ok (FString [Lit "Напоминание: "; Fmt title; Lit " в "; Fmt time_str;
               Lit ". "; Fmt description]).

Definition send_event_reminder (context_job : job) : M world unit :=
  data <- load_data ;;
  events_data <- lift (dict_get data "events" (JArr [])) ;;
  if negb (truthy events_data) then ret tt
  else
    text <- lift (reminder_text (job_data context_job)) ;;
    subscribers <- lift (r <-? dict_get data "subscribers" (JArr []) ;; py_iter r) ;;
    for_each subscribers
      (fun chat_id =>
         try_except (bot_send_message chat_id text)
           (fun exc => logger (ReminderNotSent chat_id exc))).

Definition every_day : list Z := [0; 1; 2; 3; 4; 5; 6].

(** The registration of the daily digest, the same in both files. *)
Definition daily_digest_job (tz : tzinfo) : job :=
  mkJob SendDailyDigest (mkTime 9 0 tz) every_day None
        (FString [Lit "daily_digest"]).

(** ** The other command handlers *)

(** ["\n".join(lines)] for lines that are f-strings. *)
Fixpoint join_lines (lines : list (list piece)) : list piece :=
  match lines with
  | [] => []
  | [line] => line
  | line :: rest => line ++ Lit newline :: join_lines rest
  end.

(** A [for] loop that appends one line per item; it stops at the first
    item whose line raises. *)
Fixpoint lines_of {A : Type} (line : A -> result (list piece)) (l : list A)
  : result (list (list piece)) :=
  match l with
  | [] => Ok []
  | x :: rest =>
      first <-? line x ;;
      others <-? lines_of line rest ;;
      Ok (first :: others)
  end.

(** [bold(v)] and [code(v)] inside an f-string, for a value read from
    the store. *)
Definition bold_fmt (v : json) : list piece := [Lit "<b>"; Fmt v; Lit "</b>"].

Definition code_fmt (v : json) : list piece :=
  [Lit "<code>"; Fmt v; Lit "</code>"].

Definition help_text : string :=
  String.concat newline
    ["Доступные команды:";
     "/start — приветствие и подписка на дайджесты";
     "/help — список команд";
     "/company — информация о компании";
     "/team — состав команды";
     "/contacts — контакты сотрудников";
     "/events — предстоящие события";
     "/digest — сегодняшний дайджест";
     "/departments — отделы из файла сотрудников";
     "/staff — список сотрудников (опц. отдел)";
     "/find — поиск сотрудников по имени/должности/отделу"].

Definition help_cmd : M world unit :=
  reply_text (FString [Lit help_text]) None.

Definition company : M world unit :=
  data <- load_data ;;
  company_info <- lift (dict_get data "company" (JObj [])) ;;
  name <- lift (dict_get company_info "name" (JStr "Компания")) ;;
  industry <- lift (dict_get company_info "industry"
                      (JStr "Сфера деятельности")) ;;
  reply_text
    (FString (bold_fmt name ++ [Lit newline; Lit "Сфера: "; Fmt industry]))
    (Some HTML).

(** The line of one member of the team. *)
Definition member_line (member : json) : result (list piece) :=
  name <-? dict_get member "name" JNull ;;
  role <-? dict_get member "role" JNull ;;
  Ok [Lit "- "; Fmt name; Lit " — "; Fmt role].

Definition team : M world unit :=
  data <- load_data ;;
  team_members <- lift (dict_get data "team" (JArr [])) ;;
  if negb (truthy team_members) then
    reply_text (FString [Lit "Нет данных о команде."]) None
  else
    members <- lift (py_iter team_members) ;;
    lines <- lift (lines_of member_line members) ;;
    reply_text (FString (join_lines ([Lit "Состав команды:"] :: lines))) None.

Definition contacts : M world unit :=
  data <- load_data ;;
  contacts_data <- lift (dict_get data "contacts" (JObj [])) ;;
  ivan_phone <- lift (dict_get contacts_data "ivanovs_phone" (JStr "—")) ;;
  oleg_email <- lift (dict_get contacts_data "oleg_email" (JStr "—")) ;;
  oleg_phone <- lift (dict_get contacts_data "oleg_phone" (JStr "—")) ;;
  reply_text
    (FString ([Lit "Ивановы (общий): "] ++ code_fmt ivan_phone
              ++ [Lit newline; Lit "Олег Арсипов: "] ++ code_fmt oleg_email
              ++ [Lit ", "] ++ code_fmt oleg_phone))
    (Some HTML).

(** The line of one event in the reply of [/events]. *)
Definition event_line (ev : json) : result (list piece) :=
  day <-? dict_get ev "day" JNull ;;
  time_field <-? dict_get ev "time" JNull ;;
  title <-? dict_get ev "title" JNull ;;
  description <-? dict_get ev "description" JNull ;;
  Ok [Lit "- "; Fmt day; Lit " "; Fmt time_field; Lit ": "; Fmt title;
      Lit " — "; Fmt description].

Definition digest : M world unit :=
  tz <- get_timezone ;;
  dt <- datetime_now tz ;;
  today_weekday_ru <- lift (weekday_ru dt) ;;
  data <- load_data ;;
  digests <- lift (dict_get data "digests" (JObj [])) ;;
  msg <- lift (dict_get digests today_weekday_ru JNull) ;;
  if negb (truthy msg) then
    reply_text (FString [Lit "На сегодня нет дайджеста."]) None
  else reply_text (Value msg) None.

End Bot.

(** ** Starting the bot *)

(** The call that runs the bot, at the end of [main]. *)
Inductive run_call : Type :=
| RunPolling
| RunWebhook (listen : string) (port : Z) (url_path webhook_url : string).

(** How a start ends: with a value, with the [RuntimeError] the code
    raises itself, or with another exception. *)
Inductive startup (A : Type) : Type :=
| Started : A -> startup A
| RuntimeError : string -> startup A
| Stopped : exn -> startup A.
Arguments Started {A} _.
Arguments RuntimeError {A} _.
Arguments Stopped {A} _.

Inductive handler : Type :=
| HStart | HHelp | HCompany | HTeam | HContacts | HEvents | HDigest
| HDepartments | HStaff | HFind.

(** The application [build_application] returns: its token and the
    command handlers added to it, in order. *)
Record application : Type := mkApplication {
  app_token : string;
  app_handlers : list (string * handler)
}.

Definition command_handlers : list (string * handler) :=
  [("start", HStart); ("help", HHelp); ("company", HCompany);
   ("team", HTeam); ("contacts", HContacts); ("events", HEvents);
   ("digest", HDigest); ("departments", HDepartments); ("staff", HStaff);
   ("find", HFind)].

(** [not v] for what [os.getenv] gave: unset or empty. *)
Definition not_set (token : option string) : bool :=
  match token with
  | Some t => String.eqb t ""
  | None => true
  end.

(** [s.lstrip(c)] and [s.rstrip(c)] for a single ASCII character. *)
Fixpoint lstrip_char (c : ascii) (s : string) : string :=
  match s with
  | String a r => if Ascii.eqb a c then lstrip_char c r else s
  | EmptyString => EmptyString
  end.

Fixpoint rstrip_char (c : ascii) (s : string) : string :=
  match s with
  | String a r =>
      match rstrip_char c r with
      | EmptyString => if Ascii.eqb a c then EmptyString
                       else String a EmptyString
      | r' => String a r'
      end
  | EmptyString => EmptyString
  end.

(** [line.lstrip("\ufeff")]: the byte order mark is the three bytes
    EF BB BF. *)
Fixpoint lstrip_bom (s : string) : string :=
  match s with
  | String a (String b (String c r)) =>
      if Ascii.eqb a (ascii_of_nat 239) && Ascii.eqb b (ascii_of_nat 187)
         && Ascii.eqb c (ascii_of_nat 191)
      then lstrip_bom r else s
  | _ => s
  end.

(** [s.split(sep, 1)[1]] for a single character [sep] that occurs in
    [s]: what follows its first occurrence. *)
Fixpoint after_first (sep : ascii) (s : string) : string :=
  match s with
  | String a r => if Ascii.eqb a sep then r else after_first sep r
  | EmptyString => EmptyString
  end.

(** ** The scheduler of [Lab2/bot.py] *)

Module Lab2.
Section Scheduler.

Context {host : Host}.

Definition mapping : list (string * Z) :=
  [("Понедельник", 0); ("Вторник", 1); ("Среда", 2); ("Четверг", 3);
   ("Пятница", 4); ("Суббота", 5); ("Воскресенье", 6)].

Definition ru_to_py_weekday (ru : json) : result Z := subscript mapping ru.

(** The body of the [try] in the loop over the events. *)
Definition schedule_reminder (tz : tzinfo) (ev : json) : M world unit :=
  day <- lift (dict_get ev "day" (JStr "")) ;;
  weekday_idx <- lift (ru_to_py_weekday day) ;;
  time_str <- lift (dict_get ev "time" (JStr "00:00")) ;;
  ev_time <- lift (strptime_HM time_str) ;;
  dt_now <- datetime_now tz ;;
  let dt_dummy := replace_hm dt_now (fst ev_time) (snd ev_time) in
  let remind_dt := sub_minutes dt_dummy 15 in
  let remind_time := mkTime (hour remind_dt) (minute remind_dt) tz in
  title <- lift (dict_get ev "title" JNull) ;;
  time_field <- lift (dict_get ev "time" JNull) ;;
  description <- lift (dict_get ev "description" JNull) ;;
  run_daily
    (mkJob SendEventReminder remind_time [weekday_idx]
           (Some (JObj [("title", title); ("time", time_field);
                        ("description", description)]))
           (FString [Lit "reminder_"; Fmt (JNum weekday_idx); Lit "_";
                     Fmt time_field])).

Definition schedule_jobs : M world unit :=
  tz <- get_timezone ;;
  run_daily (daily_digest_job tz) ;;
  data <- load_data ;;
  events <- lift (r <-? dict_get data "events" (JArr []) ;; py_iter r) ;;
  for_each events
    (fun ev =>
       try_except (schedule_reminder tz ev)
         (fun exc => logger (ReminderNotScheduled ev exc))).

(** [/events] of [Lab2/bot.py]: it resolves the time zone once the events
    list is known to be non-empty, and does not use it. *)
Definition events : M world unit :=
  data <- load_data ;;
  events_data <- lift (dict_get data "events" (JArr [])) ;;
  if negb (truthy events_data) then
    reply_text (FString [Lit "Ближайших событий нет."]) None
  else
    tz <- get_timezone ;;
    evs <- lift (py_iter events_data) ;;
    lines <- lift (lines_of event_line evs) ;;
    reply_text
      (FString (join_lines ([Lit "Предстоящие события (еженедельно):"]
                            :: lines))) None.

End Scheduler.

Section Startup.

Context {host : Host}.

(** The environment of the process before [load_dotenv] runs,
    [str.strip], the lines of the [.env] file when it exists, and the
    reading python-dotenv makes of such lines in that environment: the
    assignments [name=value] of the file, in order. *)
Variable environ : string -> option string.
Variable py_strip : string -> string.
Variable env_file : option (list string).
Variable dotenv_values :
  (string -> option string) -> list string -> list (string * string).

(** The value the last assignment of [name] gives it. *)
Fixpoint last_value (name : string) (values : list (string * string))
  : option string :=
  match values with
  | [] => None
  | (k, v) :: rest =>
      match last_value name rest with
      | Some later => Some later
      | None => if String.eqb name k then Some v else None
      end
  end.

(** [os.getenv(name)] once [load_dotenv(dotenv_path, override=True)] has
    run: what the file assigns overrides the environment of the
    process; without the file nothing is loaded. *)
Definition getenv (name : string) : option string :=
  match env_file with
  | Some lines =>
      match last_value name (dotenv_values environ lines) with
      | Some v => Some v
      | None => environ name
      end
  | None => environ name
  end.

(** The loop over the lines of [.env]: the token of the first line that
    sets [BOT_TOKEN], whatever it is; the loop breaks there. *)
Fixpoint scan_env (lines : list string) : option string :=
  match lines with
  | [] => None
  | raw :: rest =>
      let line := py_strip (lstrip_bom raw) in
      if String.eqb line "" || String.prefix "#" line then scan_env rest
      else if String.prefix "BOT_TOKEN=" line
      then Some (py_strip (after_first "=" line))
      else scan_env rest
  end.

(** The token [build_application] ends up with: the one of the
    environment after [load_dotenv], or, when that one is unset or
    empty and the file exists, the one of the loop. *)
Definition find_token : option string :=
  let token := getenv "BOT_TOKEN" in
  if not_set token then
    match env_file with
    | Some lines =>
        match scan_env lines with
        | Some found => Some found
        | None => token
        end
    | None => token
    end
  else token.

Definition build_application : world -> world * startup application :=
  fun w =>
    match find_token with
    | Some token =>
        if String.eqb token ""
        then (w, RuntimeError
                   "BOT_TOKEN is not set. Provide it via environment or .env file.")
        else
          match schedule_jobs w with
          | (w', Ok _) => (w', Started (mkApplication token command_handlers))
          | (w', Raise exc) => (w', Stopped exc)
          end
    | None =>
        (w, RuntimeError
              "BOT_TOKEN is not set. Provide it via environment or .env file.")
    end.

Definition main : world -> world * startup run_call :=
  fun w =>
    match build_application w with
    | (w', Started _) => (w', Started RunPolling)
    | (w', RuntimeError msg) => (w', RuntimeError msg)
    | (w', Stopped exc) => (w', Stopped exc)
    end.

End Startup.
End Lab2.

(** ** The scheduler of [Lab3/bot.py] *)

Module Lab3.
Section Scheduler.

Context {host : Host}.

Definition weekdays : list (string * Z) :=
  [("Понедельник", 0); ("Вторник", 1); ("Среда", 2); ("Четверг", 3);
   ("Пятница", 4); ("Суббота", 5); ("Воскресенье", 6)].

(** The body of the [try] in the loop over the events. *)
Definition schedule_reminder (tz : tzinfo) (ev : json) : M world unit :=
  day <- lift (dict_get ev "day" (JStr "Понедельник")) ;;
  weekday_idx <- lift (subscript weekdays day) ;;
  time_str <- lift (dict_get ev "time" (JStr "00:00")) ;;
  ev_time <- lift (strptime_HM time_str) ;;
  dt_now <- datetime_now tz ;;
  let dt_dummy := replace_hm dt_now (fst ev_time) (snd ev_time) in
  let remind_dt := sub_minutes dt_dummy 15 in
  let remind_time := mkTime (hour remind_dt) (minute remind_dt) tz in
  title <- lift (dict_get ev "title" JNull) ;;
  time_field <- lift (dict_get ev "time" JNull) ;;
  description <- lift (dict_get ev "description" JNull) ;;
  run_daily
    (mkJob SendEventReminder remind_time [weekday_idx]
           (Some (JObj [("title", title); ("time", time_field);
                        ("description", description)]))
           (FString [Lit "reminder_"; Fmt (JNum weekday_idx); Lit "_";
                     Fmt time_field])).

Definition schedule_jobs : M world unit :=
  tz <- get_timezone ;;
  run_daily (daily_digest_job tz) ;;
  data <- load_data ;;
  events <- lift (r <-? dict_get data "events" (JArr []) ;; py_iter r) ;;
  for_each events
    (fun ev =>
       try_except (schedule_reminder tz ev)
         (fun exc => logger (ReminderNotScheduled ev exc))).

(** [/events] of [Lab3/bot.py]. *)
Definition events : M world unit :=
  data <- load_data ;;
  events_data <- lift (dict_get data "events" (JArr [])) ;;
  if negb (truthy events_data) then
    reply_text (FString [Lit "Ближайших событий нет."]) None
  else
    evs <- lift (py_iter events_data) ;;
    lines <- lift (lines_of event_line evs) ;;
    reply_text
      (FString (join_lines ([Lit "Предстоящие события (еженедельно):"]
                            :: lines))) None.

End Scheduler.

Section Startup.

Context {host : Host}.

(** [os.getenv] once [load_dotenv] has run, and [int] on a string
    ([None] when it raises [ValueError]). *)
Variable environ : string -> option string.
Variable py_int : string -> option Z.

(** [os.getenv(name, default)]. *)
Definition getenv (name default : string) : string :=
  match environ name with
  | Some v => v
  | None => default
  end.

Definition build_application : world -> world * startup application :=
  fun w =>
    match environ "BOT_TOKEN" with
    | Some token =>
        if String.eqb token ""
        then (w, RuntimeError "BOT_TOKEN is not set. Provide it via .env")
        else
          match schedule_jobs w with
          | (w', Ok _) => (w', Started (mkApplication token command_handlers))
          | (w', Raise exc) => (w', Stopped exc)
          end
    | None => (w, RuntimeError "BOT_TOKEN is not set. Provide it via .env")
    end.

Definition main : world -> world * startup run_call :=
  fun w =>
    match build_application w with
    | (w', Started _) =>
        let use_webhook := String.eqb (getenv "USE_WEBHOOK" "0") "1" in
        if negb use_webhook then (w', Started RunPolling)
        else
          let listen := getenv "WEBHOOK_LISTEN" "0.0.0.0" in
          match py_int (getenv "WEBHOOK_PORT" "8080") with
          | Some port =>
              let path := getenv "WEBHOOK_PATH" "/webhook" in
              let public_base := environ "PUBLIC_URL" in
              if not_set public_base
              then (w', RuntimeError
                          "PUBLIC_URL must be set for webhook mode (your ngrok URL)")
              else
                let webhook_url :=
                  rstrip_char "/" (match public_base with
                                   | Some base => base
                                   | None => ""
                                   end) ++ path in
                (w', Started (RunWebhook listen port (lstrip_char "/" path)
                                webhook_url))
          | None => (w', Stopped ValueError)
          end
    | (w', RuntimeError msg) => (w', RuntimeError msg)
    | (w', Stopped exc) => (w', Stopped exc)
    end.

End Startup.
End Lab3.

(** ** A host to run the bot on

    The theorems below hold on every host.  [Demo] is one of them, with a
    JSON text codec of its own, on which the bot is run on concrete
    stores.  The codec is not the [json] module: it writes a control
    character without a short escape as it is, where [json.dump] writes
    [\u00XX]; it reads integers only and no [\uXXXX] escape; and it
    keeps both members of a repeated key, where [json.load] keeps the
    last.  The stores used below have none of these. *)

Module Demo.

Definition dquote : ascii := ascii_of_nat 34.
Definition backslash : ascii := ascii_of_nat 92.

Definition escape_char (c : ascii) : string :=
  if Ascii.eqb c dquote then String backslash (String dquote EmptyString)
  else if Ascii.eqb c backslash then String backslash (String backslash EmptyString)
  else if Ascii.eqb c (ascii_of_nat 10) then String backslash "n"
  else if Ascii.eqb c (ascii_of_nat 13) then String backslash "r"
  else if Ascii.eqb c (ascii_of_nat 9) then String backslash "t"
  else if Ascii.eqb c (ascii_of_nat 8) then String backslash "b"
  else if Ascii.eqb c (ascii_of_nat 12) then String backslash "f"
  else String c EmptyString.

Fixpoint escape (s : string) : string :=
  match s with
  | EmptyString => EmptyString
  | String c r => escape_char c ++ escape r
  end.

Definition quoted (s : string) : string :=
  String dquote (escape s ++ String dquote EmptyString).

Fixpoint digits_of (fuel : nat) (n : Z) (acc : string) : string :=
  match fuel with
  | O => acc
  | S fuel' =>
      let acc' := String (ascii_of_N (Z.to_N (48 + n mod 10))) acc in
      if n <? 10 then acc' else digits_of fuel' (n / 10) acc'
  end.

Definition string_of_Z (n : Z) : string :=
  if n <? 0
  then String "-" (digits_of (S (Z.to_nat (Z.log2 (- n)))) (- n) EmptyString)
  else digits_of (S (Z.to_nat (Z.log2 n))) n EmptyString.

Fixpoint spaces (n : nat) : string :=
  match n with
  | O => EmptyString
  | S n' => String " " (String " " (spaces n'))
  end.

Fixpoint join (sep : string) (l : list string) : string :=
  match l with
  | [] => EmptyString
  | [x] => x
  | x :: rest => x ++ sep ++ join sep rest
  end.

(** The text of a value at nesting depth [level], two spaces a level. *)
Fixpoint dumps (level : nat) (v : json) : string :=
  match v with
  | JNull => "null"
  | JBool true => "true"
  | JBool false => "false"
  | JNum n => string_of_Z n
  | JStr s => quoted s
  | JArr [] => "[]"
  | JArr l =>
      "[" ++ newline
      ++ join ("," ++ newline)
           (map (fun x => spaces (S level) ++ dumps (S level) x) l)
      ++ newline ++ spaces level ++ "]"
  | JObj [] => "{}"
  | JObj kvs =>
      "{" ++ newline
      ++ join ("," ++ newline)
           (map (fun kv : string * json => let (k, x) := kv in
                           spaces (S level) ++ quoted k ++ ": "
                           ++ dumps (S level) x) kvs)
      ++ newline ++ spaces level ++ "}"
  end.

Definition is_space (c : ascii) : bool :=
  Ascii.eqb c " " || Ascii.eqb c (ascii_of_nat 10)
  || Ascii.eqb c (ascii_of_nat 13) || Ascii.eqb c (ascii_of_nat 9).

Fixpoint skip_spaces (s : string) : string :=
  match s with
  | String c r => if is_space c then skip_spaces r else s
  | EmptyString => EmptyString
  end.

(** The body of a string literal, after its opening quote. *)
Fixpoint string_body (s : string) : option (string * string) :=
  match s with
  | EmptyString => None
  | String c r =>
      if Ascii.eqb c dquote then Some (EmptyString, r)
      else if Ascii.eqb c backslash then
        match r with
        | String e r' =>
            let plain :=
              if Ascii.eqb e "n" then Some (ascii_of_nat 10)
              else if Ascii.eqb e "r" then Some (ascii_of_nat 13)
              else if Ascii.eqb e "t" then Some (ascii_of_nat 9)
              else if Ascii.eqb e "b" then Some (ascii_of_nat 8)
              else if Ascii.eqb e "f" then Some (ascii_of_nat 12)
              else if Ascii.eqb e dquote then Some dquote
              else if Ascii.eqb e backslash then Some backslash
              else if Ascii.eqb e "/" then Some "/"%char
              else None in
            match plain, string_body r' with
            | Some c', Some (body, rest) => Some (String c' body, rest)
            | _, _ => None
            end
        | EmptyString => None
        end
      else
        match string_body r with
        | Some (body, rest) => Some (String c body, rest)
        | None => None
        end
  end.

Fixpoint number_body (acc : Z) (s : string) : Z * string :=
  match s with
  | String c r => if is_digit c then number_body (10 * acc + digit c) r
                  else (acc, s)
  | EmptyString => (acc, s)
  end.

(** [s] without its prefix [prefix]. *)
Fixpoint strip (prefix s : string) : option string :=
  match prefix with
  | EmptyString => Some s
  | String a prefix' =>
      match s with
      | String b s' => if Ascii.eqb a b then strip prefix' s' else None
      | EmptyString => None
      end
  end.

Fixpoint value (fuel : nat) (s : string) : option (json * string) :=
  match fuel with
  | O => None
  | S fuel' =>
      match skip_spaces s with
      | EmptyString => None
      | String c r =>
          if is_digit c then
            let (n, rest) := number_body 0 (String c r) in Some (JNum n, rest)
          else if Ascii.eqb c "-" then
            match r with
            | String d _ =>
                if is_digit d
                then let (n, rest) := number_body 0 r in Some (JNum (- n), rest)
                else None
            | EmptyString => None
            end
          else if Ascii.eqb c dquote then
            match string_body r with
            | Some (body, rest) => Some (JStr body, rest)
            | None => None
            end
          else if Ascii.eqb c "[" then
            match skip_spaces r with
            | String c' rest =>
                if Ascii.eqb c' "]" then Some (JArr [], rest)
                else match items fuel' r with
                     | Some (l, rest') => Some (JArr l, rest')
                     | None => None
                     end
            | EmptyString => None
            end
          else if Ascii.eqb c "{" then
            match skip_spaces r with
            | String c' rest =>
                if Ascii.eqb c' "}" then Some (JObj [], rest)
                else match members fuel' r with
                     | Some (kvs, rest') => Some (JObj kvs, rest')
                     | None => None
                     end
            | EmptyString => None
            end
          else
            match strip "null" (String c r),
                  strip "true" (String c r),
                  strip "false" (String c r) with
            | Some rest, _, _ => Some (JNull, rest)
            | _, Some rest, _ => Some (JBool true, rest)
            | _, _, Some rest => Some (JBool false, rest)
            | _, _, _ => None
            end
      end
  end

with items (fuel : nat) (s : string) : option (list json * string) :=
  match fuel with
  | O => None
  | S fuel' =>
      match value fuel' s with
      | Some (x, rest) =>
          match skip_spaces rest with
          | String c rest' =>
              if Ascii.eqb c "," then
                match items fuel' rest' with
                | Some (l, rest'') => Some (x :: l, rest'')
                | None => None
                end
              else if Ascii.eqb c "]" then Some ([x], rest')
              else None
          | EmptyString => None
          end
      | None => None
      end
  end

with members (fuel : nat) (s : string)
  : option (list (string * json) * string) :=
  match fuel with
  | O => None
  | S fuel' =>
      match skip_spaces s with
      | String c r =>
          if Ascii.eqb c dquote then
            match string_body r with
            | Some (k, rest) =>
                match skip_spaces rest with
                | String c' rest' =>
                    if Ascii.eqb c' ":" then
                      match value fuel' rest' with
                      | Some (x, rest'') =>
                          match skip_spaces rest'' with
                          | String c'' rest3 =>
                              if Ascii.eqb c'' "," then
                                match members fuel' rest3 with
                                | Some (kvs, rest4) =>
                                    Some ((k, x) :: kvs, rest4)
                                | None => None
                                end
                              else if Ascii.eqb c'' "}"
                              then Some ([(k, x)], rest3)
                              else None
                          | EmptyString => None
                          end
                      | None => None
                      end
                    else None
                | EmptyString => None
                end
            | None => None
            end
          else None
      | EmptyString => None
      end
  end.

Definition loads (s : string) : result json :=
  match value (2 * String.length s + 2) s with
  | Some (v, rest) =>
      match skip_spaces rest with
      | EmptyString => Ok v
      | _ => Raise JSONDecodeError
      end
  | None => Raise JSONDecodeError
  end.

(** What the proof that [loads] undoes [dumps] is stated with: the fuel
    a value needs, the text of the items of a list and of the members of
    a dict, the characters a value can start with, and what it means for
    a value to be read back. *)

Definition no_digit_head (s : string) : Prop :=
  match s with
  | String c _ => is_digit c = false
  | EmptyString => True
  end.

Fixpoint json_size (v : json) : nat :=
  match v with
  | JArr l => S (fold_right (fun x acc => S (json_size x + acc)) O l)
  | JObj kvs =>
      S (fold_right (fun (kv : string * json) acc =>
                       let (_, x) := kv in S (json_size x + acc)) O kvs)
  | _ => 1%nat
  end.

Definition items_size (l : list json) : nat :=
  fold_right (fun x acc => S (json_size x + acc)) O l.

Definition members_size (kvs : list (string * json)) : nat :=
  fold_right (fun (kv : string * json) acc =>
                let (_, x) := kv in S (json_size x + acc)) O kvs.

Definition elems (level : nat) (l : list json) : string :=
  join ("," ++ newline)
       (map (fun x => spaces (S level) ++ dumps (S level) x) l).

Definition fields (level : nat) (kvs : list (string * json)) : string :=
  join ("," ++ newline)
       (map (fun kv : string * json =>
               let (k, x) := kv in
               spaces (S level) ++ quoted k ++ ": " ++ dumps (S level) x) kvs).

Definition opens (c : ascii) : bool :=
  negb (is_space c) && negb (Ascii.eqb c "]") && negb (Ascii.eqb c "}")
  && negb (Ascii.eqb c ",").

Definition parses (v : json) : Prop :=
  forall level fuel rest,
    (json_size v <= fuel)%nat -> no_digit_head rest ->
    value fuel (dumps level v ++ rest) = Some (v, rest).

Definition zones : list string :=
  ["Europe/Moscow"; "Europe/Berlin"; "America/New_York"].

Definition timezone (name : string) : result tzinfo :=
  if existsb (String.eqb name) zones then Ok (Zone name)
  else Raise UnknownTimeZoneError.

(** Monday, 2026-11-02, 12:30:15 on every reading of the clock. *)
Definition clock (n : nat) (tz : tzinfo) : datetime :=
  mkDatetime 739922 12 30 15 250.

(** The transport refuses chat 111 and serves every other chat. *)
Definition transport (chat_id : json) (text : pytext) : bool :=
  negb (int_eq 111 chat_id).

#[export] Instance host : Host := {
  pytz_timezone := timezone;
  TIMEZONE := Some "Europe/Berlin";
  now := clock;
  json_dump := fun v => Dumped (dumps 0 v);
  json_load := loads;
  delivers := transport
}.

Definition empty_world : world :=
  mkWorld None None [] [] [] [] O.

(** The world of a fresh process whose [data.json] holds [doc]. *)
Definition world_with (doc : json) : world :=
  mkWorld (Some (dumps 0 doc)) None [] [] [] [] O.

End Demo.

(** ** Notions used to state the properties *)

Section Notions.

Context {host : Host}.

(** The minute of the day, 0 to 1439, at which the reminder of an event
    at [h]:[m] is set: fifteen minutes earlier on a 24-hour dial. *)
Definition remind_minute (h m : Z) : Z := (h * 60 + m - 15) mod 1440.

(** What the [try] body of [schedule_jobs] hands to [run_daily] for one
    event, or the exception it raises: [lookup] is the weekday table of
    the file and [default_day] its default for a missing [day]. *)
Definition plan (lookup : json -> result Z) (default_day : string)
    (tz : tzinfo) (ev : json) : result job :=
  day <-? dict_get ev "day" (JStr default_day) ;;
  weekday_idx <-? lookup day ;;
  time_str <-? dict_get ev "time" (JStr "00:00") ;;
  ev_time <-? strptime_HM time_str ;;
  title <-? dict_get ev "title" JNull ;;
  time_field <-? dict_get ev "time" JNull ;;
  description <-? dict_get ev "description" JNull ;;
  Ok (mkJob SendEventReminder
        (mkTime (remind_minute (fst ev_time) (snd ev_time) / 60)
                (remind_minute (fst ev_time) (snd ev_time) mod 60) tz)
        [weekday_idx]
        (Some (JObj [("title", title); ("time", time_field);
                     ("description", description)]))
        (FString [Lit "reminder_"; Fmt (JNum weekday_idx); Lit "_";
                  Fmt time_field])).

Definition plan2 : tzinfo -> json -> result job :=
  plan Lab2.ru_to_py_weekday "".

Definition plan3 : tzinfo -> json -> result job :=
  plan (subscript Lab3.weekdays) "Понедельник".

(** The reminders of the events that can be scheduled, in order. *)
Definition reminders (planf : json -> result job) (evs : list json)
  : list job :=
  flat_map (fun ev => match planf ev with
                      | Ok j => [j]
                      | Raise _ => []
                      end) evs.

(** The warnings for the events that cannot, in order. *)
Definition skipped (planf : json -> result job) (evs : list json)
  : list log_entry :=
  flat_map (fun ev => match planf ev with
                      | Ok _ => []
                      | Raise exc => [ReminderNotScheduled ev exc]
                      end) evs.

(** [data.get(key, [])] as the list a [for] loop goes through. *)
Definition listing (data : json) (key : string) : result (list json) :=
  r <-? dict_get data key (JArr []) ;; py_iter r.



(** The world after the [try] body has read the clock once and
    registered [j]. *)
Definition registered (w : world) (j : job) : world :=
  mkWorld (data_file w) (tmp_file w) (job_queue w ++ [j]) (outbox w)
          (replies w) (log w) (S (clock_reads w)).

(** [schedule_jobs] with the [try] body left open; both files are
    instances of it. *)
Definition scheduler (body : tzinfo -> json -> M world unit)
  : M world unit :=
  tz <- get_timezone ;;
  run_daily (daily_digest_job tz) ;;
  data <- load_data ;;
  events <- lift (r <-? dict_get data "events" (JArr []) ;; py_iter r) ;;
  for_each events
    (fun ev =>
       try_except (body tz ev)
         (fun exc => logger (ReminderNotScheduled ev exc))).

(** A [try] body does what [planf] says. *)
Definition follows (planf : tzinfo -> json -> result job)
    (body : tzinfo -> json -> M world unit) : Prop :=
  forall tz ev w,
    body tz ev w = match planf tz ev with
                   | Ok j => (registered w j, Ok tt)
                   | Raise e => (w, Raise e)
                   end.

(** Modelled from the spec: the job runner of the chat-bot SDK, which is
    not part of the repository.  Sections 3 and 4.1: the fire time of a
    trigger is a local HH:MM in the configured zone; a daily trigger runs
    once per calendar day, a weekly one only on its weekday.
    [utcoffset tz t] is the offset of zone [tz] from UTC, in minutes, at
    the instant [t] (minutes of UTC since the start of day 0), whatever
    the rules of the zone make it. *)
Definition wall_clock (utcoffset : tzinfo -> Z -> Z) (tz : tzinfo) (t : Z)
  : datetime :=
  let local := t + utcoffset tz t in
  mkDatetime (local / 1440) ((local mod 1440) / 60) ((local mod 1440) mod 60)
             0 0.

(** Modelled from the spec: the weekday, as [datetime.weekday] counts it
    (Monday is 0), of the day that the job runner knows by the number
    [d] of [days].  The spec leaves the numbering of the runner open; the
    SDK whose [Application] and [JobQueue] the source imports
    (python-telegram-bot, version 20 and later) documents the [days] of
    [run_daily] as 0 for Sunday up to 6 for Saturday. *)
Definition run_daily_weekday (d : Z) : Z := (d + 6) mod 7.

(** Modelled from the spec: the job [j] is due at the instant [t], when
    the wall clock of its zone reads its time on one of its days. *)
Definition fires (utcoffset : tzinfo -> Z -> Z) (j : job) (t : Z) : bool :=
  let dt := wall_clock utcoffset (t_tzinfo (job_time j)) t in
  (hour dt =? t_hour (job_time j))
  && (minute dt =? t_minute (job_time j))
  && existsb (fun d => run_daily_weekday d =? weekday dt) (job_days j).

(** [subscribers.count(chat_id)]. *)
Definition occurrences (chat_id : Z) (subscribers : list json) : nat :=
  length (filter (int_eq chat_id) subscribers).

(** The store codec gives back the document it was given. *)
Definition round_trips (d : json) : Prop :=
  exists text, json_dump d = Dumped text /\ json_load text = Ok d.

(** What one pass of [schedule_jobs] over the events [evs] leaves behind,
    from world [w] to world [w']: the daily digest and the reminders of
    the events that can be planned are in the queue, in order, and
    nothing else is added; an event whose weekday is in the table and
    whose time parses has its reminder in the queue; an event whose
    weekday is not in the table, or whose time does not parse, has a
    warning with its exception in the log. *)
Definition pass_outcome (lookup : json -> result Z) (default_day : string)
    (tz : tzinfo) (evs : list json) (w w' : world) : Prop :=
  job_queue w'
  = (job_queue w ++ daily_digest_job tz
                    :: reminders (plan lookup default_day tz) evs)%list
  /\ (forall ev day idx time_str h m,
        In ev evs ->
        dict_get ev "day" (JStr default_day) = Ok day ->
        lookup day = Ok idx ->
        dict_get ev "time" (JStr "00:00") = Ok time_str ->
        strptime_HM time_str = Ok (h, m) ->
        exists j,
          plan lookup default_day tz ev = Ok j
          /\ job_days j = [idx]
          /\ In j (job_queue w'))
  /\ (forall ev day exc,
        In ev evs ->
        dict_get ev "day" (JStr default_day) = Ok day ->
        lookup day = Raise exc ->
        plan lookup default_day tz ev = Raise exc
        /\ In (ReminderNotScheduled ev exc) (log w'))
  /\ (forall ev day idx time_str exc,
        In ev evs ->
        dict_get ev "day" (JStr default_day) = Ok day ->
        lookup day = Ok idx ->
        dict_get ev "time" (JStr "00:00") = Ok time_str ->
        strptime_HM time_str = Raise exc ->
        plan lookup default_day tz ev = Raise exc
        /\ In (ReminderNotScheduled ev exc) (log w')).

(** The seven weekday labels of an event's [day] as the spec has them
    (sections 3 and 4.1), Monday first: the place of a label in the list
    is its weekday as [datetime.weekday] counts it.  Written down a
    second time, apart from the tables of the code, to state what the
    code does with a label. *)
Definition weekday_labels : list string :=
  ["Понедельник"; "Вторник"; "Среда"; "Четверг"; "Пятница"; "Суббота";
   "Воскресенье"].

Fixpoint index_of (label : string) (labels : list string) : option Z :=
  match labels with
  | [] => None
  | l :: rest =>
      if String.eqb label l then Some 0
      else match index_of label rest with
           | Some i => Some (i + 1)
           | None => None
           end
  end.

(** The weekday of a label, Monday 0 to Sunday 6. *)
Definition label_weekday (label : string) : option Z :=
  index_of label weekday_labels.

(** The weekday before [wd]. *)
Definition day_before (wd : Z) : Z := (wd + 6) mod 7.

(** The reminder [schedule_jobs] registers for an event of weekday index
    [idx] at [h]:[m]. *)
Definition reminder_job (tz : tzinfo) (idx h m : Z)
    (title time_field description : json) : job :=
  mkJob SendEventReminder
    (mkTime (remind_minute h m / 60) (remind_minute h m mod 60) tz)
    [idx]
    (Some (JObj [("title", title); ("time", time_field);
                 ("description", description)]))
    (FString [Lit "reminder_"; Fmt (JNum idx); Lit "_"; Fmt time_field]).

(** What [schedule_jobs] makes of the events that carry a [day]: [planf]
    is the [try] body of the file and [w'] the world it leaves. *)
Definition labelled_outcome (planf : json -> result job) (tz : tzinfo)
    (evs : list json) (w' : world) : Prop :=
  (forall kvs label wd time_str h m,
      In (JObj kvs) evs ->
      assoc "day" kvs = Some (JStr label) ->
      label_weekday label = Some wd ->
      dict_get (JObj kvs) "time" (JStr "00:00") = Ok time_str ->
      strptime_HM time_str = Ok (h, m) ->
      exists title time_field description,
        dict_get (JObj kvs) "title" JNull = Ok title
        /\ dict_get (JObj kvs) "time" JNull = Ok time_field
        /\ dict_get (JObj kvs) "description" JNull = Ok description
        /\ planf (JObj kvs)
           = Ok (reminder_job tz wd h m title time_field description)
        /\ In (reminder_job tz wd h m title time_field description)
              (job_queue w'))
  /\ (forall kvs label,
        In (JObj kvs) evs ->
        assoc "day" kvs = Some (JStr label) ->
        label_weekday label = None ->
        planf (JObj kvs) = Raise KeyError
        /\ In (ReminderNotScheduled (JObj kvs) KeyError) (log w'))
  /\ (forall kvs label wd time_str exc,
        In (JObj kvs) evs ->
        assoc "day" kvs = Some (JStr label) ->
        label_weekday label = Some wd ->
        dict_get (JObj kvs) "time" (JStr "00:00") = Ok time_str ->
        strptime_HM time_str = Raise exc ->
        planf (JObj kvs) = Raise exc
        /\ In (ReminderNotScheduled (JObj kvs) exc) (log w')).

End Notions.

(** ** Notions used to state the properties of the handlers *)

Section HandlerNotions.

Context {host : Host}.

(** A step that leaves the files, the job queue, the outbox and the
    replies as they are. *)
Definition quiet {A : Type} (m : M world A) : Prop :=
  forall w,
    data_file (fst (m w)) = data_file w
    /\ tmp_file (fst (m w)) = tmp_file w
    /\ job_queue (fst (m w)) = job_queue w
    /\ outbox (fst (m w)) = outbox w
    /\ replies (fst (m w)) = replies w.

(** A handler that only answers: it leaves the files, the job queue and
    the outbox as they are, and replies exactly once when it returns and
    not at all when it raises. *)
Definition only_answers (h : M world unit) : Prop :=
  forall w,
    data_file (fst (h w)) = data_file w
    /\ tmp_file (fst (h w)) = tmp_file w
    /\ job_queue (fst (h w)) = job_queue w
    /\ outbox (fst (h w)) = outbox w
    /\ match snd (h w) with
       | Ok _ => exists r, replies (fst (h w)) = (replies w ++ [r])%list
       | Raise _ => replies (fst (h w)) = replies w
       end.

(** What [send_daily_digest] does once it has the document and the
    message of the day. *)
Definition send_rest (data msg : json) : M world unit :=
  if negb (truthy msg) then ret tt
  else
    subscribers <- lift (r <-? dict_get data "subscribers" (JArr []) ;; py_iter r) ;;
    for_each subscribers
      (fun chat_id =>
         try_except (bot_send_message chat_id (Value msg))
           (fun exc => logger (DigestNotSent chat_id exc))).

(** What [digest] does once it has the document and the message of the
    day. *)
Definition digest_rest (data msg : json) : M world unit :=
  if negb (truthy msg) then
    reply_text (FString [Lit "На сегодня нет дайджеста."]) None
  else reply_text (Value msg) None.

End HandlerNotions.

(** ** Stores and updates to run the bot on *)

Module Cases.

Definition berlin : tzinfo := Zone "Europe/Berlin".

Definition night_shift : json :=
  JObj [("day", JStr "Понедельник"); ("time", JStr "00:05");
        ("title", JStr "Ночная смена"); ("description", JStr "Пересменка")].

Definition standup : json :=
  JObj [("day", JStr "Пятница"); ("time", JStr "09:10");
        ("title", JStr "Стендап"); ("description", JStr "Планы на день")].

Definition no_such_day : json :=
  JObj [("day", JStr "Friday"); ("time", JStr "10:00");
        ("title", JStr "Demo"); ("description", JStr "-")].

Definition no_such_time : json :=
  JObj [("day", JStr "Среда"); ("time", JStr "25:00");
        ("title", JStr "Ревью"); ("description", JStr "-")].


(** A store with two subscribers, a digest for Monday and the given
    events. *)
Definition store (events : list json) : json :=
  JObj [("subscribers", JArr [JNum 111; JNum 222]);
        ("events", JArr events);
        ("digests", JObj [("Понедельник", JStr "Hi")])].

(** A store with two subscribers and no [events] key. *)
Definition bare_store : json :=
  JObj [("subscribers", JArr [JNum 111; JNum 222])].

#[local] Existing Instance Demo.host.

Definition field (ev : json) (k : string) : json :=
  match dict_get ev k JNull with
  | Ok v => v
  | Raise _ => JNull
  end.

(** The reminder of [ev] on weekday [idx] at [h]:[m], Berlin time. *)
Definition reminder_of (idx h m : Z) (ev : json) : job :=
  mkJob SendEventReminder (mkTime h m berlin) [idx]
    (Some (JObj [("title", field ev "title"); ("time", field ev "time");
                 ("description", field ev "description")]))
    (FString [Lit "reminder_"; Fmt (JNum idx); Lit "_";
              Fmt (field ev "time")]).


Definition calendar : list json :=
  [night_shift; no_such_day; no_such_time; standup].

Definition olga : Update := mkUpdate (Some "Оля") (Some 333).

Definition subscriber : Update := mkUpdate (Some "Иван") (Some 222).

(** Minutes of UTC since the start of day 0 at which Berlin left summer
    time in 2026: Sunday 25 October (day 739914), 01:00 UTC. *)
Definition back_to_winter : Z := 739914 * 1440 + 60.

(** The offset of the zone from UTC, in minutes. *)
Definition offset (tz : tzinfo) (t : Z) : Z :=
  if t <? back_to_winter then 120 else 60.

(** 09:00 in Berlin on Saturday 24 October (summer time) and on Monday
    2 November (winter time). *)
Definition summer_nine : Z := 739913 * 1440 + 7 * 60.
Definition winter_nine : Z := 739922 * 1440 + 8 * 60.

(** 23:50 in Berlin on Sunday 1 and on Monday 2 November 2026. *)
Definition sunday_2350 : Z := 739921 * 1440 + 22 * 60 + 50.
Definition monday_2350 : Z := 739922 * 1440 + 22 * 60 + 50.

(** 08:55 in Berlin on Thursday 5 and on Friday 6 November 2026. *)
Definition thursday_0855 : Z := 739925 * 1440 + 7 * 60 + 55.
Definition friday_0855 : Z := 739926 * 1440 + 7 * 60 + 55.

End Cases.

(** ** A host on which things go wrong, and surroundings of a start *)

Module Faulty.

(** The configured zone is unknown and [json.dump] raises after the
    first character. *)
#[export] Instance host : Host := {
  pytz_timezone := Demo.timezone;
  TIMEZONE := Some "Mars/Olympus";
  now := Demo.clock;
  json_dump := fun _ => DumpRaised "{" TypeError;
  json_load := Demo.loads;
  delivers := Demo.transport
}.

(** An environment given by its variables. *)
Fixpoint env_of (vars : list (string * string)) (name : string)
  : option string :=
  match vars with
  | [] => None
  | (k, v) :: rest => if String.eqb name k then Some v else env_of rest name
  end.

(** [int] on a string of decimal digits. *)
Definition decimal (s : string) : option Z :=
  match s with
  | String c _ =>
      if is_digit c then
        match Demo.number_body 0 s with
        | (n, EmptyString) => Some n
        | _ => None
        end
      else None
  | EmptyString => None
  end.

Fixpoint lstrip_blank (s : string) : string :=
  match s with
  | String a r => if Demo.is_space a then lstrip_blank r else s
  | EmptyString => EmptyString
  end.

Fixpoint rstrip_blank (s : string) : string :=
  match s with
  | String a r =>
      match rstrip_blank r with
      | EmptyString => if Demo.is_space a then EmptyString
                       else String a EmptyString
      | r' => String a r'
      end
  | EmptyString => EmptyString
  end.

(** [str.strip] for blanks, tabs and line ends. *)
Definition strip (s : string) : string := rstrip_blank (lstrip_blank s).

(** What precedes the first [sep] of a string. *)
Fixpoint before_first (sep : ascii) (s : string) : string :=
  match s with
  | String a r =>
      if Ascii.eqb a sep then EmptyString else String a (before_first sep r)
  | EmptyString => EmptyString
  end.

Fixpoint has_char (sep : ascii) (s : string) : bool :=
  match s with
  | String a r => Ascii.eqb a sep || has_char sep r
  | EmptyString => false
  end.

(** A reading of [.env] files made of blank lines, comment lines and
    lines [name=value] without quotes, escapes, [export], trailing
    comments and variables; on such files it is the reading
    python-dotenv makes. *)
Fixpoint read_dotenv (environ : string -> option string)
    (lines : list string) : list (string * string) :=
  match lines with
  | [] => []
  | raw :: rest =>
      let line := strip raw in
      if String.eqb line "" || String.prefix "#" line
         || negb (has_char "=" line)
      then read_dotenv environ rest
      else (strip (before_first "=" line), strip (after_first "=" line))
             :: read_dotenv environ rest
  end.

(** A [.env] whose only [BOT_TOKEN] line is empty. *)
Definition dotenv : list string :=
  ["# bot settings" ++ newline; newline; "TIMEZONE=Europe/Berlin" ++ newline;
   "BOT_TOKEN=" ++ newline].

(** A [.env] that sets the token twice. *)
Definition dotenv_ok : list string :=
  ["# bot settings" ++ newline; "  BOT_TOKEN= 123:abc=def " ++ newline;
   "BOT_TOKEN=other" ++ newline].

Definition webhook_env : string -> option string :=
  env_of [("BOT_TOKEN", "123:abc"); ("TIMEZONE", "Europe/Berlin");
          ("USE_WEBHOOK", "1"); ("WEBHOOK_PORT", "8443");
          ("PUBLIC_URL", "https://bot.example//")].

(** An environment with a token, for polling. *)
Definition polling_env : string -> option string :=
  env_of [("BOT_TOKEN", "123:abc"); ("TIMEZONE", "Europe/Berlin")].

(** An environment without a token. *)
Definition bare_env : string -> option string :=
  env_of [("TIMEZONE", "Europe/Berlin")].

End Faulty.

(** ** Stores and updates at the edges *)

Module Edge.

(** An event of Wednesday without a time. *)
Definition retro : json :=
  JObj [("day", JStr "Среда"); ("title", JStr "Ретро");
        ("description", JStr "Итоги")].

(** A store whose [subscribers] is a number. *)
Definition odd_store : json :=
  JObj [("subscribers", JNum 5); ("events", JArr [])].

(** An update that has a user and no chat. *)
Definition nobody : Update := mkUpdate (Some "Оля") None.

(** A world whose [data.json] is cut off after its first character. *)
Definition torn_world : world :=
  mkWorld (Some "{") None [] [] [] [] O.

End Edge.

(** ** Properties *)

Section Facts.

Context {host : Host}.

Lemma get_timezone_frame (w : world) :
  data_file (fst (get_timezone w)) = data_file w
  /\ tmp_file (fst (get_timezone w)) = tmp_file w
  /\ job_queue (fst (get_timezone w)) = job_queue w
  /\ outbox (fst (get_timezone w)) = outbox w
  /\ replies (fst (get_timezone w)) = replies w
  /\ clock_reads (fst (get_timezone w)) = clock_reads w
  /\ exists entries, log (fst (get_timezone w)) = (log w ++ entries)%list.
Proof.
  unfold get_timezone, try_except, lift, bind, logger.
  destruct (pytz_timezone _); simpl.
  - repeat split; exists []; now rewrite app_nil_r.
  - repeat split; eexists; reflexivity.
Qed.

Lemma get_timezone_result (w1 w2 : world) :
  snd (get_timezone w1) = snd (get_timezone w2).
Proof.
  unfold get_timezone, try_except, lift, bind, logger.
  destruct (pytz_timezone _); reflexivity.
Qed.

Lemma load_data_frame (w : world) :
  data_file (fst (load_data w)) = data_file w
  /\ tmp_file (fst (load_data w)) = tmp_file w
  /\ job_queue (fst (load_data w)) = job_queue w
  /\ outbox (fst (load_data w)) = outbox w
  /\ replies (fst (load_data w)) = replies w
  /\ clock_reads (fst (load_data w)) = clock_reads w
  /\ exists entries, log (fst (load_data w)) = (log w ++ entries)%list.
Proof.
  unfold load_data, try_except, read_data_file, lift, bind, logger, ret.
  destruct (data_file w) as [text|] eqn:Hfile; simpl.
  - destruct (json_load text) as [v|e]; simpl.
    + rewrite Hfile. repeat split; exists []; now rewrite app_nil_r.
    + destruct e; simpl; rewrite ?Hfile; repeat split;
        solve [ exists []; now rewrite app_nil_r | eexists; reflexivity ].
  - rewrite ?Hfile. repeat split; eexists; reflexivity.
Qed.

Lemma load_data_result (w1 w2 : world) :
  data_file w1 = data_file w2 ->
  snd (load_data w1) = snd (load_data w2).
Proof.
  intros Hsame.
  unfold load_data, try_except, read_data_file, lift, bind, logger, ret.
  rewrite Hsame.
  destruct (data_file w2) as [text|]; simpl; [|reflexivity].
  destruct (json_load text) as [v|e]; simpl; [reflexivity|].
  destruct e; reflexivity.
Qed.

Lemma schedule_reminder2 : follows plan2 Lab2.schedule_reminder.
Proof.
  intros tz ev w.
  unfold Lab2.schedule_reminder, plan2, plan, bind, lift, rbind, datetime_now,
    run_daily, registered.
  destruct ev; simpl; try reflexivity.
  destruct (Lab2.ru_to_py_weekday _); simpl; [|reflexivity].
  destruct (strptime_HM _) as [[h m]|]; simpl; reflexivity.
Qed.

Lemma schedule_reminder3 : follows plan3 Lab3.schedule_reminder.
Proof.
  intros tz ev w.
  unfold Lab3.schedule_reminder, plan3, plan, bind, lift, rbind, datetime_now,
    run_daily, registered.
  destruct ev; simpl; try reflexivity.
  destruct (subscript Lab3.weekdays _); simpl; [|reflexivity].
  destruct (strptime_HM _) as [[h m]|]; simpl; reflexivity.
Qed.

Lemma schedule_jobs2_scheduler :
  Lab2.schedule_jobs = scheduler Lab2.schedule_reminder.
Proof. reflexivity. Qed.

Lemma schedule_jobs3_scheduler :
  Lab3.schedule_jobs = scheduler Lab3.schedule_reminder.
Proof. reflexivity. Qed.

(** The loop over the events: every event that can be planned adds its
    job and one reading of the clock, every other one a warning. *)
Lemma for_each_reminders (planf : json -> result job)
    (body : json -> M world unit) :
  (forall ev w, body ev w = match planf ev with
                            | Ok j => (registered w j, Ok tt)
                            | Raise e => (w, Raise e)
                            end) ->
  forall evs w,
    for_each evs
      (fun ev => try_except (body ev)
                   (fun exc => logger (ReminderNotScheduled ev exc))) w
    = (mkWorld (data_file w) (tmp_file w)
               (job_queue w ++ reminders planf evs) (outbox w) (replies w)
               (log w ++ skipped planf evs)
               (length (reminders planf evs) + clock_reads w), Ok tt).
Proof.
  intros Hbody evs. induction evs as [|ev evs IH]; intros w.
  - simpl. unfold ret. rewrite !app_nil_r. now destruct w.
  - simpl. unfold bind, try_except. rewrite Hbody.
    unfold reminders, skipped in *. simpl.
    destruct (planf ev) as [j|e]; simpl.
    + rewrite IH. unfold registered. simpl.
      rewrite <- !app_assoc. simpl. f_equal. f_equal. lia.
    + rewrite IH. simpl. rewrite <- !app_assoc. reflexivity.
Qed.

(** One pass of the scheduler over a store that loads. *)
Lemma scheduler_run planf body (w : world) tz data evs :
  follows planf body ->
  snd (get_timezone w) = Ok tz ->
  snd (load_data w) = Ok data ->
  listing data "events" = Ok evs ->
  snd (scheduler body w) = Ok tt
  /\ data_file (fst (scheduler body w)) = data_file w
  /\ tmp_file (fst (scheduler body w)) = tmp_file w
  /\ job_queue (fst (scheduler body w))
     = (job_queue w ++ daily_digest_job tz :: reminders (planf tz) evs)%list
  /\ outbox (fst (scheduler body w)) = outbox w
  /\ replies (fst (scheduler body w)) = replies w
  /\ exists entries,
       log (fst (scheduler body w))
       = (log w ++ entries ++ skipped (planf tz) evs)%list.
Proof.
  intros Hbody Htz Hload Hevs.
  unfold scheduler, bind.
  pose proof (get_timezone_frame w) as (Fd & Ft & Fq & Fo & Fr & Fc & l1 & Fl).
  destruct (get_timezone w) as [w1 r1]. simpl in *. subst r1.
  match goal with |- context [load_data ?x] => set (w1' := x) end.
  pose proof (load_data_frame w1') as (Gd & Gt & Gq & Go & Gr & Gc & l2 & Gl).
  assert (Gres : snd (load_data w1') = Ok data)
    by (rewrite (load_data_result w1' w); [exact Hload | exact Fd]).
  destruct (load_data w1') as [w2 r2].
  simpl in Gd, Gt, Gq, Go, Gr, Gc, Gl, Gres.
  subst r2. unfold listing in Hevs. rewrite Hevs.
  rewrite (for_each_reminders (planf tz) (body tz)) by (intros; apply Hbody).
  simpl. rewrite Gd, Gt, Gq, Go, Gr, Gl, Fd, Ft, Fq, Fo, Fr, Fl.
  repeat split.
  - now rewrite <- app_assoc.
  - exists (l1 ++ l2)%list. now rewrite <- !app_assoc.
Qed.

Local Arguments digit : simpl never.
Local Arguments is_digit : simpl never.

Lemma decimal_value_range (cp d : Z) :
  decimal_value cp = Some d -> 0 <= d <= 9.
Proof.
  unfold decimal_value.
  destruct (find _ decimal_zeros) as [zero|] eqn:Hfind; [|discriminate].
  intros [= <-]. apply find_some in Hfind as [_ Hin].
  apply andb_prop in Hin as [H1 H2].
  apply Z.leb_le in H1. apply Z.leb_le in H2. lia.
Qed.

Lemma read_digit_range (s : string) d rest :
  read_digit s = Some (d, rest) -> 0 <= d <= 9.
Proof.
  unfold read_digit.
  destruct (code_point s) as [[cp r]|]; [|discriminate].
  destruct (decimal_value cp) as [d'|] eqn:Hd; [|discriminate].
  intros [= <- _]. now apply decimal_value_range with (cp := cp).
Qed.

Lemma decimal_zeros_ascii :
  Forall (fun zero => zero = 48 \/ 128 <= zero) decimal_zeros.
Proof.
  unfold decimal_zeros. repeat (apply Forall_cons; [lia|]). apply Forall_nil.
Qed.

(** A digit whose first byte is an ASCII character is that ASCII digit. *)
Lemma read_digit_ascii (lo hi : ascii) (s : string) d rest :
  head_in lo hi s = true -> byte hi < 128 ->
  read_digit s = Some (d, rest) ->
  byte lo - 48 <= d <= byte hi - 48.
Proof.
  unfold head_in, read_digit, code_point.
  destruct s as [|c r]; [discriminate|].
  intros Hhead Hhi. apply andb_prop in Hhead as [Hlo Hup].
  apply Z.leb_le in Hlo. apply Z.leb_le in Hup.
  destruct (byte c <? 128) eqn:Hb; [|apply Z.ltb_ge in Hb; lia].
  unfold decimal_value.
  destruct (find _ decimal_zeros) as [zero|] eqn:Hfind; [|discriminate].
  intros [= <- _]. apply find_some in Hfind as [Hin Hrange].
  apply andb_prop in Hrange as [H1 H2].
  apply Z.leb_le in H1. apply Z.leb_le in H2.
  pose proof decimal_zeros_ascii as Hall.
  rewrite Forall_forall in Hall. destruct (Hall zero Hin) as [-> | Hbig]; lia.
Qed.

Lemma parse_H_range (s : string) h rest :
  parse_H s = Some (h, rest) -> 0 <= h < 24.
Proof.
  unfold parse_H.
  destruct (read_digit s) as [[d1 r1]|] eqn:D1; [|discriminate].
  pose proof (read_digit_range _ _ _ D1) as R1.
  destruct (read_digit r1) as [[d2 r2]|] eqn:D2.
  - pose proof (read_digit_range _ _ _ D2) as R2.
    destruct (_ || _) eqn:Hc; [|discriminate].
    destruct (after_colon r2); [|discriminate]. intros H.
    assert (E : h = 10 * d1 + d2) by congruence. rewrite E. clear E H.
    apply orb_prop in Hc as [Hc|Hc].
    + apply andb_prop in Hc as [Ha Hb].
      pose proof (read_digit_ascii "2" "2" s d1 r1 Ha eq_refl D1) as A1.
      pose proof (read_digit_ascii "0" "3" r1 d2 r2 Hb eq_refl D2) as A2.
      unfold byte in A1, A2. cbn in A1, A2. lia.
    + pose proof (read_digit_ascii "0" "1" s d1 r1 Hc eq_refl D1) as A1.
      unfold byte in A1. cbn in A1. lia.
  - destruct (after_colon r1); [|discriminate]. intros [= <- _]. lia.
Qed.

Lemma parse_M_range (s : string) m rest :
  parse_M s = Some (m, rest) -> 0 <= m < 60.
Proof.
  unfold parse_M.
  destruct (read_digit s) as [[d1 r1]|] eqn:D1; [|discriminate].
  pose proof (read_digit_range _ _ _ D1) as R1.
  destruct (read_digit r1) as [[d2 r2]|] eqn:D2.
  - pose proof (read_digit_range _ _ _ D2) as R2.
    destruct (head_in "0" "5" s) eqn:Hc; intros H;
      [assert (E : m = 10 * d1 + d2) by congruence
      |assert (E : m = d1) by congruence]; rewrite E; clear E H; [|lia].
    pose proof (read_digit_ascii "0" "5" s d1 r1 Hc eq_refl D1) as A1.
    unfold byte in A1. cbn in A1. lia.
  - intros [= <- _]. lia.
Qed.

Lemma strptime_HM_range (v : json) h m :
  strptime_HM v = Ok (h, m) -> 0 <= h < 24 /\ 0 <= m < 60.
Proof.
  unfold strptime_HM. intros H.
  destruct v; try discriminate.
  destruct (parse_H s) as [[h' rest]|] eqn:HH; [|discriminate].
  destruct (parse_M rest) as [[m' rest']|] eqn:HM; [|discriminate].
  destruct rest'; [|discriminate]. assert (h = h' /\ m = m') as [-> ->] by (split; congruence).
  split; [eapply parse_H_range | eapply parse_M_range]; eassumption.
Qed.

Lemma in_reminders (planf : json -> result job) evs ev j :
  In ev evs -> planf ev = Ok j -> In j (reminders planf evs).
Proof.
  intros Hin Hplan. unfold reminders. apply in_flat_map.
  exists ev. split; [assumption|]. rewrite Hplan. now left.
Qed.

Lemma in_skipped (planf : json -> result job) evs ev e :
  In ev evs -> planf ev = Raise e ->
  In (ReminderNotScheduled ev e) (skipped planf evs).
Proof.
  intros Hin Hplan. unfold skipped. apply in_flat_map.
  exists ev. split; [assumption|]. rewrite Hplan. now left.
Qed.

Lemma plan_ok (lookup : json -> result Z) (d : string) (tz : tzinfo)
    (ev day time_str : json) (idx h m : Z) :
  dict_get ev "day" (JStr d) = Ok day ->
  lookup day = Ok idx ->
  dict_get ev "time" (JStr "00:00") = Ok time_str ->
  strptime_HM time_str = Ok (h, m) ->
  exists title time_field description,
    dict_get ev "title" JNull = Ok title
    /\ dict_get ev "time" JNull = Ok time_field
    /\ dict_get ev "description" JNull = Ok description
    /\ plan lookup d tz ev
       = Ok (mkJob SendEventReminder
               (mkTime (remind_minute h m / 60) (remind_minute h m mod 60) tz)
               [idx]
               (Some (JObj [("title", title); ("time", time_field);
                            ("description", description)]))
               (FString [Lit "reminder_"; Fmt (JNum idx); Lit "_";
                         Fmt time_field])).
Proof.
  intros Hday Hidx Htime Hparse. unfold plan.
  rewrite Hday. cbn [rbind]. rewrite Hidx. cbn [rbind].
  rewrite Htime. cbn [rbind]. rewrite Hparse. cbn [rbind fst snd].
  destruct ev; try discriminate. cbn [dict_get rbind].
  do 3 eexists. repeat split.
Qed.

Lemma remind_minute_late (h m : Z) :
  0 <= h < 24 -> 0 <= m < 60 -> 15 <= 60 * h + m ->
  remind_minute h m = 60 * h + m - 15.
Proof.
  intros. unfold remind_minute.
  replace (h * 60 + m - 15) with (60 * h + m - 15) by lia.
  apply Z.mod_small. lia.
Qed.

Lemma remind_minute_early (h m : Z) :
  0 <= h < 24 -> 0 <= m < 60 -> 60 * h + m < 15 ->
  remind_minute h m = 60 * h + m + 1425.
Proof.
  intros. unfold remind_minute.
  replace (h * 60 + m - 15) with (60 * h + m + 1425 + (-1) * 1440) by lia.
  rewrite Z.mod_add by lia. apply Z.mod_small. lia.
Qed.

Lemma plan_bad_day (lookup : json -> result Z) (d : string) (tz : tzinfo)
    (ev day : json) (exc : exn) :
  dict_get ev "day" (JStr d) = Ok day ->
  lookup day = Raise exc ->
  plan lookup d tz ev = Raise exc.
Proof.
  intros Hday Hidx. unfold plan. rewrite Hday. cbn [rbind].
  now rewrite Hidx.
Qed.

Lemma plan_bad_time (lookup : json -> result Z) (d : string) (tz : tzinfo)
    (ev day time_str : json) (idx : Z) (exc : exn) :
  dict_get ev "day" (JStr d) = Ok day ->
  lookup day = Ok idx ->
  dict_get ev "time" (JStr "00:00") = Ok time_str ->
  strptime_HM time_str = Raise exc ->
  plan lookup d tz ev = Raise exc.
Proof.
  intros Hday Hidx Htime Hparse. unfold plan. rewrite Hday. cbn [rbind].
  rewrite Hidx. cbn [rbind]. rewrite Htime. cbn [rbind]. now rewrite Hparse.
Qed.

Lemma scheduler_pass (lookup : json -> result Z) (d : string)
    (body : tzinfo -> json -> M world unit) (w : world) tz data evs :
  follows (plan lookup d) body ->
  snd (get_timezone w) = Ok tz ->
  snd (load_data w) = Ok data ->
  listing data "events" = Ok evs ->
  snd (scheduler body w) = Ok tt
  /\ pass_outcome lookup d tz evs w (fst (scheduler body w)).
Proof.
  intros Hbody Htz Hload Hevs.
  destruct (scheduler_run (plan lookup d) body w tz data evs
              Hbody Htz Hload Hevs)
    as (Hr & _ & _ & Hq & _ & _ & entries & Hl).
  split; [exact Hr|]. unfold pass_outcome. split; [exact Hq|].
  assert (Hlogged : forall ev exc,
             In ev evs -> plan lookup d tz ev = Raise exc ->
             In (ReminderNotScheduled ev exc) (log (fst (scheduler body w)))).
  { intros ev exc Hin Hplan. rewrite Hl.
    apply in_or_app. right. apply in_or_app. right.
    now apply in_skipped. }
  split; [|split].
  - intros ev day idx time_str h m Hin Hday Hidx Htime Hparse.
    destruct (plan_ok lookup d tz ev day time_str idx h m
                Hday Hidx Htime Hparse)
      as (title & time_field & description & _ & _ & _ & Hplan).
    eexists. split; [exact Hplan|]. split; [reflexivity|].
    rewrite Hq. apply in_or_app. right. right.
    eapply in_reminders; eassumption.
  - intros ev day exc Hin Hday Hidx.
    pose proof (plan_bad_day lookup d tz ev day exc Hday Hidx) as Hplan.
    split; [exact Hplan|]. now apply Hlogged.
  - intros ev day idx time_str exc Hin Hday Hidx Htime Hparse.
    pose proof (plan_bad_time lookup d tz ev day time_str idx exc
                  Hday Hidx Htime Hparse) as Hplan.
    split; [exact Hplan|]. now apply Hlogged.
Qed.

(** Both weekday tables of the schedulers are the list of the labels. *)
Lemma tables_of_labels (label : string) :
  Lab2.ru_to_py_weekday (JStr label)
  = match label_weekday label with
    | Some wd => Ok wd
    | None => Raise KeyError
    end
  /\ subscript Lab3.weekdays (JStr label)
     = match label_weekday label with
       | Some wd => Ok wd
       | None => Raise KeyError
       end.
Proof.
  unfold Lab2.ru_to_py_weekday, subscript, Lab2.mapping, Lab3.weekdays,
    label_weekday, weekday_labels.
  cbn [find index_of fst snd].
  repeat (destruct (String.eqb label _); [split; reflexivity|]).
  split; reflexivity.
Qed.

Lemma label_weekday_range (label : string) (wd : Z) :
  label_weekday label = Some wd -> 0 <= wd <= 6.
Proof.
  unfold label_weekday, weekday_labels. cbn [index_of].
  repeat (destruct (String.eqb label _); [intros [= <-]; lia|]).
  discriminate.
Qed.

Lemma labelled_plan (lookup : json -> result Z) (d : string) (tz : tzinfo)
    kvs label wd time_str h m :
  lookup (JStr label) = Ok wd ->
  assoc "day" kvs = Some (JStr label) ->
  dict_get (JObj kvs) "time" (JStr "00:00") = Ok time_str ->
  strptime_HM time_str = Ok (h, m) ->
  exists title time_field description,
    dict_get (JObj kvs) "title" JNull = Ok title
    /\ dict_get (JObj kvs) "time" JNull = Ok time_field
    /\ dict_get (JObj kvs) "description" JNull = Ok description
    /\ plan lookup d tz (JObj kvs)
       = Ok (reminder_job tz wd h m title time_field description).
Proof.
  intros Hidx Hday Htime Hparse.
  assert (Hd : dict_get (JObj kvs) "day" (JStr d) = Ok (JStr label))
    by (cbn [dict_get]; now rewrite Hday).
  exact (plan_ok lookup d tz (JObj kvs) (JStr label) time_str wd h m
           Hd Hidx Htime Hparse).
Qed.

Lemma scheduler_labelled (lookup : json -> result Z) (d : string)
    (body : tzinfo -> json -> M world unit) (w : world) tz data evs :
  (forall label, lookup (JStr label)
                 = match label_weekday label with
                   | Some wd => Ok wd
                   | None => Raise KeyError
                   end) ->
  follows (plan lookup d) body ->
  snd (get_timezone w) = Ok tz ->
  snd (load_data w) = Ok data ->
  listing data "events" = Ok evs ->
  labelled_outcome (plan lookup d tz) tz evs (fst (scheduler body w)).
Proof.
  intros Htable Hbody Htz Hload Hevs.
  destruct (scheduler_run (plan lookup d) body w tz data evs
              Hbody Htz Hload Hevs)
    as (_ & _ & _ & Hq & _ & _ & entries & Hl).
  assert (Hlogged : forall ev exc,
             In ev evs -> plan lookup d tz ev = Raise exc ->
             In (ReminderNotScheduled ev exc) (log (fst (scheduler body w)))).
  { intros ev exc Hin Hplan. rewrite Hl.
    apply in_or_app. right. apply in_or_app. right.
    now apply in_skipped. }
  split; [|split].
  - intros kvs label wd time_str h m Hin Hday Hwd Htime Hparse.
    assert (Hidx : lookup (JStr label) = Ok wd)
      by (rewrite Htable; now rewrite Hwd).
    destruct (labelled_plan lookup d tz kvs label wd time_str h m
                Hidx Hday Htime Hparse)
      as (title & time_field & description & Ht & Hf & Hd & Hplan).
    exists title, time_field, description.
    repeat split; try assumption.
    rewrite Hq. apply in_or_app. right. right.
    eapply in_reminders; eassumption.
  - intros kvs label Hin Hday Hnone.
    assert (Hplan : plan lookup d tz (JObj kvs) = Raise KeyError).
    { apply plan_bad_day with (day := JStr label).
      - cbn [dict_get]. now rewrite Hday.
      - rewrite Htable. now rewrite Hnone. }
    split; [exact Hplan|]. now apply Hlogged.
  - intros kvs label wd time_str exc Hin Hday Hwd Htime Hparse.
    assert (Hplan : plan lookup d tz (JObj kvs) = Raise exc).
    { apply plan_bad_time with (day := JStr label) (time_str := time_str)
                               (idx := wd); try assumption.
      - cbn [dict_get]. now rewrite Hday.
      - rewrite Htable. now rewrite Hwd. }
    split; [exact Hplan|]. now apply Hlogged.
Qed.

(** C5.  When an event of the list has an unrecognized weekday label or a
    time that does not parse, [schedule_jobs] (of either file) still
    returns normally and registers the daily digest and the reminder of
    every well-formed event, in order, and nothing else; each malformed
    event is logged with its exception and is the only thing skipped.
    Well-formed is said twice: by the table of the file
    ([pass_outcome]), and by the seven weekday labels themselves
    ([labelled_outcome]): an event whose [day] is one of the seven
    labels and whose time parses has its reminder in the queue, with the
    weekday of the label as [days]; an event whose [day] is a string
    that is none of them is skipped with a [KeyError]. *)
Theorem malformed_event_skipped_alone (w : world) tz data evs :
  snd (get_timezone w) = Ok tz ->
  snd (load_data w) = Ok data ->
  listing data "events" = Ok evs ->
  (snd (Lab2.schedule_jobs w) = Ok tt
   /\ pass_outcome Lab2.ru_to_py_weekday "" tz evs
        w (fst (Lab2.schedule_jobs w))
   /\ labelled_outcome (plan2 tz) tz evs (fst (Lab2.schedule_jobs w)))
  /\ (snd (Lab3.schedule_jobs w) = Ok tt
      /\ pass_outcome (subscript Lab3.weekdays) "Понедельник" tz evs
           w (fst (Lab3.schedule_jobs w))
      /\ labelled_outcome (plan3 tz) tz evs (fst (Lab3.schedule_jobs w))).
Proof.
  intros Htz Hload Hevs. split.
  - rewrite schedule_jobs2_scheduler.
    destruct (scheduler_pass Lab2.ru_to_py_weekday "" Lab2.schedule_reminder
                w tz data evs schedule_reminder2 Htz Hload Hevs) as [Hr Hp].
    split; [exact Hr|]. split; [exact Hp|].
    apply (scheduler_labelled Lab2.ru_to_py_weekday "" Lab2.schedule_reminder
             w tz data evs); try assumption.
    + intros label. apply tables_of_labels.
    + exact schedule_reminder2.
  - rewrite schedule_jobs3_scheduler.
    destruct (scheduler_pass (subscript Lab3.weekdays) "Понедельник"
                Lab3.schedule_reminder w tz data evs
                schedule_reminder3 Htz Hload Hevs) as [Hr Hp].
    split; [exact Hr|]. split; [exact Hp|].
    apply (scheduler_labelled (subscript Lab3.weekdays) "Понедельник"
             Lab3.schedule_reminder w tz data evs); try assumption.
    + intros label. apply tables_of_labels.
    + exact schedule_reminder3.
Qed.

Lemma wall_clock_fields (utcoffset : tzinfo -> Z -> Z) (tz : tzinfo) (t : Z) :
  0 <= hour (wall_clock utcoffset tz t) < 24
  /\ 0 <= minute (wall_clock utcoffset tz t) < 60.
Proof.
  unfold wall_clock. cbn [hour minute].
  set (local := t + utcoffset tz t).
  pose proof (Z.mod_pos_bound local 1440 ltac:(lia)) as Hb.
  pose proof (Z.mod_pos_bound (local mod 1440) 60 ltac:(lia)) as Hm.
  split; [|exact Hm].
  split; [apply Z.div_pos; lia | apply Z.div_lt_upper_bound; lia].
Qed.

(** When the reminder of an event is due: at its time of day, on the day
    the job runner knows by the weekday index of the event. *)
Lemma reminder_job_fires (utcoffset : tzinfo -> Z -> Z) (tz : tzinfo)
    (idx h m : Z) title time_field description (t : Z) :
  0 <= h < 24 -> 0 <= m < 60 ->
  fires utcoffset (reminder_job tz idx h m title time_field description) t
  = true
  <-> 60 * hour (wall_clock utcoffset tz t) + minute (wall_clock utcoffset tz t)
      = remind_minute h m
      /\ weekday (wall_clock utcoffset tz t) = run_daily_weekday idx.
Proof.
  intros Hh Hm.
  unfold fires, reminder_job.
  cbn [job_time job_days t_hour t_minute t_tzinfo existsb].
  rewrite orb_false_r, !andb_true_iff, !Z.eqb_eq.
  pose proof (wall_clock_fields utcoffset tz t) as [Wh Wm].
  assert (Hr : 0 <= remind_minute h m < 1440)
    by (unfold remind_minute; apply Z.mod_pos_bound; lia).
  pose proof (Z.div_mod (remind_minute h m) 60 ltac:(lia)) as Hdm.
  pose proof (Z.mod_pos_bound (remind_minute h m) 60 ltac:(lia)) as Hmb.
  set (q := remind_minute h m / 60) in *.
  set (r := remind_minute h m mod 60) in *.
  split.
  - intros [[H1 H2] H3]. split; [lia | now symmetry].
  - intros [H1 H2]. split; [split|now symmetry]; lia.
Qed.

Lemma labelled_event_registered (w : world) tz data evs kvs label wd
    time_str h m :
  snd (get_timezone w) = Ok tz ->
  snd (load_data w) = Ok data ->
  listing data "events" = Ok evs ->
  In (JObj kvs) evs ->
  assoc "day" kvs = Some (JStr label) ->
  label_weekday label = Some wd ->
  dict_get (JObj kvs) "time" (JStr "00:00") = Ok time_str ->
  strptime_HM time_str = Ok (h, m) ->
  exists title time_field description,
    dict_get (JObj kvs) "title" JNull = Ok title
    /\ dict_get (JObj kvs) "time" JNull = Ok time_field
    /\ dict_get (JObj kvs) "description" JNull = Ok description
    /\ In (reminder_job tz wd h m title time_field description)
          (job_queue (fst (Lab2.schedule_jobs w)))
    /\ In (reminder_job tz wd h m title time_field description)
          (job_queue (fst (Lab3.schedule_jobs w))).
Proof.
  intros Htz Hload Hevs Hin Hday Hwd Htime Hparse.
  pose proof (scheduler_labelled Lab2.ru_to_py_weekday ""
                Lab2.schedule_reminder w tz data evs
                (fun label => proj1 (tables_of_labels label))
                schedule_reminder2 Htz Hload Hevs) as (H2 & _).
  pose proof (scheduler_labelled (subscript Lab3.weekdays) "Понедельник"
                Lab3.schedule_reminder w tz data evs
                (fun label => proj2 (tables_of_labels label))
                schedule_reminder3 Htz Hload Hevs) as (H3 & _).
  destruct (H2 kvs label wd time_str h m Hin Hday Hwd Htime Hparse)
    as (title & time_field & description & Ht & Hf & Hd & _ & Hq2).
  destruct (H3 kvs label wd time_str h m Hin Hday Hwd Htime Hparse)
    as (title' & time_field' & description' & Ht' & Hf' & Hd' & _ & Hq3).
  assert (title' = title) as -> by congruence.
  assert (time_field' = time_field) as -> by congruence.
  assert (description' = description) as -> by congruence.
  exists title, time_field, description. repeat split; assumption.
Qed.

(** C1.  An event of the store whose time parses to a clock time before
    00:15 has, in both files, a reminder that is due fifteen minutes
    before the event's time on the weekday before the event's: exactly
    when the wall clock of the configured zone reads 24 h less 15 min
    past the event's time (23:50 for an event at 00:05) on the day
    before the day of the event's label (Sunday for a Monday event); so
    never at a clamped 00:00 and never on the event's own weekday.  What
    [schedule_jobs] registers is that time of day with the weekday index
    of the event's own day (Monday 0), and the job runner counts its
    days from Sunday. *)
Theorem early_reminder_fires_on_the_day_before (w : world) tz data evs
    kvs label wd time_str h m :
  snd (get_timezone w) = Ok tz ->
  snd (load_data w) = Ok data ->
  listing data "events" = Ok evs ->
  In (JObj kvs) evs ->
  assoc "day" kvs = Some (JStr label) ->
  label_weekday label = Some wd ->
  dict_get (JObj kvs) "time" (JStr "00:00") = Ok time_str ->
  strptime_HM time_str = Ok (h, m) ->
  60 * h + m < 15 ->
  exists title time_field description,
    dict_get (JObj kvs) "title" JNull = Ok title
    /\ dict_get (JObj kvs) "time" JNull = Ok time_field
    /\ dict_get (JObj kvs) "description" JNull = Ok description
    /\ In (reminder_job tz wd h m title time_field description)
          (job_queue (fst (Lab2.schedule_jobs w)))
    /\ In (reminder_job tz wd h m title time_field description)
          (job_queue (fst (Lab3.schedule_jobs w)))
    /\ (forall utcoffset t,
          fires utcoffset
            (reminder_job tz wd h m title time_field description) t = true
          <-> 60 * hour (wall_clock utcoffset tz t)
              + minute (wall_clock utcoffset tz t)
              = 1440 + (60 * h + m) - 15
              /\ weekday (wall_clock utcoffset tz t) = day_before wd)
    /\ (forall utcoffset t,
          fires utcoffset
            (reminder_job tz wd h m title time_field description) t = true ->
          weekday (wall_clock utcoffset tz t) <> wd
          /\ hour (wall_clock utcoffset tz t) = 23).
Proof.
  intros Htz Hload Hevs Hin Hday Hwd Htime Hparse Hearly.
  destruct (strptime_HM_range _ _ _ Hparse) as [Hh Hm].
  destruct (labelled_event_registered w tz data evs kvs label wd time_str h m
              Htz Hload Hevs Hin Hday Hwd Htime Hparse)
    as (title & time_field & description & Ht & Hf & Hd & Hq2 & Hq3).
  pose proof (label_weekday_range label wd Hwd) as Hrange.
  assert (Hdue : forall utcoffset t,
             fires utcoffset
               (reminder_job tz wd h m title time_field description) t = true
             <-> 60 * hour (wall_clock utcoffset tz t)
                 + minute (wall_clock utcoffset tz t)
                 = 1440 + (60 * h + m) - 15
                 /\ weekday (wall_clock utcoffset tz t) = day_before wd).
  { intros utcoffset t.
    rewrite (reminder_job_fires utcoffset tz wd h m title time_field
               description t Hh Hm).
    rewrite (remind_minute_early h m Hh Hm Hearly).
    unfold run_daily_weekday, day_before.
    replace (60 * h + m + 1425) with (1440 + (60 * h + m) - 15) by lia.
    reflexivity. }
  exists title, time_field, description.
  repeat (split; [assumption|]).
  intros utcoffset t Hfires. apply Hdue in Hfires as [Hclock Hwday].
  pose proof (wall_clock_fields utcoffset tz t) as [Wh Wm].
  split; [|lia].
  rewrite Hwday. unfold day_before.
  assert (Hcase : wd = 0 \/ wd = 1 \/ wd = 2 \/ wd = 3 \/ wd = 4 \/ wd = 5
                  \/ wd = 6) by lia.
  destruct Hcase as [->|[->|[->|[->|[->|[->| ->]]]]]]; discriminate.
Qed.

(** C9, as the code has it.  An event of the store whose time is 00:15
    or later has, in both files, a reminder registered at the event's
    time minus fifteen minutes with the weekday index of the event's own
    day, Monday 0; the job runner counts its days from Sunday, so the
    reminder is due exactly when the wall clock of the configured zone
    reads that time on the day before the event's weekday, and never on
    the event's own weekday. *)
Theorem later_reminder_fires_a_day_early (w : world) tz data evs
    kvs label wd time_str h m :
  snd (get_timezone w) = Ok tz ->
  snd (load_data w) = Ok data ->
  listing data "events" = Ok evs ->
  In (JObj kvs) evs ->
  assoc "day" kvs = Some (JStr label) ->
  label_weekday label = Some wd ->
  dict_get (JObj kvs) "time" (JStr "00:00") = Ok time_str ->
  strptime_HM time_str = Ok (h, m) ->
  15 <= 60 * h + m ->
  exists title time_field description,
    dict_get (JObj kvs) "title" JNull = Ok title
    /\ dict_get (JObj kvs) "time" JNull = Ok time_field
    /\ dict_get (JObj kvs) "description" JNull = Ok description
    /\ In (reminder_job tz wd h m title time_field description)
          (job_queue (fst (Lab2.schedule_jobs w)))
    /\ In (reminder_job tz wd h m title time_field description)
          (job_queue (fst (Lab3.schedule_jobs w)))
    /\ job_days (reminder_job tz wd h m title time_field description) = [wd]
    /\ 60 * t_hour (job_time
                      (reminder_job tz wd h m title time_field description))
       + t_minute (job_time
                     (reminder_job tz wd h m title time_field description))
       = 60 * h + m - 15
    /\ (forall utcoffset t,
          fires utcoffset
            (reminder_job tz wd h m title time_field description) t = true
          <-> 60 * hour (wall_clock utcoffset tz t)
              + minute (wall_clock utcoffset tz t)
              = 60 * h + m - 15
              /\ weekday (wall_clock utcoffset tz t) = day_before wd)
    /\ (forall utcoffset t,
          fires utcoffset
            (reminder_job tz wd h m title time_field description) t = true ->
          weekday (wall_clock utcoffset tz t) <> wd).
Proof.
  intros Htz Hload Hevs Hin Hday Hwd Htime Hparse Hlate.
  destruct (strptime_HM_range _ _ _ Hparse) as [Hh Hm].
  destruct (labelled_event_registered w tz data evs kvs label wd time_str h m
              Htz Hload Hevs Hin Hday Hwd Htime Hparse)
    as (title & time_field & description & Ht & Hf & Hd & Hq2 & Hq3).
  pose proof (label_weekday_range label wd Hwd) as Hrange.
  assert (Hdue : forall utcoffset t,
             fires utcoffset
               (reminder_job tz wd h m title time_field description) t = true
             <-> 60 * hour (wall_clock utcoffset tz t)
                 + minute (wall_clock utcoffset tz t)
                 = 60 * h + m - 15
                 /\ weekday (wall_clock utcoffset tz t) = day_before wd).
  { intros utcoffset t.
    rewrite (reminder_job_fires utcoffset tz wd h m title time_field
               description t Hh Hm).
    rewrite (remind_minute_late h m Hh Hm Hlate).
    reflexivity. }
  exists title, time_field, description.
  repeat (split; [assumption|]).
  split; [reflexivity|]. split.
  { cbn [reminder_job job_time t_hour t_minute].
    rewrite (remind_minute_late h m Hh Hm Hlate).
    pose proof (Z.div_mod (60 * h + m - 15) 60 ltac:(lia)). lia. }
  split; [exact Hdue|].
  intros utcoffset t Hfires. apply Hdue in Hfires as [_ Hwday].
  rewrite Hwday. unfold day_before.
  assert (Hcase : wd = 0 \/ wd = 1 \/ wd = 2 \/ wd = 3 \/ wd = 4 \/ wd = 5
                  \/ wd = 6) by lia.
  destruct Hcase as [->|[->|[->|[->|[->|[->| ->]]]]]]; discriminate.
Qed.





Lemma get_timezone_configured (w : world) name tz :
  TIMEZONE = Some name -> pytz_timezone name = Ok tz ->
  get_timezone w = (w, Ok tz).
Proof.
  intros Hname Hzone. unfold get_timezone, try_except, lift.
  now rewrite Hname, Hzone.
Qed.

Lemma scheduler_digest_first planf body (w : world) tz :
  follows planf body ->
  snd (get_timezone w) = Ok tz ->
  exists rest,
    job_queue (fst (scheduler body w))
    = (job_queue w ++ daily_digest_job tz :: rest)%list.
Proof.
  intros Hbody Htz. unfold scheduler, bind.
  pose proof (get_timezone_frame w) as (_ & _ & Fq & _).
  destruct (get_timezone w) as [w1 r1]. cbn [fst snd] in *. subst r1.
  unfold run_daily at 1.
  match goal with |- context [load_data ?x] => set (w1' := x) end.
  pose proof (load_data_frame w1') as (_ & _ & Gq & _).
  destruct (load_data w1') as [w2 [data|e]]; cbn [fst] in *.
  - unfold lift.
    destruct (rbind (dict_get data "events" (JArr [])) _) as [evs|e].
    + rewrite (for_each_reminders (planf tz) (body tz))
        by (intros; apply Hbody).
      cbn [fst job_queue]. rewrite Gq. subst w1'. cbn [job_queue].
      rewrite Fq, <- app_assoc. eexists. reflexivity.
    + cbn [fst]. rewrite Gq. subst w1'. cbn [job_queue]. rewrite Fq.
      eexists. reflexivity.
  - rewrite Gq. subst w1'. cbn [job_queue]. rewrite Fq.
    eexists. reflexivity.
Qed.

Lemma weekday_every_day (dt : datetime) :
  existsb (fun d => run_daily_weekday d =? weekday dt) every_day = true.
Proof.
  unfold weekday.
  pose proof (Z.mod_pos_bound (ordinal dt + 6) 7 ltac:(lia)) as Hb.
  set (d := (ordinal dt + 6) mod 7) in *.
  assert (Hd : d = 0 \/ d = 1 \/ d = 2 \/ d = 3 \/ d = 4 \/ d = 5 \/ d = 6)
    by lia.
  destruct Hd as [->|[->|[->|[->|[->|[->| ->]]]]]]; reflexivity.
Qed.

(** C2.  With a valid time zone name configured, [schedule_jobs] (of
    either file) registers the daily digest in that zone, whatever the
    store and the clock; and that job is due exactly at the instants at
    which the wall clock of the zone reads 09:00, on any day of the week
    and whatever the offset of the zone from UTC is at that instant. *)
Theorem daily_digest_at_nine_local (w : world) name tz
    (utcoffset : tzinfo -> Z -> Z) (t : Z) :
  TIMEZONE = Some name ->
  pytz_timezone name = Ok tz ->
  (exists rest,
      job_queue (fst (Lab2.schedule_jobs w))
      = (job_queue w ++ daily_digest_job tz :: rest)%list)
  /\ (exists rest,
        job_queue (fst (Lab3.schedule_jobs w))
        = (job_queue w ++ daily_digest_job tz :: rest)%list)
  /\ (fires utcoffset (daily_digest_job tz) t = true
      <-> hour (wall_clock utcoffset tz t) = 9
          /\ minute (wall_clock utcoffset tz t) = 0).
Proof.
  intros Hname Hzone.
  assert (Htz : snd (get_timezone w) = Ok tz)
    by now rewrite (get_timezone_configured w name tz).
  split; [|split].
  - rewrite schedule_jobs2_scheduler.
    exact (scheduler_digest_first plan2 _ w tz schedule_reminder2 Htz).
  - rewrite schedule_jobs3_scheduler.
    exact (scheduler_digest_first plan3 _ w tz schedule_reminder3 Htz).
  - unfold fires.
    cbn [daily_digest_job job_time job_days t_hour t_minute t_tzinfo].
    rewrite weekday_every_day, andb_true_r, andb_true_iff, !Z.eqb_eq.
    reflexivity.
Qed.

(** A clean load leaves the world as it is. *)
Lemma load_data_clean (w : world) text v :
  data_file w = Some text -> json_load text = Ok v ->
  load_data w = (w, Ok v).
Proof.
  intros Hfile Hload.
  unfold load_data, try_except, read_data_file. now rewrite Hfile, Hload.
Qed.

Lemma save_data_written (w : world) d text :
  json_dump d = Dumped text ->
  save_data d w
  = (mkWorld (Some text) None (job_queue w) (outbox w) (replies w) (log w)
             (clock_reads w), Ok tt).
Proof.
  intros Hdump. unfold save_data, try_except, bind, write_tmp, os_replace.
  now rewrite Hdump.
Qed.

(** C8.  For every document that the store codec round-trips
    ([json.load] of what [json.dump] wrote gives the document back),
    [save_data] followed by [load_data] returns the document unchanged,
    whatever the two files held before; nothing is logged and no
    temporary file is left. *)
Theorem save_then_load_returns_document (w : world) (d : json) :
  round_trips d ->
  snd (save_data d w) = Ok tt
  /\ load_data (fst (save_data d w)) = (fst (save_data d w), Ok d)
  /\ tmp_file (fst (save_data d w)) = None
  /\ log (fst (save_data d w)) = log w.
Proof.
  intros (text & Hdump & Hload).
  rewrite (save_data_written w d text Hdump). cbn [fst snd].
  repeat split.
  now apply load_data_clean with (text := text).
Qed.

(** The loop of the notifier: one attempt per subscriber, in order. *)
Lemma for_each_send (text : pytext) (entry : json -> exn -> log_entry)
    (subs : list json) :
  forall w,
    for_each subs
      (fun chat_id =>
         try_except (bot_send_message chat_id text)
           (fun exc => logger (entry chat_id exc))) w
    = (mkWorld (data_file w) (tmp_file w) (job_queue w)
         (outbox w
          ++ map (fun c => (c, text)) (filter (fun c => delivers c text) subs))
         (replies w)
         (log w
          ++ map (fun c => entry c TransportError)
               (filter (fun c => negb (delivers c text)) subs))
         (clock_reads w), Ok tt).
Proof.
  induction subs as [|c subs IH]; intros w.
  - cbn. unfold ret. rewrite !app_nil_r. now destruct w.
  - cbn [for_each filter]. unfold bind, try_except, bot_send_message at 1.
    destruct (delivers c text); cbn [negb].
    + rewrite IH. cbn. now rewrite <- app_assoc.
    + unfold logger at 1. rewrite IH. cbn. now rewrite <- app_assoc.
Qed.

Lemma send_event_reminder_run (j : job) (w : world) data events text subs :
  snd (load_data w) = Ok data ->
  dict_get data "events" (JArr []) = Ok events ->
  truthy events = true ->
  reminder_text (job_data j) = Ok text ->
  listing data "subscribers" = Ok subs ->
  snd (send_event_reminder j w) = Ok tt
  /\ outbox (fst (send_event_reminder j w))
     = (outbox w
        ++ map (fun c => (c, text)) (filter (fun c => delivers c text) subs))%list
  /\ exists entries,
       log (fst (send_event_reminder j w))
       = (log w ++ entries
          ++ map (fun c => ReminderNotSent c TransportError)
               (filter (fun c => negb (delivers c text)) subs))%list.
Proof.
  intros Hload Hev Htruthy Htext Hsubs.
  unfold send_event_reminder, bind.
  pose proof (load_data_frame w) as (_ & _ & _ & Fo & _ & _ & l1 & Fl).
  destruct (load_data w) as [w1 r1]. cbn [fst snd] in *. subst r1.
  unfold lift. rewrite Hev, Htruthy. cbn [negb]. rewrite Htext.
  unfold listing in Hsubs. rewrite Hsubs.
  rewrite for_each_send. cbn [fst snd outbox log]. rewrite Fo, Fl.
  repeat split. exists l1. now rewrite <- app_assoc.
Qed.

Lemma reminder_text_payload title time_field description :
  reminder_text (Some (JObj [("title", title); ("time", time_field);
                             ("description", description)]))
  = Ok (FString [Lit "Напоминание: "; Fmt title; Lit " в "; Fmt time_field;
                 Lit ". "; Fmt description]).
Proof. reflexivity. Qed.

(** The guard at the head of [send_event_reminder]: with no events in
    the store it returns at once. *)
Lemma send_event_reminder_idle (j : job) (w : world) data events :
  snd (load_data w) = Ok data ->
  dict_get data "events" (JArr []) = Ok events ->
  truthy events = false ->
  snd (send_event_reminder j w) = Ok tt
  /\ outbox (fst (send_event_reminder j w)) = outbox w
  /\ replies (fst (send_event_reminder j w)) = replies w.
Proof.
  intros Hload Hev Hfalsy.
  unfold send_event_reminder, bind.
  pose proof (load_data_frame w) as (_ & _ & _ & Fo & Fr & _).
  destruct (load_data w) as [w1 r1]. cbn [fst snd] in *. subst r1.
  unfold lift. rewrite Hev, Hfalsy. cbn. repeat split; assumption.
Qed.

(** C4, as amended.  When a reminder fires, what happens turns on the
    events list of the store at that moment ([data.get("events", [])]).
    Non-empty: the message built from the payload of the job (title,
    time, description) goes to every subscriber: those the transport
    serves get it, in order, and a warning is logged for each of the
    others.  Missing or empty: the reminder returns at once and nothing
    is sent, whoever is subscribed. *)
Theorem reminder_goes_out_only_when_events_exist (j : job) (w : world)
    data events :
  snd (load_data w) = Ok data ->
  dict_get data "events" (JArr []) = Ok events ->
  (truthy events = true ->
   forall subs title time_field description,
     job_data j = Some (JObj [("title", title); ("time", time_field);
                              ("description", description)]) ->
     listing data "subscribers" = Ok subs ->
     let text := FString [Lit "Напоминание: "; Fmt title; Lit " в ";
                          Fmt time_field; Lit ". "; Fmt description] in
     snd (send_event_reminder j w) = Ok tt
     /\ outbox (fst (send_event_reminder j w))
        = (outbox w
           ++ map (fun c => (c, text))
                (filter (fun c => delivers c text) subs))%list
     /\ forall c, In c subs ->
          (delivers c text = true ->
           In (c, text) (outbox (fst (send_event_reminder j w))))
          /\ (delivers c text = false ->
              In (ReminderNotSent c TransportError)
                 (log (fst (send_event_reminder j w)))))
  /\ (truthy events = false ->
      snd (send_event_reminder j w) = Ok tt
      /\ outbox (fst (send_event_reminder j w)) = outbox w
      /\ replies (fst (send_event_reminder j w)) = replies w).
Proof.
  intros Hload Hev. split.
  - intros Htruthy subs title time_field description Hdata Hsubs text.
    assert (Htext : reminder_text (job_data j) = Ok text)
      by (rewrite Hdata; apply reminder_text_payload).
    destruct (send_event_reminder_run j w data events text subs
                Hload Hev Htruthy Htext Hsubs) as (Hr & Ho & entries & Hl).
    repeat split; try assumption.
    + intros Hd. rewrite Ho. apply in_or_app. right.
      apply in_map_iff. exists c. split; [reflexivity|].
      apply filter_In. now split.
    + intros Hd. rewrite Hl. apply in_or_app. right. apply in_or_app. right.
      apply in_map_iff. exists c. split; [reflexivity|].
      apply filter_In. split; [assumption|]. now rewrite Hd.
  - intros Hfalsy.
    exact (send_event_reminder_idle j w data events Hload Hev Hfalsy).
Qed.



Lemma load_data_cases (w : world) data :
  snd (load_data w) = Ok data ->
  load_data w = (w, Ok data) \/ data = JObj [].
Proof.
  unfold load_data, try_except, read_data_file, bind, logger, ret, lift.
  destruct (data_file w) as [text|].
  - destruct (json_load text) as [v|e]; cbn [snd].
    + intros [= <-]. now left.
    + destruct e; cbn [snd]; intros H; try discriminate H;
        injection H as <-; now right.
  - cbn [snd]. intros [= <-]. now right.
Qed.

Lemma assoc_set_same (k : string) (v : json) (kvs : list (string * json)) :
  assoc k (assoc_set k v kvs) = Some v.
Proof.
  induction kvs as [|[k' v'] kvs IH]; cbn [assoc_set assoc].
  - now rewrite String.eqb_refl.
  - destruct (String.eqb k k') eqn:E; cbn [assoc]; now rewrite E.
Qed.

Lemma start_when_present (u : Update) (w : world) id data subs :
  effective_chat u = Some id ->
  snd (load_data w) = Ok data ->
  dict_get data "subscribers" (JArr []) = Ok subs ->
  int_in id subs = Ok true ->
  start u w
  = (mkWorld (data_file w) (tmp_file w) (job_queue w) (outbox w)
       (replies w
        ++ [(greeting (match effective_user u with
                       | Some first_name => first_name
                       | None => ""
                       end), Some HTML)])
       (log w) (clock_reads w), Ok tt).
Proof.
  intros Hchat Hload Hsubs Hin.
  destruct (load_data_cases w data Hload) as [Hclean | ->].
  - unfold start, bind, lift. rewrite Hclean, Hsubs, Hchat, Hin.
    reflexivity.
  - cbn in Hsubs. injection Hsubs as <-. discriminate Hin.
Qed.

Lemma start_when_absent (u : Update) (w : world) id data subs data' text :
  effective_chat u = Some id ->
  snd (load_data w) = Ok data ->
  dict_get data "subscribers" (JArr []) = Ok (JArr subs) ->
  existsb (int_eq id) subs = false ->
  dict_set data "subscribers" (JArr (subs ++ [JNum id])) = Ok data' ->
  json_dump data' = Dumped text ->
  snd (start u w) = Ok tt
  /\ data_file (fst (start u w)) = Some text
  /\ tmp_file (fst (start u w)) = None.
Proof.
  intros Hchat Hload Hsubs Hin Hset Hdump.
  unfold start, bind, lift.
  destruct (load_data w) as [w1 r1]. cbn [snd] in Hload. subst r1.
  rewrite Hsubs, Hchat. cbn [int_in]. rewrite Hin. cbn [negb list_append].
  rewrite Hset, (save_data_written w1 data' text Hdump).
  repeat split.
Qed.

Lemma occurrences_none (id : Z) (subs : list json) :
  occurrences id subs = 0%nat -> existsb (int_eq id) subs = false.
Proof.
  unfold occurrences. induction subs as [|x subs IH]; [reflexivity|].
  cbn [filter existsb]. destruct (int_eq id x); [discriminate|].
  exact IH.
Qed.

Lemma occurrences_some (id : Z) (subs : list json) :
  occurrences id subs <> 0%nat -> existsb (int_eq id) subs = true.
Proof.
  unfold occurrences. induction subs as [|x subs IH]; [easy|].
  cbn [filter existsb]. destruct (int_eq id x); [reflexivity|].
  exact IH.
Qed.

Lemma occurrences_appended (id : Z) (subs : list json) :
  occurrences id (subs ++ [JNum id]) = S (occurrences id subs).
Proof.
  unfold occurrences. rewrite filter_app, length_app.
  cbn [filter int_eq]. rewrite Z.eqb_refl. cbn [length]. lia.
Qed.

(** C10.  When the chat of a [/start] is already among the stored
    subscribers, the handler changes nothing but the replies: neither
    file of the store is touched, nothing is logged, and the greeting is
    the one reply. *)
Theorem start_of_a_subscriber_saves_nothing (u : Update) (w : world)
    id data subs :
  effective_chat u = Some id ->
  snd (load_data w) = Ok data ->
  dict_get data "subscribers" (JArr []) = Ok subs ->
  int_in id subs = Ok true ->
  start u w
  = (mkWorld (data_file w) (tmp_file w) (job_queue w) (outbox w)
       (replies w
        ++ [(greeting (match effective_user u with
                       | Some first_name => first_name
                       | None => ""
                       end), Some HTML)])
       (log w) (clock_reads w), Ok tt).
Proof. exact (start_when_present u w id data subs). Qed.

(** C7.  From a store whose subscriber list holds a chat at most once,
    two [/start]s of that chat return normally and leave the stored list
    with exactly one occurrence of it; the second [/start] leaves the
    store as the first one did.  The document that the first [/start]
    saves, when it saves, is assumed to survive the store codec. *)
Theorem subscribing_twice_leaves_one_occurrence (u : Update) (w : world)
    id data subs data' :
  effective_chat u = Some id ->
  snd (load_data w) = Ok data ->
  dict_get data "subscribers" (JArr []) = Ok (JArr subs) ->
  (occurrences id subs <= 1)%nat ->
  dict_set data "subscribers" (JArr (subs ++ [JNum id])) = Ok data' ->
  (occurrences id subs = 0%nat -> round_trips data') ->
  let once := fst (start u w) in
  let twice := fst (start u once) in
  snd (start u w) = Ok tt
  /\ snd (start u once) = Ok tt
  /\ (exists stored subs',
        snd (load_data twice) = Ok stored
        /\ dict_get stored "subscribers" (JArr []) = Ok (JArr subs')
        /\ occurrences id subs' = 1%nat)
  /\ data_file twice = data_file once
  /\ tmp_file twice = tmp_file once.
Proof.
  intros Hchat Hload Hsubs Hdedup Hset Hcodec once twice.
  destruct (Nat.eq_dec (occurrences id subs) 0) as [Hzero|Hsome].
  - destruct (Hcodec Hzero) as (text & Hdump & Hback).
    pose proof (occurrences_none id subs Hzero) as Habsent.
    destruct (start_when_absent u w id data subs data' text
                Hchat Hload Hsubs Habsent Hset Hdump) as (Hr & Hd & Ht).
    fold once in Hd, Ht.
    assert (Hload1 : load_data once = (once, Ok data'))
      by (apply load_data_clean with (text := text); assumption).
    assert (Hsubs1 : dict_get data' "subscribers" (JArr [])
                     = Ok (JArr (subs ++ [JNum id]))).
    { destruct data; try discriminate Hset. cbn in Hset.
      injection Hset as <-. cbn [dict_get]. now rewrite assoc_set_same. }
    assert (Hin1 : int_in id (JArr (subs ++ [JNum id])) = Ok true).
    { cbn [int_in]. rewrite existsb_app. cbn [existsb int_eq].
      rewrite Z.eqb_refl. now rewrite orb_true_r. }
    assert (Hsnd1 : snd (load_data once) = Ok data') by now rewrite Hload1.
    pose proof (start_when_present u once id data' _ Hchat Hsnd1 Hsubs1 Hin1)
      as Hsecond.
    subst twice. rewrite Hsecond. cbn [fst snd data_file tmp_file].
    repeat split; try assumption.
    exists data', (subs ++ [JNum id])%list. repeat split.
    + rewrite (load_data_result _ once) by reflexivity. exact Hsnd1.
    + exact Hsubs1.
    + rewrite occurrences_appended. lia.
  - pose proof (occurrences_some id subs Hsome) as Hpresent.
    assert (Hin : int_in id (JArr subs) = Ok true)
      by (cbn [int_in]; now rewrite Hpresent).
    pose proof (start_when_present u w id data _ Hchat Hload Hsubs Hin)
      as Hfirst.
    assert (Hload1 : snd (load_data once) = Ok data).
    { subst once. rewrite Hfirst. cbn [fst].
      rewrite (load_data_result _ w) by reflexivity. exact Hload. }
    pose proof (start_when_present u once id data _ Hchat Hload1 Hsubs Hin)
      as Hsecond.
    subst twice. rewrite Hsecond. cbn [fst snd data_file tmp_file].
    repeat split.
    + now rewrite Hfirst.
    + exists data, subs. repeat split.
      * rewrite (load_data_result _ once) by reflexivity. exact Hload1.
      * exact Hsubs.
      * lia.
Qed.

End Facts.

(** ** The demo codec reads back what it writes *)

Module Codec.
Import Demo.

Lemma append_assoc (a b c : string) : (a ++ b) ++ c = a ++ (b ++ c).
Proof. induction a as [|x a IH]; cbn; [reflexivity | now rewrite IH]. Qed.

Lemma length_append (a b : string) :
  String.length (a ++ b) = (String.length a + String.length b)%nat.
Proof. induction a as [|x a IH]; cbn; [reflexivity | now rewrite IH]. Qed.

Lemma string_body_plain (c : ascii) (r : string) :
  Ascii.eqb c dquote = false -> Ascii.eqb c backslash = false ->
  string_body (String c r)
  = match string_body r with
    | Some (body, rest) => Some (String c body, rest)
    | None => None
    end.
Proof. intros H1 H2. cbn [string_body]. now rewrite H1, H2. Qed.

Lemma string_body_escape (s rest : string) :
  string_body (escape s ++ String dquote rest) = Some (s, rest).
Proof.
  induction s as [|c s IH].
  - reflexivity.
  - cbn [escape]. unfold escape_char.
    destruct (Ascii.eqb c dquote) eqn:E1.
    { apply Ascii.eqb_eq in E1. subst c.
      change (string_body (String backslash (String dquote
                (escape s ++ String dquote rest)))
              = Some (String dquote s, rest)).
      change (match string_body (escape s ++ String dquote rest) with
              | Some (body, rest0) => Some (String dquote body, rest0)
              | None => None
              end = Some (String dquote s, rest)).
      now rewrite IH. }
    destruct (Ascii.eqb c backslash) eqn:E2.
    { apply Ascii.eqb_eq in E2. subst c.
      change (match string_body (escape s ++ String dquote rest) with
              | Some (body, rest0) => Some (String backslash body, rest0)
              | None => None
              end = Some (String backslash s, rest)).
      now rewrite IH. }
    destruct (Ascii.eqb c (ascii_of_nat 10)) eqn:E3.
    { apply Ascii.eqb_eq in E3. subst c.
      change (match string_body (escape s ++ String dquote rest) with
              | Some (body, rest0) => Some (String (ascii_of_nat 10) body, rest0)
              | None => None
              end = Some (String (ascii_of_nat 10) s, rest)).
      now rewrite IH. }
    destruct (Ascii.eqb c (ascii_of_nat 13)) eqn:E4.
    { apply Ascii.eqb_eq in E4. subst c.
      change (match string_body (escape s ++ String dquote rest) with
              | Some (body, rest0) => Some (String (ascii_of_nat 13) body, rest0)
              | None => None
              end = Some (String (ascii_of_nat 13) s, rest)).
      now rewrite IH. }
    destruct (Ascii.eqb c (ascii_of_nat 9)) eqn:E5.
    { apply Ascii.eqb_eq in E5. subst c.
      change (match string_body (escape s ++ String dquote rest) with
              | Some (body, rest0) => Some (String (ascii_of_nat 9) body, rest0)
              | None => None
              end = Some (String (ascii_of_nat 9) s, rest)).
      now rewrite IH. }
    destruct (Ascii.eqb c (ascii_of_nat 8)) eqn:E6.
    { apply Ascii.eqb_eq in E6. subst c.
      change (match string_body (escape s ++ String dquote rest) with
              | Some (body, rest0) => Some (String (ascii_of_nat 8) body, rest0)
              | None => None
              end = Some (String (ascii_of_nat 8) s, rest)).
      now rewrite IH. }
    destruct (Ascii.eqb c (ascii_of_nat 12)) eqn:E7.
    { apply Ascii.eqb_eq in E7. subst c.
      change (match string_body (escape s ++ String dquote rest) with
              | Some (body, rest0) => Some (String (ascii_of_nat 12) body, rest0)
              | None => None
              end = Some (String (ascii_of_nat 12) s, rest)).
      now rewrite IH. }
    change (string_body (String c (escape s ++ String dquote rest))
            = Some (String c s, rest)).
    rewrite string_body_plain by assumption. now rewrite IH.
Qed.

Lemma digit_char (d : Z) :
  0 <= d <= 9 ->
  is_digit (ascii_of_N (Z.to_N (48 + d))) = true
  /\ digit (ascii_of_N (Z.to_N (48 + d))) = d.
Proof.
  intros H.
  assert (Hd : d = 0 \/ d = 1 \/ d = 2 \/ d = 3 \/ d = 4 \/ d = 5 \/ d = 6
               \/ d = 7 \/ d = 8 \/ d = 9) by lia.
  destruct Hd as [->|[->|[->|[->|[->|[->|[->|[->|[->| ->]]]]]]]]];
    split; reflexivity.
Qed.

Lemma number_body_digits (fuel : nat) :
  forall n acc, 0 <= n < 2 ^ Z.of_nat fuel ->
    number_body 0 (digits_of fuel n acc) = number_body n acc.
Proof.
  induction fuel as [|fuel IH]; intros n acc Hn.
  - cbn in Hn. assert (n = 0) by lia. subst n. reflexivity.
  - cbn [digits_of].
    pose proof (Z.mod_pos_bound n 10 ltac:(lia)) as Hm.
    destruct (digit_char (n mod 10) ltac:(lia)) as [Hd Hv].
    destruct (n <? 10) eqn:Hlt.
    + apply Z.ltb_lt in Hlt. rewrite Z.mod_small in * by lia.
      cbn [number_body]. rewrite Hd, Hv. f_equal.
    + apply Z.ltb_ge in Hlt.
      rewrite IH.
      * cbn [number_body]. rewrite Hd, Hv. f_equal.
        pose proof (Z.div_mod n 10 ltac:(lia)). lia.
      * rewrite Nat2Z.inj_succ, Z.pow_succ_r in Hn by lia.
        split; [apply Z.div_pos; lia|].
        apply Z.div_lt_upper_bound; lia.
Qed.

Lemma digits_of_head (fuel : nat) :
  forall n acc, 0 <= n ->
    exists c r, digits_of (S fuel) n acc = String c r /\ is_digit c = true.
Proof.
  induction fuel as [|fuel IH]; intros n acc Hn.
  - cbn [digits_of].
    pose proof (Z.mod_pos_bound n 10 ltac:(lia)) as Hm.
    destruct (digit_char (n mod 10) ltac:(lia)) as [Hd _].
    destruct (n <? 10); eexists; eexists; split; try reflexivity; exact Hd.
  - remember (S fuel) as f eqn:Hf. cbn [digits_of].
    pose proof (Z.mod_pos_bound n 10 ltac:(lia)) as Hm.
    destruct (digit_char (n mod 10) ltac:(lia)) as [Hd _].
    destruct (n <? 10).
    + eexists; eexists; split; try reflexivity; exact Hd.
    + subst f. apply IH. apply Z.div_pos; lia.
Qed.

Lemma digits_of_append (fuel : nat) :
  forall n acc rest,
    digits_of fuel n acc ++ rest = digits_of fuel n (acc ++ rest).
Proof.
  induction fuel as [|fuel IH]; intros n acc rest; cbn [digits_of].
  - reflexivity.
  - destruct (n <? 10); [reflexivity|]. now rewrite IH.
Qed.

Lemma number_body_stop (n : Z) (rest : string) :
  no_digit_head rest -> number_body n rest = (n, rest).
Proof. destruct rest as [|c r]; cbn; [reflexivity|]. now intros ->. Qed.

Lemma log2_fuel (n : Z) : 0 <= n -> n < 2 ^ Z.of_nat (S (Z.to_nat (Z.log2 n))).
Proof.
  intros Hn. rewrite Nat2Z.inj_succ, Z2Nat.id by apply Z.log2_nonneg.
  destruct (Z.eq_dec n 0) as [->|Hz]; [reflexivity|].
  apply Z.log2_spec. lia.
Qed.

Lemma dumps_arr (level : nat) (x : json) (l : list json) :
  dumps level (JArr (x :: l))
  = "[" ++ newline ++ elems level (x :: l) ++ newline ++ spaces level ++ "]".
Proof. reflexivity. Qed.

Lemma dumps_obj (level : nat) (kv : string * json) (kvs : list (string * json)) :
  dumps level (JObj (kv :: kvs))
  = "{" ++ newline ++ fields level (kv :: kvs) ++ newline ++ spaces level ++ "}".
Proof. reflexivity. Qed.

Lemma json_induction (P : json -> Prop) :
  P JNull ->
  (forall b, P (JBool b)) ->
  (forall n, P (JNum n)) ->
  (forall s, P (JStr s)) ->
  (forall l, Forall P l -> P (JArr l)) ->
  (forall kvs, Forall (fun kv => P (snd kv)) kvs -> P (JObj kvs)) ->
  forall v, P v.
Proof.
  intros Hnull Hbool Hnum Hstr Harr Hobj.
  fix IH 1. intros [ | b | n | s | l | kvs ].
  - exact Hnull.
  - apply Hbool.
  - apply Hnum.
  - apply Hstr.
  - apply Harr. induction l as [|x l IHl]; constructor; [apply IH | exact IHl].
  - apply Hobj. induction kvs as [|[k x] kvs IHl]; constructor;
      [apply IH | exact IHl].
Qed.

Lemma is_digit_opens (c : ascii) : is_digit c = true -> opens c = true.
Proof.
  destruct c as [[] [] [] [] [] [] [] []]; vm_compute; intros H;
    solve [reflexivity | discriminate H].
Qed.

Lemma opens_not_space c : opens c = true -> is_space c = false.
Proof.
  unfold opens. intros H. apply andb_prop in H as [H _].
  apply andb_prop in H as [H _]. apply andb_prop in H as [H _].
  now apply negb_true_iff in H.
Qed.

Lemma opens_not_close c :
  opens c = true -> Ascii.eqb c "]" = false /\ Ascii.eqb c "}" = false.
Proof.
  unfold opens. intros H. apply andb_prop in H as [H _].
  apply andb_prop in H as [H H3]. apply andb_prop in H as [_ H2].
  split; now apply negb_true_iff.
Qed.

Lemma string_of_Z_head (n : Z) :
  exists c r, string_of_Z n = String c r /\ opens c = true.
Proof.
  unfold string_of_Z. destruct (n <? 0) eqn:Hneg.
  - do 2 eexists. split; reflexivity.
  - apply Z.ltb_ge in Hneg.
    destruct (digits_of_head (Z.to_nat (Z.log2 n)) n EmptyString Hneg)
      as (c & r & -> & Hd).
    exists c, r. split; [reflexivity|]. now apply is_digit_opens.
Qed.

Lemma dumps_head (v : json) (level : nat) :
  exists c r, dumps level v = String c r /\ opens c = true.
Proof.
  destruct v as [ | [] | n | s | [|x l] | [|kv kvs] ];
    try (do 2 eexists; split; reflexivity).
  apply string_of_Z_head.
Qed.

Lemma skip_spaces_head (c : ascii) (r : string) :
  is_space c = false -> skip_spaces (String c r) = String c r.
Proof. intros H. cbn [skip_spaces]. now rewrite H. Qed.

Lemma skip_spaces_spaces (k : nat) (s : string) :
  skip_spaces (spaces k ++ s) = skip_spaces s.
Proof. induction k as [|k IH]; [reflexivity | exact IH]. Qed.

Lemma skip_spaces_newline (s : string) :
  skip_spaces (newline ++ s) = skip_spaces s.
Proof. reflexivity. Qed.

Lemma value_skip (fuel : nat) (s s' : string) :
  skip_spaces s = skip_spaces s' -> value fuel s = value fuel s'.
Proof.
  intros H. destruct fuel; [reflexivity|]. cbn [value]. now rewrite H.
Qed.

Lemma value_null (fuel : nat) (rest : string) :
  value (S fuel) (dumps 0 JNull ++ rest) = Some (JNull, rest).
Proof. reflexivity. Qed.

Lemma value_bool (fuel : nat) (b : bool) (rest : string) :
  value (S fuel) (dumps 0 (JBool b) ++ rest) = Some (JBool b, rest).
Proof. destruct b; reflexivity. Qed.

Lemma value_str (fuel : nat) (s rest : string) :
  value (S fuel) (quoted s ++ rest) = Some (JStr s, rest).
Proof.
  unfold quoted. cbn [append]. rewrite append_assoc. cbn [append].
  cbn [value]. rewrite skip_spaces_head by reflexivity.
  change (is_digit dquote) with false. cbv iota.
  change (Ascii.eqb dquote "-") with false. cbv iota.
  rewrite Ascii.eqb_refl. now rewrite string_body_escape.
Qed.

Lemma value_nat (fuel : nat) (n : Z) (rest : string) :
  0 <= n -> no_digit_head rest ->
  value (S fuel)
    (digits_of (S (Z.to_nat (Z.log2 n))) n EmptyString ++ rest)
  = Some (JNum n, rest).
Proof.
  intros Hn Hrest.
  destruct (digits_of_head (Z.to_nat (Z.log2 n)) n EmptyString Hn)
    as (c & r & Hhead & Hd).
  pose proof (number_body_digits (S (Z.to_nat (Z.log2 n))) n rest
                (conj Hn (log2_fuel n Hn))) as Hbody.
  rewrite (number_body_stop n rest Hrest) in Hbody.
  change rest with (EmptyString ++ rest) in Hbody at 1.
  rewrite <- digits_of_append in Hbody.
  rewrite Hhead in *. cbn [append] in *.
  cbn [value].
  rewrite skip_spaces_head by (apply opens_not_space; now apply is_digit_opens).
  rewrite Hd. now rewrite Hbody.
Qed.

Lemma value_num (fuel : nat) (n : Z) (rest : string) :
  no_digit_head rest ->
  value (S fuel) (string_of_Z n ++ rest) = Some (JNum n, rest).
Proof.
  intros Hrest. unfold string_of_Z. destruct (n <? 0) eqn:Hneg.
  - apply Z.ltb_lt in Hneg.
    assert (Hpos : 0 <= - n) by lia.
    destruct (digits_of_head (Z.to_nat (Z.log2 (- n))) (- n) EmptyString Hpos)
      as (c & r & Hhead & Hd).
    pose proof (number_body_digits (S (Z.to_nat (Z.log2 (- n)))) (- n) rest
                  (conj Hpos (log2_fuel (- n) Hpos))) as Hbody.
    rewrite (number_body_stop (- n) rest Hrest) in Hbody.
    change rest with (EmptyString ++ rest) in Hbody at 1.
    rewrite <- digits_of_append in Hbody.
    rewrite Hhead in *. cbn [append] in *.
    cbn [value]. rewrite skip_spaces_head by reflexivity.
    change (is_digit "-") with false. cbv iota.
    rewrite Ascii.eqb_refl, Hd, Hbody. now rewrite Z.opp_involutive.
  - apply Z.ltb_ge in Hneg. now apply value_nat.
Qed.

Lemma skip_to_value (level : nat) (v : json) (rest : string) :
  exists c r,
    dumps level v ++ rest = String c r
    /\ opens c = true.
Proof.
  destruct (dumps_head v level) as (c & r & -> & Hc).
  exists c, (r ++ rest). split; [reflexivity | exact Hc].
Qed.

Lemma skip_indent (k : nat) (level : nat) (v : json) (rest : string) :
  skip_spaces (newline ++ spaces k ++ dumps level v ++ rest)
  = dumps level v ++ rest.
Proof.
  rewrite skip_spaces_newline, skip_spaces_spaces.
  destruct (skip_to_value level v rest) as (c & r & -> & Hc).
  apply skip_spaces_head. now apply opens_not_space.
Qed.

Lemma skip_close (level : nat) (c : ascii) (rest : string) :
  is_space c = false ->
  skip_spaces (newline ++ spaces level ++ String c rest) = String c rest.
Proof.
  intros Hc. rewrite skip_spaces_newline, skip_spaces_spaces.
  now apply skip_spaces_head.
Qed.

Lemma elems_one (level : nat) (x : json) :
  elems level [x] = spaces (S level) ++ dumps (S level) x.
Proof. reflexivity. Qed.

Lemma elems_more (level : nat) (x y : json) (l : list json) :
  elems level (x :: y :: l)
  = spaces (S level) ++ dumps (S level) x
    ++ String "," (newline ++ elems level (y :: l)).
Proof. unfold elems. cbn [map join]. now rewrite append_assoc. Qed.

Lemma value_indented (fuel k level : nat) (v : json) (rest : string) :
  value fuel (newline ++ spaces k ++ dumps level v ++ rest)
  = value fuel (dumps level v ++ rest).
Proof.
  apply value_skip. rewrite skip_indent.
  destruct (skip_to_value level v rest) as (c & r & -> & Hc).
  symmetry. apply skip_spaces_head. now apply opens_not_space.
Qed.

Lemma items_parse (l : list json) :
  Forall parses l -> l <> [] ->
  forall level fuel rest,
    (items_size l <= fuel)%nat ->
    items fuel (newline ++ elems level l ++ newline ++ spaces level
                ++ String "]" rest)
    = Some (l, rest).
Proof.
  induction 1 as [|x l Hx Hl IH]; [congruence|]. intros _ level fuel rest Hfuel.
  destruct fuel as [|fuel]; [cbn in Hfuel; lia|].
  cbn [items_size fold_right] in Hfuel. fold (items_size l) in Hfuel.
  cbn [items].
  destruct l as [|y l].
  - rewrite elems_one, !append_assoc, value_indented.
    rewrite (Hx (S level) fuel) by (try reflexivity; lia).
    rewrite skip_close by reflexivity.
    reflexivity.
  - rewrite elems_more, !append_assoc, value_indented. cbn [append].
    rewrite (Hx (S level) fuel) by (try reflexivity; lia).
    rewrite skip_spaces_head by reflexivity.
    change (Ascii.eqb "," ",") with true. cbv iota.
    rewrite !append_assoc.
    rewrite IH by (try congruence; lia).
    reflexivity.
Qed.

Lemma fields_one (level : nat) (k : string) (x : json) :
  fields level [(k, x)]
  = spaces (S level) ++ quoted k ++ ": " ++ dumps (S level) x.
Proof. reflexivity. Qed.

Lemma fields_more (level : nat) (k : string) (x : json)
    (kv : string * json) (kvs : list (string * json)) :
  fields level ((k, x) :: kv :: kvs)
  = spaces (S level) ++ quoted k ++ ": " ++ dumps (S level) x
    ++ String "," (newline ++ fields level (kv :: kvs)).
Proof. unfold fields. cbn [map join]. now rewrite !append_assoc. Qed.

Lemma quoted_append (k rest : string) :
  quoted k ++ rest = String dquote (escape k ++ String dquote rest).
Proof. unfold quoted. cbn [append]. now rewrite append_assoc. Qed.

Lemma value_spaced (fuel level : nat) (v : json) (rest : string) :
  value fuel (String " " (dumps level v ++ rest))
  = value fuel (dumps level v ++ rest).
Proof.
  apply value_skip.
  destruct (skip_to_value level v rest) as (c & r & -> & Hc).
  cbn [skip_spaces]. change (is_space " ") with true. cbv iota.
  reflexivity.
Qed.

Lemma members_parse (kvs : list (string * json)) :
  Forall (fun kv => parses (snd kv)) kvs -> kvs <> [] ->
  forall level fuel rest,
    (members_size kvs <= fuel)%nat ->
    members fuel (newline ++ fields level kvs ++ newline ++ spaces level
                  ++ String "}" rest)
    = Some (kvs, rest).
Proof.
  induction 1 as [|[k x] kvs Hx Hl IH]; [congruence|].
  intros _ level fuel rest Hfuel. cbn [snd] in Hx.
  destruct fuel as [|fuel]; [cbn in Hfuel; lia|].
  cbn [members_size fold_right] in Hfuel. fold (members_size kvs) in Hfuel.
  cbn [members].
  destruct kvs as [|kv kvs].
  - rewrite fields_one, !append_assoc.
    rewrite skip_spaces_newline, skip_spaces_spaces, quoted_append.
    rewrite skip_spaces_head by reflexivity.
    rewrite Ascii.eqb_refl, string_body_escape. cbn [append].
    rewrite skip_spaces_head by reflexivity.
    change (Ascii.eqb ":" ":") with true. cbv iota.
    rewrite value_spaced.
    rewrite (Hx (S level) fuel) by (try reflexivity; lia).
    rewrite skip_close by reflexivity.
    reflexivity.
  - rewrite fields_more, !append_assoc.
    rewrite skip_spaces_newline, skip_spaces_spaces, quoted_append.
    rewrite skip_spaces_head by reflexivity.
    rewrite Ascii.eqb_refl, string_body_escape. cbn [append].
    rewrite skip_spaces_head by reflexivity.
    change (Ascii.eqb ":" ":") with true. cbv iota.
    rewrite value_spaced.
    rewrite (Hx (S level) fuel) by (try reflexivity; lia).
    rewrite skip_spaces_head by reflexivity.
    change (Ascii.eqb "," ",") with true. cbv iota.
    rewrite !append_assoc.
    rewrite IH by (try congruence; lia).
    reflexivity.
Qed.

Lemma elems_head (level : nat) (x : json) (l : list json) (rest : string) :
  exists c r,
    skip_spaces (newline ++ elems level (x :: l) ++ rest) = String c r
    /\ opens c = true.
Proof.
  destruct l as [|y l].
  - rewrite elems_one, !append_assoc, skip_indent.
    apply skip_to_value.
  - rewrite elems_more, !append_assoc, skip_indent.
    apply skip_to_value.
Qed.

Lemma fields_head (level : nat) (kv : string * json)
    (kvs : list (string * json)) (rest : string) :
  exists r,
    skip_spaces (newline ++ fields level (kv :: kvs) ++ rest)
    = String dquote r.
Proof.
  destruct kv as [k x]. destruct kvs as [|kv kvs].
  - rewrite fields_one, !append_assoc.
    rewrite skip_spaces_newline, skip_spaces_spaces, quoted_append.
    rewrite skip_spaces_head by reflexivity. eexists. reflexivity.
  - rewrite fields_more, !append_assoc.
    rewrite skip_spaces_newline, skip_spaces_spaces, quoted_append.
    rewrite skip_spaces_head by reflexivity. eexists. reflexivity.
Qed.

Theorem value_dumps (v : json) : parses v.
Proof.
  induction v as [ | b | n | s | l IHl | kvs IHkvs ] using json_induction;
    intros level fuel rest Hfuel Hrest;
    (destruct fuel as [|fuel]; [cbn in Hfuel; lia|]).
  - apply value_null.
  - apply value_bool.
  - now apply value_num.
  - apply value_str.
  - destruct l as [|x l]; [reflexivity|].
    rewrite dumps_arr. cbn [append]. rewrite !append_assoc.
    cbn [value]. rewrite skip_spaces_head by reflexivity.
    change (is_digit "[") with false. cbv iota.
    change (Ascii.eqb "[" "-") with false. cbv iota.
    change (Ascii.eqb "[" dquote) with false. cbv iota.
    change (Ascii.eqb "[" "[") with true. cbv iota.
    destruct (elems_head level x l
                (newline ++ spaces level ++ "]" ++ rest))
      as (c & r & -> & Hc).
    destruct (opens_not_close c Hc) as [-> _].
    cbn [append].
    cbn [json_size] in Hfuel. fold (items_size (x :: l)) in Hfuel.
    rewrite (items_parse (x :: l) IHl ltac:(congruence) level fuel rest)
      by lia.
    reflexivity.
  - destruct kvs as [|kv kvs]; [reflexivity|].
    rewrite dumps_obj. cbn [append]. rewrite !append_assoc.
    cbn [value]. rewrite skip_spaces_head by reflexivity.
    change (is_digit "{") with false. cbv iota.
    change (Ascii.eqb "{" "-") with false. cbv iota.
    change (Ascii.eqb "{" dquote) with false. cbv iota.
    change (Ascii.eqb "{" "[") with false. cbv iota.
    change (Ascii.eqb "{" "{") with true. cbv iota.
    destruct (fields_head level kv kvs
                (newline ++ spaces level ++ "}" ++ rest))
      as (r & ->).
    change (Ascii.eqb dquote "}") with false. cbv iota.
    cbn [append].
    cbn [json_size] in Hfuel. fold (members_size (kv :: kvs)) in Hfuel.
    rewrite (members_parse (kv :: kvs) IHkvs ltac:(congruence) level fuel rest)
      by lia.
    reflexivity.
Qed.

Lemma append_empty (a : string) : a ++ EmptyString = a.
Proof. induction a as [|x a IH]; cbn; [reflexivity | now rewrite IH]. Qed.

Lemma length_spaces (k : nat) : String.length (spaces k) = (2 * k)%nat.
Proof. induction k as [|k IH]; cbn [spaces String.length]; lia. Qed.

Lemma items_size_length (level : nat) (l : list json) :
  Forall (fun v => forall level,
            (json_size v <= String.length (dumps level v))%nat) l ->
  (items_size l <= String.length (elems level l))%nat.
Proof.
  induction 1 as [|x l Hx Hl IH]; [cbn; lia|].
  cbn [items_size fold_right]. fold (items_size l).
  specialize (Hx (S level)).
  destruct l as [|y l].
  - rewrite elems_one, length_append, length_spaces. cbn. lia.
  - rewrite elems_more, !length_append, length_spaces.
    cbn [String.length]. rewrite length_append. lia.
Qed.

Lemma members_size_length (level : nat) (kvs : list (string * json)) :
  Forall (fun kv : string * json =>
            forall level,
              (json_size (snd kv) <= String.length (dumps level (snd kv)))%nat)
         kvs ->
  (members_size kvs <= String.length (fields level kvs))%nat.
Proof.
  induction 1 as [|[k x] kvs Hx Hl IH]; [cbn; lia|].
  cbn [members_size fold_right]. fold (members_size kvs).
  cbn [snd] in Hx. specialize (Hx (S level)).
  destruct kvs as [|kv kvs].
  - rewrite fields_one, !length_append, length_spaces. cbn. lia.
  - rewrite fields_more, !length_append, length_spaces.
    cbn [String.length]. rewrite length_append. lia.
Qed.

Lemma json_size_length (v : json) :
  forall level, (json_size v <= String.length (dumps level v))%nat.
Proof.
  induction v as [ | b | n | s | l IHl | kvs IHkvs ] using json_induction;
    intros level.
  - cbn. lia.
  - destruct b; cbn; lia.
  - destruct (dumps_head (JNum n) level) as (c & r & -> & _). cbn. lia.
  - cbn. lia.
  - destruct l as [|x l]; [cbn; lia|].
    rewrite dumps_arr. cbn [json_size]. fold (items_size (x :: l)).
    pose proof (items_size_length level (x :: l) IHl).
    cbn [append String.length]. rewrite !length_append. lia.
  - destruct kvs as [|kv kvs]; [cbn; lia|].
    rewrite dumps_obj. cbn [json_size]. fold (members_size (kv :: kvs)).
    pose proof (members_size_length level (kv :: kvs) IHkvs).
    cbn [append String.length]. rewrite !length_append. lia.
Qed.

Theorem loads_dumps (v : json) : loads (dumps 0 v) = Ok v.
Proof.
  unfold loads.
  pose proof (json_size_length v O) as Hsize.
  rewrite <- (append_empty (dumps 0 v)) at 2.
  rewrite (value_dumps v O _ EmptyString)
    by (cbn [no_digit_head]; try lia; exact I).
  reflexivity.
Qed.

End Codec.


(** On the demo host every document survives the store codec. *)
Lemma demo_codec_round_trips (d : json) : @round_trips Demo.host d.
Proof.
  exists (Demo.dumps 0 d). split; [reflexivity | apply Codec.loads_dumps].
Qed.

(** On the demo host, [save_data] followed by [load_data] returns every
    document unchanged. *)
Lemma demo_store_keeps_every_document (d : json) (w : world) :
  @load_data Demo.host (fst (@save_data Demo.host d w))
  = (fst (@save_data Demo.host d w), Ok d).
Proof.
  destruct (demo_codec_round_trips d) as (text & Hdump & Hload).
  rewrite (@save_data_written Demo.host w d text Hdump). cbn [fst].
  now apply (@load_data_clean Demo.host) with (text := text).
Qed.

(** ** Further properties: the store, the handlers and the start *)

Section Further.

Context {host : Host}.

(** *** The store *)

(** X1.  When [data.json] is missing, or holds text that [json.load]
    rejects as a [JSONDecodeError], [load_data] does not raise: it
    returns the empty document, leaves both files as they are and logs
    one warning. *)
Theorem load_data_falls_back_to_empty_document (w : world) :
  data_file w = None
  \/ (exists text, data_file w = Some text
                   /\ json_load text = Raise JSONDecodeError) ->
  snd (load_data w) = Ok (JObj [])
  /\ data_file (fst (load_data w)) = data_file w
  /\ tmp_file (fst (load_data w)) = tmp_file w
  /\ exists entry,
       log (fst (load_data w)) = (log w ++ [entry])%list
       /\ (entry = DataNotFound \/ entry = DataNotParsed JSONDecodeError).
Proof.
  unfold load_data, try_except, read_data_file, bind, logger, ret.
  intros [Hnone | (text & Hfile & Hbad)].
  - rewrite Hnone. cbn. rewrite Hnone. repeat split.
    eexists. split; [reflexivity | now left].
  - rewrite Hfile, Hbad. cbn. rewrite Hfile. repeat split.
    eexists. split; [reflexivity | now right].
Qed.

(** X2.  When [json.dump] raises in [save_data], the exception does not
    leave [save_data]: it is logged, [data.json] is not touched, and a
    following [load_data] returns what it returned before the save. *)
Theorem failed_save_keeps_the_stored_document (d : json) (w : world)
    part exc :
  json_dump d = DumpRaised part exc ->
  snd (save_data d w) = Ok tt
  /\ snd (load_data (fst (save_data d w))) = snd (load_data w)
  /\ data_file (fst (save_data d w)) = data_file w
  /\ In (SaveFailed exc) (log (fst (save_data d w))).
Proof.
  intros Hdump.
  assert (Hrun : save_data d w
                 = (mkWorld (data_file w) (Some part) (job_queue w) (outbox w)
                      (replies w) (log w ++ [SaveFailed exc])
                      (clock_reads w), Ok tt)).
  { unfold save_data, try_except, bind, write_tmp, os_replace, logger.
    now rewrite Hdump. }
  rewrite Hrun. cbn [fst snd data_file log]. repeat split.
  - now apply load_data_result.
  - apply in_or_app. right. now left.
Qed.

(** *** The time zone and the weekday tables *)

(** X3.  When the configured zone name is unknown to [pytz],
    [get_timezone] logs one warning and returns Europe/Moscow, and the
    daily digest of [schedule_jobs] is then registered in that zone, in
    both files. *)
Theorem unknown_time_zone_falls_back_to_moscow (w : world) name exc msk :
  TIMEZONE = Some name ->
  pytz_timezone name = Raise exc ->
  pytz_timezone "Europe/Moscow" = Ok msk ->
  get_timezone w
  = (mkWorld (data_file w) (tmp_file w) (job_queue w) (outbox w) (replies w)
       (log w ++ [InvalidTimezone name]) (clock_reads w), Ok msk)
  /\ (exists rest,
        job_queue (fst (Lab2.schedule_jobs w))
        = (job_queue w ++ daily_digest_job msk :: rest)%list)
  /\ (exists rest,
        job_queue (fst (Lab3.schedule_jobs w))
        = (job_queue w ++ daily_digest_job msk :: rest)%list).
Proof.
  intros Hname Hbad Hmsk.
  assert (Hrun : get_timezone w
                 = (mkWorld (data_file w) (tmp_file w) (job_queue w)
                      (outbox w) (replies w)
                      (log w ++ [InvalidTimezone name]) (clock_reads w),
                    Ok msk)).
  { unfold get_timezone, try_except, lift, bind, logger.
    now rewrite Hname, Hbad, Hmsk. }
  assert (Htz : snd (get_timezone w) = Ok msk) by now rewrite Hrun.
  split; [exact Hrun|]. split.
  - rewrite schedule_jobs2_scheduler.
    apply (scheduler_digest_first plan2); [exact schedule_reminder2 | exact Htz].
  - rewrite schedule_jobs3_scheduler.
    apply (scheduler_digest_first plan3); [exact schedule_reminder3 | exact Htz].
Qed.

(** X4.  The table of [weekday_ru] and the tables the schedulers look
    the weekday label up in are inverse to each other: the label
    [weekday_ru] gives for a date is mapped back to the weekday of that
    date by [ru_to_py_weekday] of [Lab2] and by the table of [Lab3];
    [weekday_ru] never raises. *)
Theorem weekday_tables_are_inverse (dt : datetime) :
  exists label,
    weekday_ru dt = Ok label
    /\ Lab2.ru_to_py_weekday (JStr label) = Ok (weekday dt)
    /\ subscript Lab3.weekdays (JStr label) = Ok (weekday dt).
Proof.
  unfold weekday_ru, weekday.
  pose proof (Z.mod_pos_bound (ordinal dt + 6) 7 ltac:(lia)) as Hb.
  set (d := (ordinal dt + 6) mod 7) in *.
  assert (Hd : d = 0 \/ d = 1 \/ d = 2 \/ d = 3 \/ d = 4 \/ d = 5 \/ d = 6)
    by lia.
  destruct Hd as [->|[->|[->|[->|[->|[->| ->]]]]]];
    eexists; repeat split; reflexivity.
Qed.

Lemma find_label (table : list (string * Z)) (label : string) (idx : Z) :
  subscript table (JStr label) = Ok idx -> In (label, idx) table.
Proof.
  unfold subscript.
  destruct (find _ table) as [[k v]|] eqn:Hfind; [|discriminate].
  intros [= <-]. apply find_some in Hfind as [Hin Heq].
  cbn in Heq. apply String.eqb_eq in Heq. now subst k.
Qed.

(** X5.  A weekday label that [ru_to_py_weekday] accepts is the label
    under which the digest of that weekday is looked up: on a date whose
    weekday is the index of the label, [weekday_ru] gives the label
    back; the index lies between 0 and 6. *)
Theorem weekday_label_comes_back (label : string) (idx : Z) (dt : datetime) :
  Lab2.ru_to_py_weekday (JStr label) = Ok idx ->
  weekday dt = idx ->
  0 <= idx <= 6 /\ weekday_ru dt = Ok label.
Proof.
  intros Hidx Hday. apply find_label in Hidx.
  unfold weekday_ru. rewrite Hday.
  cbn in Hidx.
  destruct Hidx as [H|[H|[H|[H|[H|[H|[H|[]]]]]]]];
    injection H as <- <-; split; (lia || reflexivity).
Qed.

(** *** [/start] *)

Lemma assoc_set_other (k k' : string) (v : json) (kvs : list (string * json)) :
  k' <> k -> assoc k' (assoc_set k v kvs) = assoc k' kvs.
Proof.
  intros Hne. induction kvs as [|[k0 v0] kvs IH]; cbn [assoc_set assoc].
  - destruct (String.eqb k' k) eqn:E; [|reflexivity].
    apply String.eqb_eq in E. contradiction.
  - destruct (String.eqb k k0) eqn:E; cbn [assoc].
    + apply String.eqb_eq in E. subst k0.
      destruct (String.eqb k' k) eqn:E'; [|reflexivity].
      apply String.eqb_eq in E'. contradiction.
    + now rewrite IH.
Qed.

(** X6.  [/start] of a chat that is not in the stored list yet, on a
    store whose new document survives the codec: the document read back
    afterwards has the chat appended at the end of the subscribers, in
    their old order, and every other key of the document as it was; no
    temporary file is left behind. *)
Theorem start_appends_and_keeps_the_rest (u : Update) (w : world)
    id data subs data' :
  effective_chat u = Some id ->
  snd (load_data w) = Ok data ->
  dict_get data "subscribers" (JArr []) = Ok (JArr subs) ->
  existsb (int_eq id) subs = false ->
  dict_set data "subscribers" (JArr (subs ++ [JNum id])) = Ok data' ->
  round_trips data' ->
  snd (start u w) = Ok tt
  /\ load_data (fst (start u w)) = (fst (start u w), Ok data')
  /\ listing data' "subscribers" = Ok (subs ++ [JNum id])%list
  /\ (forall key default,
        key <> "subscribers" ->
        dict_get data' key default = dict_get data key default)
  /\ tmp_file (fst (start u w)) = None.
Proof.
  intros Hchat Hload Hsubs Habsent Hset (text & Hdump & Hback).
  destruct (start_when_absent u w id data subs data' text
              Hchat Hload Hsubs Habsent Hset Hdump) as (Hr & Hfile & Htmp).
  split; [exact Hr|]. split; [|split; [|split]].
  - now apply load_data_clean with (text := text).
  - destruct data; try discriminate Hset. cbn in Hset. injection Hset as <-.
    unfold listing. cbn [dict_get]. rewrite assoc_set_same. reflexivity.
  - intros key default Hkey.
    destruct data; try discriminate Hset. cbn in Hset. injection Hset as <-.
    cbn [dict_get]. now rewrite assoc_set_other.
  - exact Htmp.
Qed.

(** X7.  When the save of a new subscriber fails in [json.dump],
    [/start] still returns normally and greets the user; the failure is
    logged, [data.json] is untouched and the chat is not subscribed: the
    document read afterwards is the old one. *)
Theorem start_greets_even_when_the_save_fails (u : Update) (w : world)
    id data subs data' part exc :
  effective_chat u = Some id ->
  snd (load_data w) = Ok data ->
  dict_get data "subscribers" (JArr []) = Ok (JArr subs) ->
  existsb (int_eq id) subs = false ->
  dict_set data "subscribers" (JArr (subs ++ [JNum id])) = Ok data' ->
  json_dump data' = DumpRaised part exc ->
  snd (start u w) = Ok tt
  /\ data_file (fst (start u w)) = data_file w
  /\ snd (load_data (fst (start u w))) = Ok data
  /\ replies (fst (start u w))
     = (replies w
        ++ [(greeting (match effective_user u with
                       | Some first_name => first_name
                       | None => ""
                       end), Some HTML)])%list
  /\ In (SaveFailed exc) (log (fst (start u w))).
Proof.
  intros Hchat Hload Hsubs Habsent Hset Hdump.
  pose proof (load_data_frame w) as (Fd & _ & _ & _ & Fr & _).
  assert (Hrun : exists w1,
             load_data w = (w1, Ok data)
             /\ start u w
                = (mkWorld (data_file w1) (Some part) (job_queue w1)
                     (outbox w1)
                     (replies w1
                      ++ [(greeting (match effective_user u with
                                     | Some first_name => first_name
                                     | None => ""
                                     end), Some HTML)])
                     (log w1 ++ [SaveFailed exc]) (clock_reads w1), Ok tt)).
  { unfold start, bind, lift.
    destruct (load_data w) as [w1 r1]. cbn [snd] in Hload. subst r1.
    exists w1. split; [reflexivity|].
    rewrite Hsubs, Hchat. cbn [int_in]. rewrite Habsent.
    cbn [negb list_append]. rewrite Hset.
    unfold save_data, try_except, bind, write_tmp, os_replace, logger.
    rewrite Hdump. reflexivity. }
  destruct Hrun as (w1 & Hl & Hrun). rewrite Hl in Fd, Fr. cbn [fst] in Fd, Fr.
  rewrite Hrun. cbn [fst snd data_file replies log].
  repeat split.
  - exact Fd.
  - rewrite <- Hload. apply load_data_result. exact Fd.
  - now rewrite Fr.
  - apply in_or_app. right. now left.
Qed.

(** X8.  When the stored [subscribers] is not a list, [/start] of an
    update with a chat raises ([TypeError] from the membership test or
    [AttributeError] from [append]) before it saves or replies: both
    files and the replies are as before. *)
Theorem start_raises_when_subscribers_is_no_list (u : Update) (w : world)
    id data subs :
  effective_chat u = Some id ->
  snd (load_data w) = Ok data ->
  dict_get data "subscribers" (JArr []) = Ok subs ->
  match subs with JArr _ => False | _ => True end ->
  (exists exc, snd (start u w) = Raise exc
               /\ (exc = AttributeError \/ exc = TypeError))
  /\ replies (fst (start u w)) = replies w
  /\ data_file (fst (start u w)) = data_file w
  /\ tmp_file (fst (start u w)) = tmp_file w.
Proof.
  intros Hchat Hload Hsubs Hshape.
  pose proof (load_data_frame w) as (Fd & Ft & _ & _ & Fr & _).
  unfold start, bind, lift.
  destruct (load_data w) as [w1 r1]. cbn [fst snd] in *. subst r1.
  rewrite Hsubs, Hchat.
  destruct subs; try contradiction; cbn;
    (split; [eexists; split; [reflexivity|tauto]|]);
    repeat split; assumption.
Qed.

(** X9.  [/start] of an update without a chat subscribes nobody: it
    saves nothing, whatever the stored [subscribers] is, and greets. *)
Theorem start_without_a_chat_only_greets (u : Update) (w : world) data subs :
  effective_chat u = None ->
  snd (load_data w) = Ok data ->
  dict_get data "subscribers" (JArr []) = Ok subs ->
  snd (start u w) = Ok tt
  /\ data_file (fst (start u w)) = data_file w
  /\ tmp_file (fst (start u w)) = tmp_file w
  /\ replies (fst (start u w))
     = (replies w
        ++ [(greeting (match effective_user u with
                       | Some first_name => first_name
                       | None => ""
                       end), Some HTML)])%list.
Proof.
  intros Hchat Hload Hsubs.
  pose proof (load_data_frame w) as (Fd & Ft & _ & _ & Fr & _).
  unfold start, bind, lift.
  destruct (load_data w) as [w1 r1]. cbn [fst snd] in *. subst r1.
  rewrite Hsubs, Hchat. cbn. rewrite Fd, Ft, Fr. repeat split.
Qed.

(** *** The digest: the job and the command *)

(** Up to the test of the message, [/digest] and the daily digest job
    run the same steps. *)
Lemma digest_prefix (w : world) tz today data digests msg
    (k : json -> json -> M world unit) :
  snd (get_timezone w) = Ok tz ->
  weekday_ru (now (clock_reads w) tz) = Ok today ->
  snd (load_data w) = Ok data ->
  dict_get data "digests" (JObj []) = Ok digests ->
  dict_get digests today JNull = Ok msg ->
  exists w2 entries,
    (tz <- get_timezone ;;
     dt <- datetime_now tz ;;
     today_ru <- lift (weekday_ru dt) ;;
     data <- load_data ;;
     digests <- lift (dict_get data "digests" (JObj [])) ;;
     msg <- lift (dict_get digests today_ru JNull) ;;
     k data msg) w = k data msg w2
    /\ data_file w2 = data_file w /\ tmp_file w2 = tmp_file w
    /\ job_queue w2 = job_queue w /\ outbox w2 = outbox w
    /\ replies w2 = replies w
    /\ log w2 = (log w ++ entries)%list.
Proof.
  intros Htz Htoday Hload Hdig Hmsg.
  unfold bind.
  pose proof (get_timezone_frame w) as (Fd & Ft & Fq & Fo & Fr & Fc & l1 & Fl).
  destruct (get_timezone w) as [w1 r1]. cbn [fst snd] in *. subst r1.
  unfold datetime_now. rewrite Fc.
  unfold lift. rewrite Htoday.
  match goal with |- context [load_data ?x] => set (w1' := x) end.
  pose proof (load_data_frame w1') as (Gd & Gt & Gq & Go & Gr & _ & l2 & Gl).
  assert (Gres : snd (load_data w1') = Ok data)
    by (rewrite (load_data_result w1' w); [exact Hload | exact Fd]).
  destruct (load_data w1') as [w2 r2]. cbn [fst snd] in *. subst r2.
  rewrite Hdig, Hmsg.
  exists w2, (l1 ++ l2)%list. split; [reflexivity|].
  subst w1'. cbn [data_file tmp_file job_queue outbox replies log] in *.
  rewrite Gd, Gt, Gq, Go, Gr, Gl, Fd, Ft, Fq, Fo, Fr, Fl.
  repeat split. now rewrite app_assoc.
Qed.

Lemma send_daily_digest_steps :
  send_daily_digest
  = (tz <- get_timezone ;;
     dt <- datetime_now tz ;;
     today_ru <- lift (weekday_ru dt) ;;
     data <- load_data ;;
     digests <- lift (dict_get data "digests" (JObj [])) ;;
     msg <- lift (dict_get digests today_ru JNull) ;;
     send_rest data msg).
Proof. reflexivity. Qed.

Lemma digest_steps :
  digest
  = (tz <- get_timezone ;;
     dt <- datetime_now tz ;;
     today_ru <- lift (weekday_ru dt) ;;
     data <- load_data ;;
     digests <- lift (dict_get data "digests" (JObj [])) ;;
     msg <- lift (dict_get digests today_ru JNull) ;;
     digest_rest data msg).
Proof. reflexivity. Qed.

(** X10.  When the store has no digest for today's weekday (the key is
    missing, or its value is empty or null), the daily digest job
    returns without sending anything, and [/digest] answers that there
    is no digest today. *)
Theorem no_digest_today_means_no_message (w : world) tz today data digests
    msg :
  snd (get_timezone w) = Ok tz ->
  weekday_ru (now (clock_reads w) tz) = Ok today ->
  snd (load_data w) = Ok data ->
  dict_get data "digests" (JObj []) = Ok digests ->
  dict_get digests today JNull = Ok msg ->
  truthy msg = false ->
  (snd (send_daily_digest w) = Ok tt
   /\ outbox (fst (send_daily_digest w)) = outbox w)
  /\ (snd (digest w) = Ok tt
      /\ replies (fst (digest w))
         = (replies w ++ [(FString [Lit "На сегодня нет дайджеста."], None)])%list).
Proof.
  intros Htz Htoday Hload Hdig Hmsg Hfalse. split.
  - destruct (digest_prefix w tz today data digests msg send_rest
                Htz Htoday Hload Hdig Hmsg)
      as (w2 & entries & Hrun & _ & _ & _ & Ho & _).
    rewrite send_daily_digest_steps, Hrun.
    unfold send_rest. rewrite Hfalse. cbn. now split.
  - destruct (digest_prefix w tz today data digests msg digest_rest
                Htz Htoday Hload Hdig Hmsg)
      as (w2 & entries & Hrun & _ & _ & _ & _ & Hr & _).
    rewrite digest_steps, Hrun.
    unfold digest_rest. rewrite Hfalse. cbn. now rewrite Hr.
Qed.

(** X11.  When the store has a digest for today, [/digest] replies with
    exactly the text the daily digest job sends at the same moment: the
    command answers the asking chat only and sends nothing, the job
    replies to nobody and every message it adds to the outbox is that
    text, to a chat of the stored subscribers. *)
Theorem digest_command_shows_what_the_job_sends (w : world) tz today data
    digests msg subs :
  snd (get_timezone w) = Ok tz ->
  weekday_ru (now (clock_reads w) tz) = Ok today ->
  snd (load_data w) = Ok data ->
  dict_get data "digests" (JObj []) = Ok digests ->
  dict_get digests today JNull = Ok msg ->
  truthy msg = true ->
  listing data "subscribers" = Ok subs ->
  (snd (digest w) = Ok tt
   /\ replies (fst (digest w)) = (replies w ++ [(Value msg, None)])%list
   /\ outbox (fst (digest w)) = outbox w)
  /\ (snd (send_daily_digest w) = Ok tt
      /\ replies (fst (send_daily_digest w)) = replies w
      /\ forall chat_id text,
           In (chat_id, text) (outbox (fst (send_daily_digest w))) ->
           In (chat_id, text) (outbox w)
           \/ (In chat_id subs /\ text = Value msg
               /\ delivers chat_id text = true)).
Proof.
  intros Htz Htoday Hload Hdig Hmsg Htrue Hsubs. split.
  - destruct (digest_prefix w tz today data digests msg digest_rest
                Htz Htoday Hload Hdig Hmsg)
      as (w2 & entries & Hrun & _ & _ & _ & Ho & Hr & _).
    rewrite digest_steps, Hrun.
    unfold digest_rest. rewrite Htrue. cbn.
    now rewrite Hr, Ho.
  - destruct (digest_prefix w tz today data digests msg send_rest
                Htz Htoday Hload Hdig Hmsg)
      as (w2 & entries & Hrun & _ & _ & _ & Ho & Hr & _).
    rewrite send_daily_digest_steps, Hrun.
    unfold send_rest. rewrite Htrue. cbn [negb].
    unfold bind, lift. unfold listing in Hsubs. rewrite Hsubs.
    rewrite for_each_send. cbn [fst snd replies outbox].
    rewrite Hr, Ho. repeat split.
    intros chat_id text Hin. apply in_app_or in Hin as [Hold | Hnew].
    + now left.
    + right. apply in_map_iff in Hnew as (c & Heq & Hc).
      injection Heq as <- <-. apply filter_In in Hc as [Hc Hd].
      repeat split; assumption.
Qed.

(** *** The scheduler *)

Lemma scheduler_raises (planf : tzinfo -> json -> result job)
    (body : tzinfo -> json -> M world unit) (w : world) :
  follows planf body ->
  snd (scheduler body w) = Ok tt ->
  (exists tz, snd (get_timezone w) = Ok tz)
  /\ (exists data evs, snd (load_data w) = Ok data
                       /\ listing data "events" = Ok evs).
Proof.
  intros Hbody. unfold scheduler, bind.
  pose proof (get_timezone_frame w) as (Fd & _).
  destruct (get_timezone w) as [w1 [tz|e]]; cbn [fst snd] in *;
    [|discriminate].
  unfold run_daily.
  match goal with |- context [load_data ?x] => set (w1' := x) end.
  pose proof (load_data_result w1' w Fd) as Gres.
  destruct (load_data w1') as [w2 [data|e]]; cbn [fst snd] in *;
    [|discriminate].
  unfold lift.
  destruct (rbind (dict_get data "events" (JArr [])) _) as [evs|e] eqn:Hevs;
    [|discriminate].
  intros _. split; [now exists tz|]. exists data, evs. split; [now symmetry|].
  exact Hevs.
Qed.

(** X12.  [schedule_jobs] (either file) returns normally exactly when
    the time zone can be resolved, the store can be loaded and its
    [events] can be iterated: no event, however malformed, makes it
    raise, and nothing else lets it return. *)
Theorem schedule_jobs_fails_only_on_zone_or_document (w : world) :
  (snd (Lab2.schedule_jobs w) = Ok tt
   <-> (exists tz, snd (get_timezone w) = Ok tz)
       /\ (exists data evs, snd (load_data w) = Ok data
                            /\ listing data "events" = Ok evs))
  /\ (snd (Lab3.schedule_jobs w) = Ok tt
      <-> (exists tz, snd (get_timezone w) = Ok tz)
          /\ (exists data evs, snd (load_data w) = Ok data
                               /\ listing data "events" = Ok evs)).
Proof.
  split; split.
  - rewrite schedule_jobs2_scheduler.
    apply (scheduler_raises plan2). exact schedule_reminder2.
  - intros ((tz & Htz) & (data & evs & Hload & Hevs)).
    rewrite schedule_jobs2_scheduler.
    now destruct (scheduler_run plan2 Lab2.schedule_reminder w tz data evs
                    schedule_reminder2 Htz Hload Hevs) as (Hr & _).
  - rewrite schedule_jobs3_scheduler.
    apply (scheduler_raises plan3). exact schedule_reminder3.
  - intros ((tz & Htz) & (data & evs & Hload & Hevs)).
    rewrite schedule_jobs3_scheduler.
    now destruct (scheduler_run plan3 Lab3.schedule_reminder w tz data evs
                    schedule_reminder3 Htz Hload Hevs) as (Hr & _).
Qed.

Lemma table_index_range (label : json) (idx : Z) :
  Lab2.ru_to_py_weekday label = Ok idx -> 0 <= idx <= 6.
Proof.
  unfold Lab2.ru_to_py_weekday, subscript.
  destruct label; try discriminate.
  destruct (find _ Lab2.mapping) as [[k v]|] eqn:Hfind; [|discriminate].
  intros [= <-]. apply find_some in Hfind as [Hin _]. cbn in Hin.
  destruct Hin as [H|[H|[H|[H|[H|[H|[H|[]]]]]]]]; injection H as <- <-; lia.
Qed.

Lemma plan_shape (lookup : json -> result Z) (d : string) (tz : tzinfo)
    (ev : json) (j : job) :
  plan lookup d tz ev = Ok j ->
  exists day idx time_str h m,
    dict_get ev "day" (JStr d) = Ok day
    /\ lookup day = Ok idx
    /\ dict_get ev "time" (JStr "00:00") = Ok time_str
    /\ strptime_HM time_str = Ok (h, m)
    /\ job_callback j = SendEventReminder
    /\ job_days j = [idx]
    /\ job_time j = mkTime (remind_minute h m / 60) (remind_minute h m mod 60) tz.
Proof.
  unfold plan. intros Hplan.
  destruct (dict_get ev "day" (JStr d)) as [day|] eqn:Hday; [|discriminate].
  cbn [rbind] in Hplan.
  destruct (lookup day) as [idx|] eqn:Hidx; [|discriminate].
  cbn [rbind] in Hplan.
  destruct (dict_get ev "time" (JStr "00:00")) as [t|] eqn:Ht; [|discriminate].
  cbn [rbind] in Hplan.
  destruct (strptime_HM t) as [[h m]|] eqn:Hparse; [|discriminate].
  cbn [rbind fst snd] in Hplan.
  destruct ev; try discriminate. cbn [dict_get rbind] in Hplan.
  injection Hplan as <-.
  exists day, idx, t, h, m. repeat split; assumption.
Qed.

Lemma in_reminders_inv (planf : json -> result job) evs j :
  In j (reminders planf evs) -> exists ev, In ev evs /\ planf ev = Ok j.
Proof.
  unfold reminders. intros Hin. apply in_flat_map in Hin as (ev & Hev & Hj).
  exists ev. split; [assumption|].
  destruct (planf ev) as [j'|]; [|contradiction].
  destruct Hj as [->|[]]. reflexivity.
Qed.

(** X13.  Every job in the queue after [schedule_jobs] of [Lab2] was
    there before, or is the daily digest, or is a reminder of an event
    of the store: in the resolved zone, with exactly one day index,
    between 0 and 6, at a valid clock time which is the parsed time of
    that event minus fifteen minutes, modulo one day. *)
Theorem registered_jobs_are_well_formed (w : world) tz data evs (j : job) :
  snd (get_timezone w) = Ok tz ->
  snd (load_data w) = Ok data ->
  listing data "events" = Ok evs ->
  In j (job_queue (fst (Lab2.schedule_jobs w))) ->
  In j (job_queue w)
  \/ j = daily_digest_job tz
  \/ (job_callback j = SendEventReminder
      /\ t_tzinfo (job_time j) = tz
      /\ 0 <= t_hour (job_time j) < 24
      /\ 0 <= t_minute (job_time j) < 60
      /\ exists ev time_str idx h m,
           In ev evs
           /\ dict_get ev "time" (JStr "00:00") = Ok time_str
           /\ strptime_HM time_str = Ok (h, m)
           /\ job_days j = [idx] /\ 0 <= idx <= 6
           /\ (60 * t_hour (job_time j) + t_minute (job_time j))
              = (60 * h + m - 15) mod 1440).
Proof.
  intros Htz Hload Hevs Hin.
  rewrite schedule_jobs2_scheduler in Hin.
  destruct (scheduler_run plan2 Lab2.schedule_reminder w tz data evs
              schedule_reminder2 Htz Hload Hevs) as (_ & _ & _ & Hq & _).
  rewrite Hq in Hin. apply in_app_or in Hin as [Hold | [Hdig | Hrem]].
  - now left.
  - right. left. now symmetry.
  - right. right.
    apply in_reminders_inv in Hrem as (ev & Hev & Hplan).
    apply plan_shape in Hplan
      as (day & idx & t & h & m & Hday & Hidx & Ht & Hparse & Hcb & Hdays & Htime).
    rewrite Htime. cbn [t_hour t_minute t_tzinfo].
    unfold remind_minute.
    pose proof (Z.mod_pos_bound (h * 60 + m - 15) 1440 ltac:(lia)) as Hb.
    set (r := (h * 60 + m - 15) mod 1440) in *.
    pose proof (Z.div_mod r 60 ltac:(lia)) as Hdm.
    pose proof (Z.mod_pos_bound r 60 ltac:(lia)) as Hmb.
    assert (Hdiv : 0 <= r / 60 < 24).
    { split; [apply Z.div_pos; lia | apply Z.div_lt_upper_bound; lia]. }
    repeat split; try assumption; try lia.
    exists ev, t, idx, h, m. repeat split; try assumption.
    + apply (table_index_range day idx Hidx).
    + apply (table_index_range day idx Hidx).
    + subst r. replace (60 * h + m - 15) with (h * 60 + m - 15) by lia. lia.
Qed.

(** X14.  An event of the store without a [time] key is not skipped by
    [schedule_jobs] of [Lab2]: its time defaults to 00:00, so its
    reminder is registered at 23:45 with the weekday index of the
    event's own day, and with a payload and a job name that carry no
    time. *)
Theorem event_without_time_is_reminded_at_2345 (w : world) tz data evs
    kvs day idx :
  snd (get_timezone w) = Ok tz ->
  snd (load_data w) = Ok data ->
  listing data "events" = Ok evs ->
  In (JObj kvs) evs ->
  assoc "time" kvs = None ->
  dict_get (JObj kvs) "day" (JStr "") = Ok day ->
  Lab2.ru_to_py_weekday day = Ok idx ->
  exists title description,
    dict_get (JObj kvs) "title" JNull = Ok title
    /\ dict_get (JObj kvs) "description" JNull = Ok description
    /\ In (mkJob SendEventReminder (mkTime 23 45 tz) [idx]
             (Some (JObj [("title", title); ("time", JNull);
                          ("description", description)]))
             (FString [Lit "reminder_"; Fmt (JNum idx); Lit "_"; Fmt JNull]))
          (job_queue (fst (Lab2.schedule_jobs w))).
Proof.
  intros Htz Hload Hevs Hin Htime Hday Hidx.
  assert (Ht : dict_get (JObj kvs) "time" (JStr "00:00") = Ok (JStr "00:00"))
    by (cbn [dict_get]; now rewrite Htime).
  destruct (plan_ok Lab2.ru_to_py_weekday "" tz (JObj kvs) day (JStr "00:00")
              idx 0 0 Hday Hidx Ht eq_refl)
    as (title & time_field & description & Htitle & Hfield & Hdescr & Hplan).
  assert (time_field = JNull) as ->
    by (cbn [dict_get] in Hfield; rewrite Htime in Hfield; congruence).
  exists title, description. split; [exact Htitle|]. split; [exact Hdescr|].
  rewrite schedule_jobs2_scheduler.
  destruct (scheduler_run plan2 Lab2.schedule_reminder w tz data evs
              schedule_reminder2 Htz Hload Hevs) as (_ & _ & _ & Hq & _).
  rewrite Hq. apply in_or_app. right. right.
  eapply in_reminders; [exact Hin|]. exact Hplan.
Qed.

(** *** The handlers that read the store *)

Lemma quiet_lift {A : Type} (r : result A) : quiet (lift r).
Proof. intros w. cbn. repeat split. Qed.

Lemma quiet_load_data : quiet load_data.
Proof.
  intros w. pose proof (load_data_frame w) as (H1 & H2 & H3 & H4 & H5 & _).
  repeat split; assumption.
Qed.

Lemma quiet_get_timezone : quiet get_timezone.
Proof.
  intros w. pose proof (get_timezone_frame w) as (H1 & H2 & H3 & H4 & H5 & _).
  repeat split; assumption.
Qed.

Lemma quiet_datetime_now (tz : tzinfo) : quiet (datetime_now tz).
Proof. intros w. cbn. repeat split. Qed.

Lemma only_answers_reply (text : pytext) (mode : option parse_mode) :
  only_answers (reply_text text mode).
Proof. intros w. cbn. repeat split. eexists. reflexivity. Qed.

Lemma only_answers_bind {A : Type} (m : M world A) (k : A -> M world unit) :
  quiet m -> (forall a, only_answers (k a)) -> only_answers (bind m k).
Proof.
  intros Hm Hk w. unfold bind.
  destruct (Hm w) as (H1 & H2 & H3 & H4 & H5).
  destruct (m w) as [w1 [a|e]]; cbn [fst snd] in *.
  - destruct (Hk a w1) as (K1 & K2 & K3 & K4 & K5).
    rewrite K1, K2, K3, K4, H1, H2, H3, H4. repeat split.
    destruct (snd (k a w1)); rewrite <- H5; exact K5.
  - repeat split; assumption.
Qed.

Lemma only_answers_if (b : bool) (h1 h2 : M world unit) :
  only_answers h1 -> only_answers h2 -> only_answers (if b then h1 else h2).
Proof. now destruct b. Qed.

Ltac answers :=
  repeat first
    [ apply only_answers_reply
    | apply only_answers_if
    | apply only_answers_bind;
      [ first [ apply quiet_lift | apply quiet_load_data
              | apply quiet_get_timezone | apply quiet_datetime_now ]
      | intros ? ] ].

(** X15.  [/help], [/company], [/team], [/contacts], [/digest] and
    [/events] (of either file) only answer: on every store and in every
    state they leave [data.json], the temporary file, the job queue and
    the outbox as they are, and they reply exactly once when they
    return and not at all when they raise. *)
Theorem read_handlers_only_answer :
  only_answers help_cmd
  /\ only_answers company
  /\ only_answers team
  /\ only_answers contacts
  /\ only_answers digest
  /\ only_answers Lab2.events
  /\ only_answers Lab3.events.
Proof.
  repeat apply conj.
  - unfold help_cmd. answers.
  - unfold company. answers.
  - unfold team. answers.
  - unfold contacts. answers.
  - unfold digest. answers.
  - unfold Lab2.events. answers.
  - unfold Lab3.events. answers.
Qed.

(** X16.  Without a [data.json] the handlers that read the store still
    answer, with their defaults: [/company] with the placeholder name
    and industry, [/team] and [/events] (either file) that there is
    nothing to show, [/contacts] with a dash for each contact. *)
Theorem handlers_answer_without_a_store (w : world) :
  data_file w = None ->
  (snd (company w) = Ok tt
   /\ replies (fst (company w))
      = (replies w
         ++ [(FString [Lit "<b>"; Fmt (JStr "Компания"); Lit "</b>";
                       Lit newline; Lit "Сфера: ";
                       Fmt (JStr "Сфера деятельности")], Some HTML)])%list)
  /\ (snd (team w) = Ok tt
      /\ replies (fst (team w))
         = (replies w ++ [(FString [Lit "Нет данных о команде."], None)])%list)
  /\ (snd (contacts w) = Ok tt
      /\ replies (fst (contacts w))
         = (replies w
            ++ [(FString [Lit "Ивановы (общий): "; Lit "<code>";
                          Fmt (JStr "—"); Lit "</code>"; Lit newline;
                          Lit "Олег Арсипов: "; Lit "<code>"; Fmt (JStr "—");
                          Lit "</code>"; Lit ", "; Lit "<code>";
                          Fmt (JStr "—"); Lit "</code>"], Some HTML)])%list)
  /\ (snd (Lab2.events w) = Ok tt
      /\ replies (fst (Lab2.events w))
         = (replies w ++ [(FString [Lit "Ближайших событий нет."], None)])%list)
  /\ (snd (Lab3.events w) = Ok tt
      /\ replies (fst (Lab3.events w))
         = (replies w ++ [(FString [Lit "Ближайших событий нет."], None)])%list).
Proof.
  intros Hnone.
  assert (Hload : load_data w
                  = (mkWorld (data_file w) (tmp_file w) (job_queue w)
                       (outbox w) (replies w) (log w ++ [DataNotFound])
                       (clock_reads w), Ok (JObj []))).
  { unfold load_data, try_except, read_data_file, bind, logger, ret.
    rewrite Hnone. cbn. now rewrite Hnone. }
  repeat apply conj;
    unfold company, team, contacts, Lab2.events, Lab3.events, bind;
    rewrite Hload; reflexivity.
Qed.

(** X17.  Where the time zone resolves, [/events] of [Lab2] and
    [/events] of [Lab3] end the same way, give the same reply and leave
    the same [data.json] and outbox, on every store: the zone that
    [Lab2] resolves and [Lab3] does not is not used for the answer. *)
Theorem events_command_same_in_both_files (w : world) tz :
  snd (get_timezone w) = Ok tz ->
  snd (Lab2.events w) = snd (Lab3.events w)
  /\ replies (fst (Lab2.events w)) = replies (fst (Lab3.events w))
  /\ data_file (fst (Lab2.events w)) = data_file (fst (Lab3.events w))
  /\ outbox (fst (Lab2.events w)) = outbox (fst (Lab3.events w)).
Proof.
  intros Htz. unfold Lab2.events, Lab3.events, bind.
  pose proof (load_data_frame w) as (Fd & _).
  destruct (load_data w) as [w1 [data|e]]; cbn [fst] in Fd; [|repeat split].
  unfold lift at 1 4 7 10 13 16 19 22.
  destruct (dict_get data "events" (JArr [])) as [evs|e]; [|repeat split].
  destruct (negb (truthy evs)); [repeat split|].
  pose proof (get_timezone_frame w1) as (Gd & _ & _ & Go & Gr & _).
  rewrite (get_timezone_result w w1) in Htz.
  destruct (get_timezone w1) as [w2 r2]. cbn [fst snd] in *. subst r2.
  unfold lift.
  destruct (py_iter evs) as [l|e]; [|cbn; repeat split; assumption].
  destruct (lines_of event_line l) as [lines|e];
    cbn; repeat split; try assumption. now rewrite Gr.
Qed.

(** *** The start of the bot *)

Lemma main3_inversion (environ : string -> option string)
    (py_int : string -> option Z) (w : world) listen port url_path url :
  snd (Lab3.main environ py_int w)
  = Started (RunWebhook listen port url_path url) ->
  (exists token, environ "BOT_TOKEN" = Some token /\ token <> ""
                 /\ snd (Lab3.schedule_jobs w) = Ok tt
                 /\ fst (Lab3.main environ py_int w)
                    = fst (Lab3.schedule_jobs w))
  /\ environ "USE_WEBHOOK" = Some "1"
  /\ listen = Lab3.getenv environ "WEBHOOK_LISTEN" "0.0.0.0"
  /\ py_int (Lab3.getenv environ "WEBHOOK_PORT" "8080") = Some port
  /\ url_path = lstrip_char "/" (Lab3.getenv environ "WEBHOOK_PATH" "/webhook")
  /\ exists base,
       environ "PUBLIC_URL" = Some base /\ base <> ""
       /\ url = rstrip_char "/" base
                ++ Lab3.getenv environ "WEBHOOK_PATH" "/webhook".
Proof.
  unfold Lab3.main, Lab3.build_application.
  destruct (environ "BOT_TOKEN") as [token|] eqn:Htoken; [|discriminate].
  destruct (String.eqb token "") eqn:Hempty; [discriminate|].
  apply String.eqb_neq in Hempty.
  destruct (Lab3.schedule_jobs w) as [w1 [[]|e]] eqn:Hjobs; [|discriminate].
  cbn [fst snd].
  destruct (String.eqb (Lab3.getenv environ "USE_WEBHOOK" "0") "1") eqn:Huse;
    cbn [negb]; [|discriminate].
  apply String.eqb_eq in Huse.
  destruct (py_int _) as [port'|] eqn:Hport; [|discriminate].
  destruct (environ "PUBLIC_URL") as [base|] eqn:Hbase; cbn [not_set];
    [|discriminate].
  destruct (String.eqb base "") eqn:Hb; [discriminate|].
  apply String.eqb_neq in Hb.
  cbn [fst snd]. intros [= <- <- <- <-].
  repeat split.
  - exists token. repeat split; assumption.
  - unfold Lab3.getenv in Huse.
    destruct (environ "USE_WEBHOOK") as [v|]; [now subst v | discriminate].
  - exists base. repeat split; assumption.
Qed.

(** X18.  [main] of [Lab3] gets to [run_webhook] only when
    [USE_WEBHOOK] is exactly ["1"], [BOT_TOKEN] and [PUBLIC_URL] are set
    and non-empty, [WEBHOOK_PORT] (or 8080) reads as an integer, which
    is the port it listens on, and [schedule_jobs] has returned
    normally; the state it starts in is the one [schedule_jobs] left. *)
Theorem webhook_runs_only_when_configured (environ : string -> option string)
    (py_int : string -> option Z) (w : world) listen port url_path url :
  snd (Lab3.main environ py_int w)
  = Started (RunWebhook listen port url_path url) ->
  (exists token, environ "BOT_TOKEN" = Some token /\ token <> ""
                 /\ snd (Lab3.schedule_jobs w) = Ok tt
                 /\ fst (Lab3.main environ py_int w)
                    = fst (Lab3.schedule_jobs w))
  /\ environ "USE_WEBHOOK" = Some "1"
  /\ listen = Lab3.getenv environ "WEBHOOK_LISTEN" "0.0.0.0"
  /\ py_int (Lab3.getenv environ "WEBHOOK_PORT" "8080") = Some port
  /\ exists base, environ "PUBLIC_URL" = Some base /\ base <> "".
Proof.
  intros Hrun.
  destruct (main3_inversion environ py_int w listen port url_path url Hrun)
    as (Htoken & Huse & Hlisten & Hport & _ & base & Hbase & Hne & _).
  repeat split; try assumption. now exists base.
Qed.

Lemma rstrip_char_no_trailing (c : ascii) (s x : string) :
  rstrip_char c s <> x ++ String c EmptyString.
Proof.
  revert x. induction s as [|a r IH]; intros x.
  - cbn. destruct x; discriminate.
  - cbn [rstrip_char].
    destruct (rstrip_char c r) as [|b r'] eqn:Hr.
    + destruct (Ascii.eqb a c) eqn:Hac.
      * destruct x; discriminate.
      * destruct x as [|y x]; cbn.
        -- intros [= ->]. now rewrite Ascii.eqb_refl in Hac.
        -- destruct x; discriminate.
    + destruct x as [|y x]; cbn.
      * discriminate.
      * intros [= <- Heq]. now apply (IH x).
Qed.

(** X19.  When [main] of [Lab3] starts the webhook and [WEBHOOK_PATH]
    (or its default) is a slash followed by a route that does not start
    with a slash, the route the server listens on and the URL given to
    Telegram agree: the URL is [PUBLIC_URL] without its trailing
    slashes, one slash, and the route. *)
Theorem webhook_url_and_route_agree (environ : string -> option string)
    (py_int : string -> option Z) (w : world) listen port url_path url
    (route : string) :
  snd (Lab3.main environ py_int w)
  = Started (RunWebhook listen port url_path url) ->
  Lab3.getenv environ "WEBHOOK_PATH" "/webhook" = String "/" route ->
  lstrip_char "/" route = route ->
  url_path = route
  /\ exists base,
       environ "PUBLIC_URL" = Some base
       /\ url = rstrip_char "/" base ++ "/" ++ url_path
       /\ forall x, rstrip_char "/" base <> x ++ "/".
Proof.
  intros Hrun Hpath Hroute.
  destruct (main3_inversion environ py_int w listen port url_path url Hrun)
    as (_ & _ & _ & _ & Hurl_path & base & Hbase & _ & Hurl).
  rewrite Hpath in Hurl_path, Hurl. cbn [lstrip_char] in Hurl_path.
  rewrite Ascii.eqb_refl, Hroute in Hurl_path.
  split; [exact Hurl_path|]. exists base. split; [exact Hbase|].
  split; [now rewrite Hurl_path|].
  intros x. apply rstrip_char_no_trailing.
Qed.

(** X20.  Without a token the bot does not start, in either file:
    [main] ends with the [RuntimeError] of [build_application] and the
    state is untouched, so no job has been registered.  In [Lab3] the
    token is the one of the environment after [load_dotenv]; in [Lab2]
    it is looked for there and then, by hand, in the [.env] file. *)
Theorem no_token_no_start (environ : string -> option string)
    (py_int : string -> option Z) (py_strip : string -> string)
    (env_file : option (list string))
    (dotenv_values :
       (string -> option string) -> list string -> list (string * string))
    (w : world) :
  (not_set (environ "BOT_TOKEN") = true ->
   exists msg, Lab3.main environ py_int w = (w, RuntimeError msg))
  /\ (not_set (Lab2.find_token environ py_strip env_file dotenv_values)
      = true ->
      exists msg,
        Lab2.main environ py_strip env_file dotenv_values w
        = (w, RuntimeError msg)).
Proof.
  split.
  - unfold Lab3.main, Lab3.build_application, not_set.
    destruct (environ "BOT_TOKEN") as [token|].
    + intros ->. eexists. reflexivity.
    + intros _. eexists. reflexivity.
  - unfold Lab2.main, Lab2.build_application, not_set.
    destruct (Lab2.find_token environ py_strip env_file dotenv_values)
      as [token|].
    + intros ->. eexists. reflexivity.
    + intros _. eexists. reflexivity.
Qed.

(** X21.  The manual reading of [.env] in [Lab2]: the first line that,
    stripped, starts with [BOT_TOKEN=] decides; the token is what
    follows the first [=] of that line, stripped, and the lines after
    it are not looked at. *)
Theorem first_token_line_decides (py_strip : string -> string)
    (pre post : list string) (line rest : string) :
  Forall (fun x => String.prefix "BOT_TOKEN=" (py_strip (lstrip_bom x)) = false)
         pre ->
  py_strip (lstrip_bom line) = "BOT_TOKEN=" ++ rest ->
  Lab2.scan_env py_strip (pre ++ line :: post) = Some (py_strip rest).
Proof.
  intros Hpre Hline. induction Hpre as [|x pre Hx Hpre IH].
  - cbn [app Lab2.scan_env]. rewrite Hline. cbn. now destruct rest.
  - cbn [app Lab2.scan_env]. rewrite Hx.
    destruct (_ || _); exact IH.
Qed.

(** X22.  A non-empty [BOT_TOKEN] that the [.env] file assigns wins in
    [Lab2] over the one of the process environment, whatever that is
    ([load_dotenv] runs with [override=True]); the loop over the lines
    is not consulted, and when [schedule_jobs] returns,
    [build_application] returns the application with that token and the
    ten command handlers, in the state [schedule_jobs] left. *)
Theorem token_of_dotenv_overrides_the_environment
    (environ : string -> option string) (py_strip : string -> string)
    (lines : list string)
    (dotenv_values :
       (string -> option string) -> list string -> list (string * string))
    (w : world) token :
  Lab2.last_value "BOT_TOKEN" (dotenv_values environ lines) = Some token ->
  token <> "" ->
  Lab2.find_token environ py_strip (Some lines) dotenv_values = Some token
  /\ (snd (Lab2.schedule_jobs w) = Ok tt ->
      Lab2.build_application environ py_strip (Some lines) dotenv_values w
      = (fst (Lab2.schedule_jobs w),
         Started (mkApplication token command_handlers))).
Proof.
  intros Hfile Hne. apply String.eqb_neq in Hne.
  assert (Hfind : Lab2.find_token environ py_strip (Some lines) dotenv_values
                  = Some token).
  { unfold Lab2.find_token, Lab2.getenv. rewrite Hfile.
    cbn [not_set]. now rewrite Hne. }
  split; [exact Hfind|].
  intros Hjobs. unfold Lab2.build_application. rewrite Hfind, Hne.
  destruct (Lab2.schedule_jobs w) as [w1 [[]|e]]; [reflexivity|discriminate].
Qed.

End Further.

(** ** The properties on concrete stores *)

Import Cases.
#[local] Existing Instance Demo.host.

(** [strptime] reads the decimal digits of every script where its
    pattern has [\d], and ASCII digits only where it has a range. *)
Lemma strptime_HM_on_digits_of_other_scripts :
  strptime_HM (JStr "٩:٥") = Ok (9, 5)
  /\ strptime_HM (JStr "1٩:0٥") = Ok (19, 5)
  /\ strptime_HM (JStr "2٣:00") = Raise ValueError
  /\ strptime_HM (JStr "09:60") = Raise ValueError.
Proof. vm_compute. repeat split. Qed.

(** The night shift of Monday 00:05: its reminder, registered in both
    files at 23:50 with the index 0, is due on Sunday 1 November at
    23:50 Berlin time and not on Monday 2 November at 23:50. *)
Lemma night_shift_reminder_fires_sunday_2350 :
  In (reminder_of 0 23 50 night_shift)
     (job_queue (fst (Lab2.schedule_jobs
                        (Demo.world_with (store [night_shift])))))
  /\ In (reminder_of 0 23 50 night_shift)
        (job_queue (fst (Lab3.schedule_jobs
                           (Demo.world_with (store [night_shift])))))
  /\ fires offset (reminder_of 0 23 50 night_shift) sunday_2350 = true
  /\ fires offset (reminder_of 0 23 50 night_shift) monday_2350 = false.
Proof.
  destruct (early_reminder_fires_on_the_day_before
              (Demo.world_with (store [night_shift])) berlin
              (store [night_shift]) [night_shift]
              [("day", JStr "Понедельник"); ("time", JStr "00:05");
               ("title", JStr "Ночная смена");
               ("description", JStr "Пересменка")]
              "Понедельник" 0 (JStr "00:05") 0 5)
    as (title & time_field & description & Ht & Hf & Hd & Hq2 & Hq3
        & Hdue & Hnot);
    [ now vm_compute | now vm_compute | now vm_compute | now left
    | now vm_compute | now vm_compute | now vm_compute | now vm_compute
    | lia | ].
  vm_compute in Ht, Hf, Hd.
  injection Ht as <-. injection Hf as <-. injection Hd as <-.
  change (reminder_job berlin 0 0 5 (JStr "Ночная смена") (JStr "00:05")
            (JStr "Пересменка"))
    with (reminder_of 0 23 50 night_shift) in *.
  split; [exact Hq2|]. split; [exact Hq3|]. split.
  - apply Hdue. vm_compute. split; reflexivity.
  - destruct (fires offset (reminder_of 0 23 50 night_shift) monday_2350)
      eqn:E; [|reflexivity].
    apply Hnot in E. destruct E as [E _].
    exfalso. apply E. vm_compute. reflexivity.
Defined.

(** The daily digest is due at 09:00 Berlin time on a day of summer time
    and on a day of winter time, at two different offsets from UTC. *)
Lemma daily_digest_at_nine_local_berlin :
  fires offset (daily_digest_job berlin) summer_nine = true
  /\ fires offset (daily_digest_job berlin) winter_nine = true
  /\ offset berlin summer_nine <> offset berlin winter_nine.
Proof.
  split; [|split].
  - apply (daily_digest_at_nine_local (Demo.world_with (store calendar))
             "Europe/Berlin" berlin offset summer_nine); reflexivity || (now vm_compute).
  - apply (daily_digest_at_nine_local (Demo.world_with (store calendar))
             "Europe/Berlin" berlin offset winter_nine); reflexivity || (now vm_compute).
  - vm_compute. discriminate.
Defined.



(** With two subscribers and an empty events list in the store, a
    reminder fire sends nothing, not even to the chat the transport
    serves. *)
Lemma reminder_not_sent_when_events_empty :
  listing (store []) "subscribers" = Ok [JNum 111; JNum 222]
  /\ delivers (JNum 222) (FString [Lit "Напоминание: "; Fmt (JStr "Ночная смена");
                                    Lit " в "; Fmt (JStr "00:05"); Lit ". ";
                                    Fmt (JStr "Пересменка")]) = true
  /\ outbox (fst (send_event_reminder (reminder_of 0 23 50 night_shift)
                    (Demo.world_with (store []))))
     = [].
Proof. vm_compute. repeat split. Qed.

(** With an event in the store, the reminder of the stand-up reaches
    chat 222, the one the transport serves; on the store without an
    [events] key it reaches nobody. *)
Lemma reminder_goes_to_every_subscriber_of_the_store :
  outbox (fst (send_event_reminder (reminder_of 4 8 55 standup)
                 (Demo.world_with (store [standup]))))
  = [(JNum 222, FString [Lit "Напоминание: "; Fmt (JStr "Стендап"); Lit " в ";
                         Fmt (JStr "09:10"); Lit ". ";
                         Fmt (JStr "Планы на день")])]
  /\ outbox (fst (send_event_reminder (reminder_of 4 8 55 standup)
                    (Demo.world_with bare_store)))
     = [].
Proof.
  split.
  - destruct (reminder_goes_out_only_when_events_exist
                (reminder_of 4 8 55 standup)
                (Demo.world_with (store [standup]))
                (store [standup]) (JArr [standup]))
      as (Hsend & _); [now vm_compute ..|].
    destruct (Hsend eq_refl [JNum 111; JNum 222]
                (JStr "Стендап") (JStr "09:10") (JStr "Планы на день"))
      as (_ & Hout & _); [now vm_compute ..|].
    rewrite Hout. now vm_compute.
  - destruct (reminder_goes_out_only_when_events_exist
                (reminder_of 4 8 55 standup) (Demo.world_with bare_store)
                bare_store (JArr []))
      as (_ & Hidle); [now vm_compute ..|].
    destruct (Hidle eq_refl) as (_ & Hout & _).
    rewrite Hout. reflexivity.
Defined.

(** The calendar has an English weekday and a time of 25:00 between two
    well-formed events: in both files both well-formed events are
    scheduled after the digest, both malformed ones are logged. *)
Lemma malformed_events_of_the_calendar_skipped :
  (job_queue (fst (Lab2.schedule_jobs (Demo.world_with (store calendar))))
   = [daily_digest_job berlin; reminder_of 0 23 50 night_shift;
      reminder_of 4 8 55 standup]
   /\ In (ReminderNotScheduled no_such_day KeyError)
         (log (fst (Lab2.schedule_jobs (Demo.world_with (store calendar)))))
   /\ In (ReminderNotScheduled no_such_time ValueError)
         (log (fst (Lab2.schedule_jobs (Demo.world_with (store calendar))))))
  /\ (job_queue (fst (Lab3.schedule_jobs (Demo.world_with (store calendar))))
      = [daily_digest_job berlin; reminder_of 0 23 50 night_shift;
         reminder_of 4 8 55 standup]
      /\ In (ReminderNotScheduled no_such_day KeyError)
            (log (fst (Lab3.schedule_jobs (Demo.world_with (store calendar)))))
      /\ In (ReminderNotScheduled no_such_time ValueError)
            (log (fst (Lab3.schedule_jobs
                         (Demo.world_with (store calendar)))))).
Proof.
  destruct (malformed_event_skipped_alone (Demo.world_with (store calendar))
              berlin (store calendar) calendar)
    as ((_ & (Hq2 & _) & (_ & Hday2 & Htime2))
        & (_ & (Hq3 & _) & (_ & Hday3 & Htime3))); [now vm_compute ..|].
  split; (split; [|split]).
  - rewrite Hq2. now vm_compute.
  - apply (Hday2 [("day", JStr "Friday"); ("time", JStr "10:00");
                  ("title", JStr "Demo"); ("description", JStr "-")]
             "Friday"); [cbn; tauto | now vm_compute ..].
  - apply (Htime2 [("day", JStr "Среда"); ("time", JStr "25:00");
                   ("title", JStr "Ревью"); ("description", JStr "-")]
             "Среда" 2 (JStr "25:00") ValueError);
      [cbn; tauto | now vm_compute ..].
  - rewrite Hq3. now vm_compute.
  - apply (Hday3 [("day", JStr "Friday"); ("time", JStr "10:00");
                  ("title", JStr "Demo"); ("description", JStr "-")]
             "Friday"); [cbn; tauto | now vm_compute ..].
  - apply (Htime3 [("day", JStr "Среда"); ("time", JStr "25:00");
                   ("title", JStr "Ревью"); ("description", JStr "-")]
             "Среда" 2 (JStr "25:00") ValueError);
      [cbn; tauto | now vm_compute ..].
Defined.


(** Chat 333 sends [/start] twice to a store that does not know it:
    the stored list then holds 333 once. *)
Lemma olga_subscribes_twice :
  exists stored subs,
    snd (load_data (fst (start olga
                           (fst (start olga
                                   (Demo.world_with (store [standup]))))))) 
    = Ok stored
    /\ dict_get stored "subscribers" (JArr []) = Ok (JArr subs)
    /\ occurrences 333 subs = 1%nat.
Proof.
  destruct (subscribing_twice_leaves_one_occurrence olga
              (Demo.world_with (store [standup])) 333 (store [standup])
              [JNum 111; JNum 222]
              (JObj [("subscribers", JArr [JNum 111; JNum 222; JNum 333]);
                     ("events", JArr [standup]);
                     ("digests", JObj [("Понедельник", JStr "Hi")])]))
    as (_ & _ & Hone & _);
    [ now vm_compute
    | now vm_compute
    | now vm_compute
    | vm_compute; lia
    | now vm_compute
    | intros _; eexists; split; now vm_compute
    | exact Hone ].
Defined.

(** The store with the calendar is read back as it was saved. *)
Lemma calendar_survives_the_store :
  load_data (fst (save_data (store calendar) Demo.empty_world))
  = (fst (save_data (store calendar) Demo.empty_world), Ok (store calendar)).
Proof.
  apply (save_then_load_returns_document Demo.empty_world (store calendar)).
  eexists. split; now vm_compute.
Defined.

(** The stand-up of Friday 09:10: its reminder is registered at 08:55
    with the index 4, which the job runner reads as Thursday; it is due
    on Thursday 5 November at 08:55 Berlin time and not on Friday
    6 November at 08:55. *)
Lemma standup_reminder_fires_thursday_0855 :
  In (reminder_of 4 8 55 standup)
     (job_queue (fst (Lab2.schedule_jobs (Demo.world_with (store calendar)))))
  /\ job_days (reminder_of 4 8 55 standup) = [4]
  /\ fires offset (reminder_of 4 8 55 standup) thursday_0855 = true
  /\ fires offset (reminder_of 4 8 55 standup) friday_0855 = false.
Proof.
  destruct (later_reminder_fires_a_day_early
              (Demo.world_with (store calendar)) berlin (store calendar)
              calendar
              [("day", JStr "Пятница"); ("time", JStr "09:10");
               ("title", JStr "Стендап");
               ("description", JStr "Планы на день")]
              "Пятница" 4 (JStr "09:10") 9 10)
    as (title & time_field & description & Ht & Hf & Hd & Hq2 & _ & Hdays
        & _ & Hdue & Hnot);
    [ now vm_compute | now vm_compute | now vm_compute | cbn; tauto
    | now vm_compute | now vm_compute | now vm_compute | now vm_compute
    | lia | ].
  vm_compute in Ht, Hf, Hd.
  injection Ht as <-. injection Hf as <-. injection Hd as <-.
  change (reminder_job berlin 4 9 10 (JStr "Стендап") (JStr "09:10")
            (JStr "Планы на день"))
    with (reminder_of 4 8 55 standup) in *.
  split; [exact Hq2|]. split; [exact Hdays|]. split.
  - apply Hdue. vm_compute. split; reflexivity.
  - destruct (fires offset (reminder_of 4 8 55 standup) friday_0855)
      eqn:E; [|reflexivity].
    apply Hnot in E. exfalso. apply E. vm_compute. reflexivity.
Defined.

(** Chat 222 is in the stored list: its [/start] leaves [data.json] as
    it is. *)
Lemma ivan_is_already_subscribed :
  data_file (fst (start subscriber (Demo.world_with (store calendar))))
  = data_file (Demo.world_with (store calendar)).
Proof.
  rewrite (start_of_a_subscriber_saves_nothing subscriber
             (Demo.world_with (store calendar)) 222 (store calendar)
             (JArr [JNum 111; JNum 222])); now vm_compute.
Defined.

(** ** The further properties on concrete stores *)

Import Edge.

(** X1 on a missing and on a torn [data.json]. *)
Lemma load_data_of_a_missing_and_of_a_torn_file :
  snd (load_data Demo.empty_world) = Ok (JObj [])
  /\ snd (load_data torn_world) = Ok (JObj []).
Proof.
  split.
  - destruct (load_data_falls_back_to_empty_document Demo.empty_world)
      as (Hr & _); [left; reflexivity | exact Hr].
  - destruct (load_data_falls_back_to_empty_document torn_world)
      as (Hr & _); [right; exists "{"; now vm_compute | exact Hr].
Defined.

(** X2 on the faulty host: the calendar stays in the store when saving
    an empty store fails. *)
Lemma failed_save_keeps_the_calendar :
  snd (@load_data Faulty.host
         (fst (@save_data Faulty.host (store [])
                 (Demo.world_with (store calendar)))))
  = Ok (store calendar).
Proof.
  destruct (@failed_save_keeps_the_stored_document Faulty.host (store [])
              (Demo.world_with (store calendar)) "{" TypeError)
    as (_ & Hload & _); [reflexivity|].
  rewrite Hload. now vm_compute.
Defined.

(** X3 on the faulty host, whose zone is Mars/Olympus. *)
Lemma mars_falls_back_to_moscow :
  snd (@get_timezone Faulty.host Demo.empty_world)
  = Ok (Zone "Europe/Moscow")
  /\ log (fst (@get_timezone Faulty.host Demo.empty_world))
     = [InvalidTimezone "Mars/Olympus"].
Proof.
  destruct (@unknown_time_zone_falls_back_to_moscow Faulty.host
              Demo.empty_world "Mars/Olympus" UnknownTimeZoneError
              (Zone "Europe/Moscow"))
    as (Hrun & _); [now vm_compute ..|].
  rewrite Hrun. split; reflexivity.
Defined.

(** X5 for Friday: the clock of the demo host shows a Monday, four days
    later is a Friday. *)
Lemma friday_comes_back :
  weekday_ru (mkDatetime 739926 9 10 0 0) = Ok "Пятница".
Proof.
  destruct (weekday_label_comes_back "Пятница" 4 (mkDatetime 739926 9 10 0 0))
    as (_ & Hlabel); [now vm_compute ..|].
  exact Hlabel.
Defined.

(** X6 for Olga on the calendar store. *)
Lemma olga_is_appended_to_the_subscribers :
  exists data',
    snd (load_data (fst (start olga (Demo.world_with (store calendar)))))
    = Ok data'
    /\ listing data' "subscribers" = Ok [JNum 111; JNum 222; JNum 333]
    /\ dict_get data' "events" JNull = Ok (JArr calendar).
Proof.
  pose (data' := JObj [("subscribers", JArr [JNum 111; JNum 222; JNum 333]);
                       ("events", JArr calendar);
                       ("digests", JObj [("Понедельник", JStr "Hi")])]).
  exists data'.
  destruct (start_appends_and_keeps_the_rest olga
              (Demo.world_with (store calendar)) 333 (store calendar)
              [JNum 111; JNum 222] data')
    as (_ & Hload & Hsubs & Hkeys & _);
    [now vm_compute | now vm_compute | now vm_compute | now vm_compute
    | now vm_compute | apply demo_codec_round_trips |].
  rewrite Hload. split; [reflexivity|]. split; [exact Hsubs|].
  rewrite Hkeys by discriminate. reflexivity.
Defined.

(** X7 for Olga on the faulty host. *)
Lemma olga_is_greeted_and_not_subscribed :
  snd (@start Faulty.host olga (Demo.world_with (store calendar))) = Ok tt
  /\ snd (@load_data Faulty.host
            (fst (@start Faulty.host olga (Demo.world_with (store calendar)))))
     = Ok (store calendar).
Proof.
  destruct (@start_greets_even_when_the_save_fails Faulty.host olga
              (Demo.world_with (store calendar)) 333 (store calendar)
              [JNum 111; JNum 222]
              (JObj [("subscribers", JArr [JNum 111; JNum 222; JNum 333]);
                     ("events", JArr calendar);
                     ("digests", JObj [("Понедельник", JStr "Hi")])])
              "{" TypeError)
    as (Hr & _ & Hload & _); [now vm_compute ..|].
  split; assumption.
Defined.

(** X8 on a store whose [subscribers] is the number 5. *)
Lemma start_on_the_odd_store_raises :
  replies (fst (start olga (Demo.world_with odd_store))) = []
  /\ data_file (fst (start olga (Demo.world_with odd_store)))
     = data_file (Demo.world_with odd_store).
Proof.
  destruct (start_raises_when_subscribers_is_no_list olga
              (Demo.world_with odd_store) 333 odd_store (JNum 5))
    as (_ & Hreplies & Hfile & _);
    [now vm_compute | now vm_compute | now vm_compute | exact I |].
  split; assumption.
Defined.

(** X9 for an update without a chat on the calendar store. *)
Lemma nobody_is_greeted_and_not_subscribed :
  snd (start nobody (Demo.world_with (store calendar))) = Ok tt
  /\ data_file (fst (start nobody (Demo.world_with (store calendar))))
     = data_file (Demo.world_with (store calendar)).
Proof.
  destruct (start_without_a_chat_only_greets nobody
              (Demo.world_with (store calendar)) (store calendar)
              (JArr [JNum 111; JNum 222]))
    as (Hr & Hfile & _); [now vm_compute ..|].
  split; assumption.
Defined.

(** X10 on the store without digests: the clock shows a Monday. *)
Lemma no_digest_on_the_odd_store :
  outbox (fst (send_daily_digest (Demo.world_with odd_store))) = []
  /\ replies (fst (digest (Demo.world_with odd_store)))
     = [(FString [Lit "На сегодня нет дайджеста."], None)].
Proof.
  destruct (no_digest_today_means_no_message (Demo.world_with odd_store)
              berlin "Понедельник" odd_store (JObj []) JNull)
    as ((_ & Hout) & (_ & Hreplies)); [now vm_compute ..|].
  split; assumption.
Defined.

(** X11 on the calendar store: Monday's digest is [Hi]. *)
Lemma monday_digest_of_the_calendar_store :
  replies (fst (digest (Demo.world_with (store calendar))))
  = [(Value (JStr "Hi"), None)]
  /\ replies (fst (send_daily_digest (Demo.world_with (store calendar)))) = [].
Proof.
  destruct (digest_command_shows_what_the_job_sends
              (Demo.world_with (store calendar)) berlin "Понедельник"
              (store calendar) (JObj [("Понедельник", JStr "Hi")]) (JStr "Hi")
              [JNum 111; JNum 222])
    as ((_ & Hreplies & _) & (_ & Hnone & _)); [now vm_compute ..|].
  split; assumption.
Defined.

(** X12 on the store whose [events] is missing and on a store whose
    [events] is a number. *)
Lemma schedule_jobs_on_a_number_of_events_raises :
  snd (Lab2.schedule_jobs (Demo.world_with (store calendar))) = Ok tt
  /\ snd (Lab3.schedule_jobs
            (Demo.world_with (JObj [("events", JNum 3)]))) <> Ok tt.
Proof.
  split.
  - destruct (schedule_jobs_fails_only_on_zone_or_document
                (Demo.world_with (store calendar))) as ((_ & Hback) & _).
    apply Hback.
    split; [exists berlin; now vm_compute|].
    exists (store calendar), calendar. split; now vm_compute.
  - destruct (schedule_jobs_fails_only_on_zone_or_document
                (Demo.world_with (JObj [("events", JNum 3)])))
      as (_ & (Hforth & _)).
    intros Hr. destruct (Hforth Hr) as (_ & data & evs & Hload & Hevs).
    vm_compute in Hload. injection Hload as <-.
    vm_compute in Hevs. discriminate.
Defined.

(** X13 for the reminder of the stand-up in the calendar store. *)
Lemma standup_reminder_is_well_formed :
  In (reminder_of 4 8 55 standup)
     (job_queue (Demo.world_with (store calendar)))
  \/ reminder_of 4 8 55 standup = daily_digest_job berlin
  \/ (job_callback (reminder_of 4 8 55 standup) = SendEventReminder
      /\ t_tzinfo (job_time (reminder_of 4 8 55 standup)) = berlin
      /\ 0 <= t_hour (job_time (reminder_of 4 8 55 standup)) < 24
      /\ 0 <= t_minute (job_time (reminder_of 4 8 55 standup)) < 60
      /\ exists ev time_str idx h m,
           In ev calendar
           /\ dict_get ev "time" (JStr "00:00") = Ok time_str
           /\ strptime_HM time_str = Ok (h, m)
           /\ job_days (reminder_of 4 8 55 standup) = [idx] /\ 0 <= idx <= 6
           /\ (60 * t_hour (job_time (reminder_of 4 8 55 standup))
               + t_minute (job_time (reminder_of 4 8 55 standup)))
              = (60 * h + m - 15) mod 1440).
Proof.
  apply (registered_jobs_are_well_formed (Demo.world_with (store calendar))
           berlin (store calendar) calendar (reminder_of 4 8 55 standup)).
  - now vm_compute.
  - now vm_compute.
  - now vm_compute.
  - vm_compute. right. right. left. reflexivity.
Defined.

(** X14 for the retrospective: Wednesday, no time. *)
Lemma retro_is_reminded_at_2345 :
  In (mkJob SendEventReminder (mkTime 23 45 berlin) [2]
        (Some (JObj [("title", JStr "Ретро"); ("time", JNull);
                     ("description", JStr "Итоги")]))
        (FString [Lit "reminder_"; Fmt (JNum 2); Lit "_"; Fmt JNull]))
     (job_queue (fst (Lab2.schedule_jobs (Demo.world_with (store [retro]))))).
Proof.
  destruct (event_without_time_is_reminded_at_2345
              (Demo.world_with (store [retro])) berlin (store [retro]) [retro]
              [("day", JStr "Среда"); ("title", JStr "Ретро");
               ("description", JStr "Итоги")] (JStr "Среда") 2)
    as (title & description & Htitle & Hdescr & Hin);
    [now vm_compute | now vm_compute | now vm_compute | now left
    | now vm_compute | now vm_compute | now vm_compute |].
  vm_compute in Htitle. injection Htitle as <-.
  vm_compute in Hdescr. injection Hdescr as <-.
  exact Hin.
Defined.

(** X16 in a fresh process without [data.json]. *)
Lemma team_and_events_without_a_store :
  replies (fst (team Demo.empty_world))
  = [(FString [Lit "Нет данных о команде."], None)]
  /\ replies (fst (Lab2.events Demo.empty_world))
     = [(FString [Lit "Ближайших событий нет."], None)].
Proof.
  destruct (handlers_answer_without_a_store Demo.empty_world)
    as (_ & (_ & Hteam) & _ & (_ & Hevents) & _); [reflexivity|].
  split; assumption.
Defined.

(** X17 on the calendar store. *)
Lemma events_of_the_calendar_same_in_both_files :
  replies (fst (Lab2.events (Demo.world_with (store calendar))))
  = replies (fst (Lab3.events (Demo.world_with (store calendar)))).
Proof.
  destruct (events_command_same_in_both_files
              (Demo.world_with (store calendar)) berlin)
    as (_ & Hreplies & _); [now vm_compute|].
  exact Hreplies.
Defined.

(** X18 for the webhook environment: port 8443, token and public URL
    set. *)
Lemma webhook_environment_is_complete :
  Faulty.webhook_env "USE_WEBHOOK" = Some "1"
  /\ Faulty.decimal (Lab3.getenv Faulty.webhook_env "WEBHOOK_PORT" "8080")
     = Some 8443.
Proof.
  destruct (webhook_runs_only_when_configured Faulty.webhook_env
              Faulty.decimal (Demo.world_with (store calendar))
              "0.0.0.0" 8443 "webhook" "https://bot.example/webhook")
    as (_ & Huse & _ & Hport & _); [now vm_compute|].
  split; assumption.
Defined.

(** X19 for the webhook environment: the public URL ends in two slashes,
    the path is the default one. *)
Lemma webhook_of_the_example_agrees :
  snd (Lab3.main Faulty.webhook_env Faulty.decimal
         (Demo.world_with (store calendar)))
  = Started (RunWebhook "0.0.0.0" 8443 "webhook" "https://bot.example/webhook")
  /\ exists base,
       Faulty.webhook_env "PUBLIC_URL" = Some base
       /\ "https://bot.example/webhook"
          = rstrip_char "/" base ++ "/" ++ "webhook".
Proof.
  assert (Hrun : snd (Lab3.main Faulty.webhook_env Faulty.decimal
                        (Demo.world_with (store calendar)))
                 = Started (RunWebhook "0.0.0.0" 8443 "webhook"
                              "https://bot.example/webhook"))
    by now vm_compute.
  split; [exact Hrun|].
  destruct (webhook_url_and_route_agree Faulty.webhook_env Faulty.decimal
              (Demo.world_with (store calendar)) "0.0.0.0" 8443 "webhook"
              "https://bot.example/webhook" "webhook" Hrun)
    as (_ & base & Hbase & Hurl & _); [now vm_compute | now vm_compute |].
  exists base. split; assumption.
Defined.

(** X20 for an environment without a token and a [.env] whose only
    [BOT_TOKEN] line is empty. *)
Lemma empty_token_line_does_not_start_the_bot :
  exists msg,
    Lab2.main Faulty.bare_env Faulty.strip (Some Faulty.dotenv)
      Faulty.read_dotenv (Demo.world_with (store calendar))
    = (Demo.world_with (store calendar), RuntimeError msg).
Proof.
  destruct (no_token_no_start Faulty.bare_env Faulty.decimal Faulty.strip
              (Some Faulty.dotenv) Faulty.read_dotenv
              (Demo.world_with (store calendar)))
    as (_ & Hlab2).
  apply Hlab2. now vm_compute.
Defined.

(** X21 for a [.env] that sets the token on its second line. *)
Lemma token_of_the_second_line :
  Lab2.scan_env Faulty.strip Faulty.dotenv_ok = Some "123:abc=def".
Proof.
  apply (first_token_line_decides Faulty.strip ["# bot settings" ++ newline]
           ["BOT_TOKEN=other" ++ newline]
           ("  BOT_TOKEN= 123:abc=def " ++ newline) " 123:abc=def").
  - constructor; [now vm_compute | constructor].
  - now vm_compute.
Defined.

(** X22 for a token in the environment and a [.env] that assigns the
    token twice: the last assignment of the file is the token. *)
Lemma dotenv_token_beats_environment :
  Lab2.find_token Faulty.polling_env Faulty.strip
    (Some Faulty.dotenv_ok) Faulty.read_dotenv
  = Some "other".
Proof.
  destruct (token_of_dotenv_overrides_the_environment
              Faulty.polling_env Faulty.strip
              Faulty.dotenv_ok Faulty.read_dotenv
              (Demo.world_with (store calendar)) "other")
    as (Hfind & _); [now vm_compute | discriminate |].
  exact Hfind.
Defined.
